(** * code-reviewer: resolving SCM diffs and assembling the review prompt

    A shallow embedding of [promptTemplates.ts] and [reviewDiff.ts]
    (the Git + SVN revision, and the Git-only revision kept in
    [src/reviewDiff.ts]), with the properties the specification states
    about them.

    Conventions of the embedding:
    - a JavaScript string is the list of its UTF-16 code units, so that
      [.length], [.slice] and [.split] count what the engine counts;
    - JavaScript numbers that appear in the program are integers far below
      2^53 and are modelled by [Z];
    - a promise that may reject, or a call that may throw, returns [Exc];
    - the host (VS Code, the git extension, the file system, the [svn]
      command, the user answering a dialog) is a record of oracles [Host];
      what the program shows or sends is collected as a list of [Event]s. *)

From Equations Require Import Equations.
From Stdlib Require Import List ZArith NArith Bool Lia Ascii String DecimalString.
Import ListNotations.

Set Implicit Arguments.
Set Warnings "-abstract-large-number".
Local Open Scope Z_scope.

(* ===================================================================== *)
(** * JavaScript strings *)
(* ===================================================================== *)

Module Js.

(** A UTF-16 code unit. *)
Definition unit16 := N.

(** A string value: its sequence of code units. *)
Definition str := list unit16.

Definition str_eqb (a b : str) : bool :=
  if list_eq_dec N.eq_dec a b then true else false.

(** ** String literals of the source text

    The source files are UTF-8; a literal denotes the UTF-16 encoding of the
    code points it spells.  [lit] decodes the bytes of a Rocq string (which
    holds the literal exactly as the source file does) into code units. *)

Definition cont (b : N) : N := N.land b 63.

Definition surrogates (cp : N) : list unit16 :=
  if (cp <? 65536)%N then [cp]
  else [ (55296 + N.shiftr (cp - 65536) 10)%N ;
         (56320 + N.land (cp - 65536) 1023)%N ].

Fixpoint utf16_bytes (bs : list N) : str :=
  match bs with
  | [] => []
  | b0 :: r0 =>
      if (b0 <? 128)%N then b0 :: utf16_bytes r0
      else if (b0 <? 224)%N then
        match r0 with
        | b1 :: r1 =>
            (N.shiftl (N.land b0 31) 6 + cont b1)%N :: utf16_bytes r1
        | _ => [65533%N]
        end
      else if (b0 <? 240)%N then
        match r0 with
        | b1 :: b2 :: r2 =>
            (N.shiftl (N.land b0 15) 12 + N.shiftl (cont b1) 6 + cont b2)%N
              :: utf16_bytes r2
        | _ => [65533%N]
        end
      else
        match r0 with
        | b1 :: b2 :: b3 :: r3 =>
            surrogates (N.shiftl (N.land b0 7) 18 + N.shiftl (cont b1) 12
                        + N.shiftl (cont b2) 6 + cont b3)%N
              ++ utf16_bytes r3
        | _ => [65533%N]
        end
  end.

Definition lit (s : string) : str :=
  utf16_bytes (map N_of_ascii (list_ascii_of_string s)).

(** The characters the program names by escape sequences. *)
Definition NUL : unit16 := 0%N.   (* '\0' *)
Definition LF : unit16 := 10%N.   (* '\n' *)
Definition DOLLAR : unit16 := 36%N.

(** ** Truthiness of [string | undefined] *)

Definition truthy (v : option str) : bool :=
  match v with
  | Some (_ :: _) => true
  | _ => false
  end.

(** [v || undefined] *)
Definition or_undefined (v : option str) : option str :=
  if truthy v then v else None.

(** ** [String.prototype] methods used by the program *)

Definition length (s : str) : Z := Z.of_nat (List.length s).

(** [s.slice(0, n)] for [0 <= n]. *)
Definition slice0 (s : str) (n : Z) : str := firstn (Z.to_nat n) s.

(** [s.charAt(0)] *)
Definition charAt0 (s : str) : str :=
  match s with
  | [] => []
  | c :: _ => [c]
  end.

Fixpoint startsWith (s p : str) : bool :=
  match p, s with
  | [], _ => true
  | _ :: _, [] => false
  | c :: p', d :: s' => (c =? d)%N && startsWith s' p'
  end.

(** [s.indexOf(p)]: the number of code units before the first occurrence. *)
Fixpoint indexOf (s p : str) : option nat :=
  if startsWith s p then Some O
  else match s with
       | [] => None
       | _ :: s' => option_map S (indexOf s' p)
       end.

Definition includes (s p : str) : bool :=
  match indexOf s p with
  | Some _ => true
  | None => false
  end.

(** [s.split(sep)] for a one-unit separator: never an empty array. *)
Fixpoint split (sep : unit16) (s : str) : list str :=
  match s with
  | [] => [[]]
  | c :: s' =>
      if (c =? sep)%N then [] :: split sep s'
      else match split sep s' with
           | [] => [[c]]
           | l :: ls => (c :: l) :: ls
           end
  end.

(** [parts.join(sep)] *)
Fixpoint join (sep : str) (parts : list str) : str :=
  match parts with
  | [] => []
  | [p] => p
  | p :: ps => p ++ sep ++ join sep ps
  end.

(** White space and line terminators, as [trim] strips them. *)
Definition isWhite (c : unit16) : bool :=
  existsb (N.eqb c)
    [9; 10; 11; 12; 13; 32; 160; 5760; 8232; 8233; 8239; 8287; 12288; 65279]%N
  || ((8192 <=? c) && (c <=? 8202))%N.

Fixpoint trimStart (s : str) : str :=
  match s with
  | c :: s' => if isWhite c then trimStart s' else s
  | [] => []
  end.

Fixpoint trimEnd (s : str) : str :=
  match s with
  | [] => []
  | c :: s' =>
      match trimEnd s' with
      | [] => if isWhite c then [] else [c]
      | t => c :: t
      end
  end.

Definition trim (s : str) : str := trimEnd (trimStart s).

(** [s.toLowerCase()].  On a text of Basic Latin characters only, the
    letters A to Z are lowered and nothing else changes.  On any other text
    the result depends on the Unicode case tables of the engine, which are
    not part of the program: [engine] gives it. *)
Definition isBasicLatin (s : str) : bool := forallb (fun c => (c <? 128)%N) s.

Definition toLowerCase (engine : str -> str) (s : str) : str :=
  if isBasicLatin s
  then map (fun c => if ((65 <=? c) && (c <=? 90))%N then (c + 32)%N else c) s
  else engine s.

(** [String(n)] / [`${n}`] for an integer [n]. *)
Definition ofNumber (n : Z) : str :=
  lit (NilEmpty.string_of_int (Z.to_int n)).

(** ** [s.replace(pattern, replacement)] with a string pattern

    Only the first occurrence is replaced, and the replacement text is a
    template: [$$] stands for a dollar sign, [$&] for the matched text,
    [$`] for what precedes the match and [$'] for what follows it; any other
    use of [$] is literal (a string pattern has no capture groups). *)
Fixpoint getSubstitution (matched before after templ : str) : str :=
  match templ with
  | [] => []
  | c :: t =>
      if (c =? DOLLAR)%N then
        match t with
        | d :: t' =>
            if (d =? 36)%N then DOLLAR :: getSubstitution matched before after t'
            else if (d =? 38)%N then matched ++ getSubstitution matched before after t'
            else if (d =? 96)%N then before ++ getSubstitution matched before after t'
            else if (d =? 39)%N then after ++ getSubstitution matched before after t'
            else c :: getSubstitution matched before after t
        | [] => [c]
        end
      else c :: getSubstitution matched before after t
  end.

Definition replace (s pattern replacement : str) : str :=
  match indexOf s pattern with
  | None => s
  | Some i =>
      let before := firstn i s in
      let after := skipn (i + List.length pattern) s in
      before ++ getSubstitution pattern before after replacement ++ after
  end.

End Js.

(* ===================================================================== *)
(** * The host: what the extension reads and what it emits *)
(* ===================================================================== *)

(** A call that may throw, or a promise that may reject. *)
Inductive Exc (A : Type) : Type :=
| Ret (a : A)
| Throw.
Arguments Throw {A}.

Definition bindExc {A B} (m : Exc A) (k : A -> Exc B) : Exc B :=
  match m with
  | Ret a => k a
  | Throw => Throw
  end.

Notation "'await' x <- m ; k" := (bindExc m (fun x => k))
  (at level 10, x name, m at level 100, k at level 200).

(** An absolute, normalised file-system path ([uri.fsPath]): the names below
    the root, outermost first.  The root itself is [[]]. *)
Definition Path := list Js.str.

Definition path_eqb (p q : Path) : bool :=
  if list_eq_dec (list_eq_dec N.eq_dec) p q then true else false.

(** [path.dirname]: the root is its own parent. *)
Definition dirname (p : Path) : Path := removelast p.

(** [path.join(dir, name)] *)
Definition path_join (dir : Path) (name : Js.str) : Path := dir ++ [name].

Record Uri := { fsPath : Path }.

Record SourceControlResourceState := { resourceUri : Uri }.

(** Modelled from the spec: the declarations of the git extension's API
    ([./api/git]) are not among the sources.  [Status] has the members of
    that API's enumeration; the program names four of them, the new or
    untracked ones ([UNTRACKED], [INTENT_TO_ADD]) and the deleted ones
    ([DELETED], [INDEX_DELETED]), and treats every other as modified. *)
Inductive Status :=
| INDEX_MODIFIED | INDEX_ADDED | INDEX_DELETED | INDEX_RENAMED | INDEX_COPIED
| MODIFIED | DELETED | UNTRACKED | IGNORED | INTENT_TO_ADD
| ADDED_BY_US | ADDED_BY_THEM | DELETED_BY_US | DELETED_BY_THEM
| BOTH_ADDED | BOTH_DELETED | BOTH_MODIFIED.

(** Modelled from the spec: a pending change of the primary provider, a path
    with its status. *)
Record Change := { uri : Uri; status : Status }.

(** Modelled from the spec: the repository handle of the primary provider,
    with its unstaged and staged pending changes, the committed content of a
    file ([show], which may fail), and its two diffs against the baseline. *)
Record Repository := {
  workingTreeChanges : list Change;
  indexChanges : list Change;
  show : Js.str -> Path -> Exc Js.str;
  diffWithHEAD : Path -> Exc Js.str;
  diffIndexWithHEAD : Path -> Exc Js.str
}.

(** Modelled from the spec: the primary provider finds the repository that
    owns a path, if any. *)
Record GitAPI := { getRepository : Uri -> option Repository }.

(** The [vscode.git] extension as [vscode.extensions.getExtension] returns it,
    with [exports.getAPI(1)]. *)
Record GitExtension := { isActive : bool; getAPI1 : GitAPI }.

(** What [cp.exec] hands to its callback. *)
Record ExecResult := { err : bool; stdout : Js.str }.

Inductive SvnCommand := SvnStatus | SvnCatBase | SvnDiff.

Record Host := {
  (** [vscode.workspace.getConfiguration(section).get(key)] *)
  configuration : Js.str -> Js.str -> option Js.str;
  (** [vscode.env.language] *)
  language : Js.str;
  (** [String.prototype.toLowerCase] of the engine, on a text that holds a
      character outside Basic Latin *)
  unicodeLower : Js.str -> Js.str;
  (** [vscode.extensions.getExtension('vscode.git')] *)
  gitExtension : option GitExtension;
  (** [vscode.workspace.asRelativePath] *)
  asRelativePath : Uri -> Js.str;
  (** how the platform spells a path, as in [`${uri.fsPath}`] *)
  pathText : Path -> Js.str;
  (** [vscode.workspace.fs.readFile], decoded as UTF-8 *)
  readFile : Uri -> Exc Js.str;
  (** [fs.existsSync] *)
  existsSync : Path -> bool;
  (** [cp.exec] of an [svn] subcommand on a file, in a working directory:
      what it hands to its callback, or [Throw] when the call itself throws
      (as it does on a command line that holds a null character) *)
  exec : SvnCommand -> Path -> Path -> Exc ExecResult;
  (** the item the user picks in a warning dialog, if any *)
  pick : Js.str -> list Js.str -> option Js.str
}.

(** [getConfiguration(section).get<string>(key, default)] *)
Definition getConfig (h : Host) (section key default : Js.str) : Js.str :=
  match configuration h section key with
  | Some v => v
  | None => default
  end.

(** What a run shows to the user or sends to the chat panel. *)
Inductive Event :=
| ShowInformationMessage (message : Js.str)
| ShowErrorMessage (message : Js.str)
| ShowWarningMessage (message : Js.str) (items : list Js.str)
| ExecuteCommand (command : Js.str) (query : Js.str).

(* ===================================================================== *)
(** * promptTemplates.ts *)
(* ===================================================================== *)

Record PromptTemplate := {
  header : Js.str;
  fileLabel : Js.str;
  skipNotice : Z -> Js.str
}.

(** The value of [PROMPT_TEMPLATES[key]]: a template for an own key, and
    for a key found on [Object.prototype] some built-in on which [header],
    [fileLabel] and [skipNotice] are all undefined. *)
Inductive TemplateSlot :=
| Own (t : PromptTemplate)
| Inherited.

(** The property names every object literal inherits from
    [Object.prototype]; the [in] operator sees them. *)
Definition Object_prototype : list Js.str :=
  map Js.lit
    [ "constructor"; "__defineGetter__"; "__defineSetter__"; "hasOwnProperty";
      "__lookupGetter__"; "__lookupSetter__"; "isPrototypeOf";
      "propertyIsEnumerable"; "toString"; "valueOf"; "__proto__";
      "toLocaleString" ]%string.

Definition Table := list (Js.str * PromptTemplate).

Fixpoint own (t : Table) (key : Js.str) : option PromptTemplate :=
  match t with
  | [] => None
  | (k, v) :: t' => if Js.str_eqb k key then Some v else own t' key
  end.

(** [key in table] *)
Definition js_in (key : Js.str) (t : Table) : bool :=
  match own t key with
  | Some _ => true
  | None => existsb (Js.str_eqb key) Object_prototype
  end.

(** [table[key]], for a key that is [in] the table. *)
Definition get_slot (t : Table) (key : Js.str) : TemplateSlot :=
  match own t key with
  | Some v => Own v
  | None => Inherited
  end.

Module PromptTemplates.

Import Js.

Definition PROMPT_TEMPLATES : Table :=
  [ (lit "ja",
     {| header := lit "以下の差分をコードレビューしてください。" ++ [LF]
                  ++ lit "各ファイルについて、問題点・改善案・良い点をそれぞれ具体的に指摘してください。";
        fileLabel := lit "ファイル";
        skipNotice := fun n =>
          lit "> 注意: 差分サイズが上限を超えたため、" ++ ofNumber n
          ++ lit "件のファイルをスキップしました。" |});
    (lit "en",
     {| header := lit "Please review the following diff." ++ [LF]
                  ++ lit "For each file, point out problems, suggestions for improvement, and good points specifically.";
        fileLabel := lit "File";
        skipNotice := fun n =>
          lit "> Note: " ++ ofNumber n
          ++ lit " file(s) were skipped because the diff size exceeded the limit." |});
    (lit "zh-cn",
     {| header := lit "请对以下差异进行代码审查。" ++ [LF]
                  ++ lit "对于每个文件，请具体指出问题、改进建议和优点。";
        fileLabel := lit "文件";
        skipNotice := fun n =>
          lit "> 注意：由于差异大小超出限制，已跳过 " ++ ofNumber n
          ++ lit " 个文件。" |});
    (lit "ko",
     {| header := lit "다음 차이를 코드 리뷰해주세요." ++ [LF]
                  ++ lit "각 파일에 대해 문제점, 개선 제안, 좋은 점을 구체적으로 지적해주세요.";
        fileLabel := lit "파일";
        skipNotice := fun n =>
          lit "> 주의: 차이 크기가 제한을 초과하여 " ++ ofNumber n
          ++ lit "개의 파일을 건너뛰었습니다." |});
    (lit "fr",
     {| header := lit "Veuillez effectuer une revue de code du diff suivant." ++ [LF]
                  ++ lit "Pour chaque fichier, indiquez précisément les problèmes, les suggestions d'amélioration et les points positifs.";
        fileLabel := lit "Fichier";
        skipNotice := fun n =>
          lit "> Remarque : " ++ ofNumber n
          ++ lit " fichier(s) ont été ignorés car la taille du diff dépassait la limite." |});
    (lit "de",
     {| header := lit "Bitte führen Sie ein Code-Review des folgenden Diffs durch." ++ [LF]
                  ++ lit "Geben Sie für jede Datei konkret Probleme, Verbesserungsvorschläge und positive Aspekte an.";
        fileLabel := lit "Datei";
        skipNotice := fun n =>
          lit "> Hinweis: " ++ ofNumber n
          ++ lit " Datei(en) wurden übersprungen, da die Diff-Größe das Limit überschritten hat." |});
    (lit "es",
     {| header := lit "Por favor, realice una revisión de código del siguiente diff." ++ [LF]
                  ++ lit "Para cada archivo, indique concretamente los problemas, sugerencias de mejora y puntos positivos.";
        fileLabel := lit "Archivo";
        skipNotice := fun n =>
          lit "> Nota: Se omitieron " ++ ofNumber n
          ++ lit " archivo(s) porque el tamaño del diff superó el límite." |}) ].

Definition DEFAULT_LANG : str := lit "en".

Definition resolveLanguage (h : Host) : str :=
  let configured :=
    getConfig h (lit "copilot-scm-code-reviewer") (lit "reviewLanguage") (lit "auto") in
  if negb (str_eqb configured (lit "auto")) then
    if js_in configured PROMPT_TEMPLATES then configured else DEFAULT_LANG
  else
    let vscodeLang := toLowerCase (unicodeLower h) (language h) in
    if startsWith vscodeLang (lit "zh") then lit "zh-cn"
    else
      let twoChar := slice0 vscodeLang 2 in
      if js_in twoChar PROMPT_TEMPLATES then twoChar else DEFAULT_LANG.

End PromptTemplates.

(* ===================================================================== *)
(** * Data of the diff resolver and of the orchestrator *)
(* ===================================================================== *)

(** [header], [fileLabel] and [skipNotice] read off a slot: undefined on an
    inherited one, so that interpolating them prints [undefined] and calling
    [skipNotice] throws a [TypeError]. *)
Definition slot_header (s : TemplateSlot) : Js.str :=
  match s with
  | Own t => header t
  | Inherited => Js.lit "undefined"
  end.

Definition slot_fileLabel (s : TemplateSlot) : Js.str :=
  match s with
  | Own t => fileLabel t
  | Inherited => Js.lit "undefined"
  end.

Definition slot_skipNotice (s : TemplateSlot) (n : Z) : Exc Js.str :=
  match s with
  | Own t => Ret (skipNotice t n)
  | Inherited => Throw
  end.

Record DiffEntry := { fileName : Js.str; diffText : Js.str }.

(** The prefix argument of [buildPseudoDiff], of type ['+' | '-']. *)
Inductive Prefix := Plus | Minus.

Definition prefix_unit (p : Prefix) : Js.unit16 :=
  match p with
  | Plus => 43%N
  | Minus => 45%N
  end.

(** The accumulators of the loop of [reviewDiff]. *)
Record LoopState := {
  diffs : list DiffEntry;
  totalSize : Z;
  skippedCount : Z
}.

(** How one pass through a loop body ends. *)
Inductive Control :=
| Continue (st : LoopState)
| Break (st : LoopState)
| Return.

(** [for (const target of targets) body]: how the loop ends -- [Continue]
    when it ran off the end of [targets], [Break] or [Return] when the body
    left it -- and what was shown meanwhile. *)
Fixpoint forOf (A : Type) (body : A -> LoopState -> Control * list Event)
    (targets : list A) (st : LoopState) : Control * list Event :=
  match targets with
  | [] => (Continue st, [])
  | target :: rest =>
      match body target st with
      | (Continue st', shown) =>
          let (r, later) := forOf body rest st' in (r, shown ++ later)
      | (Break st', shown) => (Break st', shown)
      | (Return, shown) => (Return, shown)
      end
  end.

Inductive ScmType := git | svn.

Record ScmInfo := { root : Path; type : ScmType }.

(** ** What the two revisions of [reviewDiff.ts] have word for word in common *)

Definition DIFF_SIZE_LIMIT : Z := 50000.

(** The end of the loop body, from the size check on, for a file whose diff
    text [diffText] is not empty. *)
Definition sizeCheck (h : Host) (targets_length : Z) (fileName diffText : Js.str)
    (st : LoopState) : Control * list Event :=
  if totalSize st + Js.length diffText >? DIFF_SIZE_LIMIT then
    if Z.of_nat (List.length (diffs st)) =? 0 then
      let message :=
        Js.lit "Diff size exceeds the limit (50KB). Send only the first 50KB?"
        ++ [Js.LF] ++ Js.lit "File: " ++ fileName in
      let items := [Js.lit "Send first 50KB"; Js.lit "Cancel"] in
      let answer := pick h message items in
      let shown := [ShowWarningMessage message items] in
      match answer with
      | Some a =>
          if Js.str_eqb a (Js.lit "Send first 50KB") then
            (Break {| diffs := diffs st ++
                        [{| fileName := fileName;
                            diffText := Js.slice0 diffText DIFF_SIZE_LIMIT |}];
                      totalSize := totalSize st;
                      skippedCount := skippedCount st + (targets_length - 1) |},
             shown)
          else (Return, shown)
      | None => (Return, shown)
      end
    else
      (Break {| diffs := diffs st; totalSize := totalSize st;
                skippedCount := skippedCount st
                                + (targets_length - Z.of_nat (List.length (diffs st))) |},
       [])
  else
    (Continue {| diffs := diffs st ++ [{| fileName := fileName; diffText := diffText |}];
                 totalSize := totalSize st + Js.length diffText;
                 skippedCount := skippedCount st |},
     []).

(** [vscode.commands.executeCommand('workbench.action.chat.open', { query })],
    reached only when [buildPrompt] returned. *)
Definition openChat (prompt : Exc Js.str) : list Event :=
  match prompt with
  | Ret prompt => [ExecuteCommand (Js.lit "workbench.action.chat.open") prompt]
  | Throw => []
  end.

Definition initialState : LoopState :=
  {| diffs := []; totalSize := 0; skippedCount := 0 |}.

(** The files a run works on: the multiple selection when there is one, else
    the file the menu was opened on. *)
Definition targetsOf (resourceState : SourceControlResourceState)
    (resourceStates : option (list SourceControlResourceState))
  : list SourceControlResourceState :=
  match resourceStates with
  | Some ((_ :: _) as resourceStates) => resourceStates
  | _ => [resourceState]
  end.

(** What follows the loop, given the revision's [buildPrompt]. *)
Definition afterLoop (buildPrompt : list DiffEntry -> Z -> Exc Js.str) (st : LoopState)
  : list Event :=
  if Z.of_nat (List.length (diffs st)) =? 0 then []
  else openChat (buildPrompt (diffs st) (skippedCount st)).

(* ===================================================================== *)
(** * reviewDiff.ts (Git and SVN) *)
(* ===================================================================== *)

Module ReviewDiff.

Import Js.
Import PromptTemplates.

Definition getGitAPI (h : Host) : option GitAPI :=
  match gitExtension h with
  | None => None
  | Some gitExtension =>
      if negb (isActive gitExtension) then None
      else Some (getAPI1 gitExtension)
  end.

Definition getRepositoryForUri (gitAPI : GitAPI) (resourceUri : Uri)
  : option Repository :=
  getRepository gitAPI resourceUri.

Definition isBinary (content : str) : bool := includes content [NUL].

Definition buildPseudoDiff (relativePath content : str) (prefix : Prefix)
    (fromHeader toHeader : str) : str :=
  let lines := split LF content in
  let lines :=
    match nth_error lines (List.length lines - 1) with
    | Some [] => removelast lines
    | _ => lines
    end in
  let hunkHeader :=
    match prefix with
    | Plus => lit "@@ -0,0 +1," ++ ofNumber (Z.of_nat (List.length lines)) ++ lit " @@"
    | Minus => lit "@@ -1," ++ ofNumber (Z.of_nat (List.length lines)) ++ lit " +0,0 @@"
    end in
  let diffLines := map (fun line => prefix_unit prefix :: line) lines in
  join [LF]
    ([ lit "--- " ++ fromHeader; lit "+++ " ++ toHeader; hunkHeader ] ++ diffLines).

Definition getDiffTextGit (h : Host) (repo : Repository) (resourceUri : Uri)
  : Exc (option str) :=
  let filePath := fsPath resourceUri in
  let relativePath := asRelativePath h resourceUri in
  let allChanges := workingTreeChanges repo ++ indexChanges repo in
  let change := find (fun c => path_eqb (fsPath (uri c)) filePath) allChanges in
  match option_map status change with
  | Some UNTRACKED | Some INTENT_TO_ADD =>
      await content <- readFile h resourceUri ;
      if isBinary content then Ret None
      else Ret (Some (buildPseudoDiff relativePath content Plus
                        (lit "/dev/null") (lit "b/" ++ relativePath)))
  | Some DELETED | Some INDEX_DELETED =>
      await content <- show repo (lit "HEAD") filePath ;
      if isBinary content then Ret None
      else Ret (Some (buildPseudoDiff relativePath content Minus
                        (lit "a/" ++ relativePath) (lit "/dev/null")))
  | _ =>
      await diffText <- diffWithHEAD repo filePath ;
      await diffText <-
        (if negb (truthy (Some diffText)) || str_eqb (trim diffText) []
         then diffIndexWithHEAD repo filePath
         else Ret diffText) ;
      Ret (or_undefined (Some diffText))
  end.

(** The loop of [findScmRoot], from [currentDir] upwards; it ends because
    each turn is one directory nearer to the root. *)
Equations? findScmRootFrom (h : Host) (currentDir : Path) : option ScmInfo
  by wf (List.length currentDir) lt :=
  findScmRootFrom h currentDir with existsSync h (path_join currentDir (lit ".git")) := {
    | true := Some {| root := currentDir; type := git |}
    | false with existsSync h (path_join currentDir (lit ".svn")) := {
      | true := Some {| root := currentDir; type := svn |}
      | false with list_eq_dec (list_eq_dec N.eq_dec) (dirname currentDir) currentDir := {
        | left _ := None
        | right _ := findScmRootFrom h (dirname currentDir) } } }.
Proof.
  destruct currentDir as [|a p];
    [match goal with ne : _ <> _ |- _ => now contradiction ne end|].
  unfold dirname. rewrite removelast_firstn_len, length_firstn. simpl. lia.
Qed.

Definition findScmRoot (h : Host) (filePath : Path) : option ScmInfo :=
  findScmRootFrom h (dirname filePath).

(** The three wrappers of [cp.exec] are promises that resolve in the callback;
    when [cp.exec] throws before it calls back, the promise is rejected. *)
Definition getSvnStatus (h : Host) (filePath scmRoot : Path) : Exc (option str) :=
  await r <- exec h SvnStatus filePath scmRoot ;
  let char := charAt0 (trim (stdout r)) in
  Ret (if existsb (str_eqb char) [lit "A"; lit "D"; lit "M"; lit "?"; lit "!"]
       then Some char else None).

Definition getSvnBaseContent (h : Host) (filePath scmRoot : Path) : Exc (option str) :=
  await r <- exec h SvnCatBase filePath scmRoot ;
  Ret (if err r then None else or_undefined (Some (stdout r))).

Definition getSvnDiffOutput (h : Host) (filePath scmRoot : Path) : Exc (option str) :=
  await r <- exec h SvnDiff filePath scmRoot ;
  Ret (if err r then None else or_undefined (Some (trim (stdout r)))).

(** [status === c] *)
Definition is_status (status : option str) (c : string) : bool :=
  match status with
  | Some s => str_eqb s (lit c)
  | None => false
  end.

Definition getDiffTextSvn (h : Host) (resourceUri : Uri) (scmRoot : Path)
  : Exc (option str) :=
  let filePath := fsPath resourceUri in
  let relativePath := asRelativePath h resourceUri in
  await status <- getSvnStatus h filePath scmRoot ;
  if is_status status "A" || is_status status "?" then
    await content <- readFile h resourceUri ;
    if isBinary content then Ret None
    else Ret (Some (buildPseudoDiff relativePath content Plus
                      (lit "/dev/null") (lit "b/" ++ relativePath)))
  else if is_status status "D" || is_status status "!" then
    await diffOutput <- getSvnDiffOutput h filePath scmRoot ;
    if truthy diffOutput then Ret diffOutput
    else
      await content <- getSvnBaseContent h filePath scmRoot ;
      match content with
      | Some ((_ :: _) as content) =>
          if isBinary content then Ret None
          else Ret (Some (buildPseudoDiff relativePath content Minus
                            (lit "a/" ++ relativePath) (lit "/dev/null")))
      | _ => Ret None
      end
  else getSvnDiffOutput h filePath scmRoot.

(** The SVN half of [getFileDiffText], reached when git did not take the file. *)
Definition trySvn (h : Host) (resourceUri : Uri) : Exc (option str) :=
  match findScmRoot h (fsPath resourceUri) with
  | Some {| root := root; type := svn |} => getDiffTextSvn h resourceUri root
  | _ => Ret None
  end.

Definition getFileDiffText (h : Host) (resourceUri : Uri) (gitAPI : option GitAPI)
  : Exc (option str) :=
  match gitAPI with
  | Some gitAPI =>
      match getRepositoryForUri gitAPI resourceUri with
      | Some gitRepo => getDiffTextGit h gitRepo resourceUri
      | None => trySvn h resourceUri
      end
  | None => trySvn h resourceUri
  end.

Definition buildPrompt (h : Host) (diffs : list DiffEntry) (skippedCount : Z)
  : Exc str :=
  let lang := resolveLanguage h in
  let template := get_slot PROMPT_TEMPLATES lang in
  let diffBlocks :=
    map (fun d =>
           join [LF]
             [ lit "### " ++ slot_fileLabel template ++ lit ": " ++ fileName d;
               lit "```diff";
               diffText d;
               lit "```" ])
        diffs in
  let body := join [LF; LF] diffBlocks in
  await footer <-
    (if skippedCount >? 0
     then await notice <- slot_skipNotice template skippedCount ;
          Ret ([LF; LF] ++ notice)
     else Ret []) ;
  let customPrompt :=
    getConfig h (lit "code-reviewer") (lit "reviewPrompt." ++ lang) [] in
  if truthy (Some (trim customPrompt)) then
    let result :=
      if includes customPrompt (lit "{{diff}}")
      then replace customPrompt (lit "{{diff}}") body
      else customPrompt ++ [LF; LF] ++ body in
    Ret (result ++ footer)
  else Ret (slot_header template ++ [LF; LF] ++ body ++ footer).

(** The body of the loop over the targets. *)
Definition loopBody (h : Host) (gitAPI : option GitAPI) (targets_length : Z)
    (target : SourceControlResourceState) (st : LoopState)
  : Control * list Event :=
  let fileName := asRelativePath h (resourceUri target) in
  match getFileDiffText h (resourceUri target) gitAPI with
  | Throw =>
      (Continue {| diffs := diffs st; totalSize := totalSize st;
                   skippedCount := skippedCount st + 1 |},
       [ShowInformationMessage
          (lit "Could not retrieve diff (file may be binary): " ++ fileName)])
  | Ret None | Ret (Some []) =>
      (Continue st, [ShowInformationMessage (lit "No diff found: " ++ fileName)])
  | Ret (Some diffText) => sizeCheck h targets_length fileName diffText st
  end.

(** [reviewDiff]: everything the run shows and sends, in order. *)
Definition reviewDiff (h : Host) (resourceState : SourceControlResourceState)
    (resourceStates : option (list SourceControlResourceState)) : list Event :=
  let targets := targetsOf resourceState resourceStates in
  let gitAPI := getGitAPI h in
  match forOf (loopBody h gitAPI (Z.of_nat (List.length targets))) targets initialState with
  | (Return, shown) => shown
  | (Continue st, shown) | (Break st, shown) => shown ++ afterLoop (buildPrompt h) st
  end.

End ReviewDiff.

(* ===================================================================== *)
(** * src/reviewDiff.ts (the Git-only revision) *)
(* ===================================================================== *)

Module GitOnly.

Import Js.

Definition PROMPT_TEMPLATES : Table :=
  [ (lit "ja",
     {| header := lit "以下のgit差分をコードレビューしてください。" ++ [LF]
                  ++ lit "各ファイルについて、問題点・改善案・良い点をそれぞれ具体的に指摘してください。";
        fileLabel := lit "ファイル";
        skipNotice := fun n =>
          lit "> 注意: 差分サイズが上限を超えたため、" ++ ofNumber n
          ++ lit "件のファイルをスキップしました。" |});
    (lit "en",
     {| header := lit "Please review the following git diff." ++ [LF]
                  ++ lit "For each file, point out problems, suggestions for improvement, and good points specifically.";
        fileLabel := lit "File";
        skipNotice := fun n =>
          lit "> Note: " ++ ofNumber n
          ++ lit " file(s) were skipped because the diff size exceeded the limit." |});
    (lit "zh-cn",
     {| header := lit "请对以下git差异进行代码审查。" ++ [LF]
                  ++ lit "对于每个文件，请具体指出问题、改进建议和优点。";
        fileLabel := lit "文件";
        skipNotice := fun n =>
          lit "> 注意：由于差异大小超出限制，已跳过 " ++ ofNumber n
          ++ lit " 个文件。" |});
    (lit "ko",
     {| header := lit "다음 git 차이를 코드 리뷰해주세요." ++ [LF]
                  ++ lit "각 파일에 대해 문제점, 개선 제안, 좋은 점을 구체적으로 지적해주세요.";
        fileLabel := lit "파일";
        skipNotice := fun n =>
          lit "> 주의: 차이 크기가 제한을 초과하여 " ++ ofNumber n
          ++ lit "개의 파일을 건너뛰었습니다." |});
    (lit "fr",
     {| header := lit "Veuillez effectuer une revue de code du diff git suivant." ++ [LF]
                  ++ lit "Pour chaque fichier, indiquez précisément les problèmes, les suggestions d'amélioration et les points positifs.";
        fileLabel := lit "Fichier";
        skipNotice := fun n =>
          lit "> Remarque : " ++ ofNumber n
          ++ lit " fichier(s) ont été ignorés car la taille du diff dépassait la limite." |});
    (lit "de",
     {| header := lit "Bitte führen Sie ein Code-Review des folgenden Git-Diffs durch." ++ [LF]
                  ++ lit "Geben Sie für jede Datei konkret Probleme, Verbesserungsvorschläge und positive Aspekte an.";
        fileLabel := lit "Datei";
        skipNotice := fun n =>
          lit "> Hinweis: " ++ ofNumber n
          ++ lit " Datei(en) wurden übersprungen, da die Diff-Größe das Limit überschritten hat." |});
    (lit "es",
     {| header := lit "Por favor, realice una revisión de código del siguiente diff de git." ++ [LF]
                  ++ lit "Para cada archivo, indique concretamente los problemas, sugerencias de mejora y puntos positivos.";
        fileLabel := lit "Archivo";
        skipNotice := fun n =>
          lit "> Nota: Se omitieron " ++ ofNumber n
          ++ lit " archivo(s) porque el tamaño del diff superó el límite." |}) ].

Definition DEFAULT_LANG : str := lit "en".

Definition resolveLanguage (h : Host) : str :=
  let configured :=
    getConfig h (lit "code-reviewer") (lit "reviewLanguage") (lit "auto") in
  if negb (str_eqb configured (lit "auto")) then
    if js_in configured PROMPT_TEMPLATES then configured else DEFAULT_LANG
  else
    let vscodeLang := toLowerCase (unicodeLower h) (language h) in
    if startsWith vscodeLang (lit "zh") then lit "zh-cn"
    else
      let twoChar := slice0 vscodeLang 2 in
      if js_in twoChar PROMPT_TEMPLATES then twoChar else DEFAULT_LANG.

(** The API, and the error message shown when there is none. *)
Definition getGitAPI (h : Host) : option GitAPI * list Event :=
  match gitExtension h with
  | None => (None, [ShowErrorMessage (lit "vscode.git extension not found.")])
  | Some gitExtension =>
      if negb (isActive gitExtension)
      then (None, [ShowErrorMessage (lit "vscode.git extension is not active.")])
      else (Some (getAPI1 gitExtension), [])
  end.

Definition getRepositoryForUri (h : Host) (gitAPI : GitAPI) (resourceUri : Uri)
  : option Repository * list Event :=
  match getRepository gitAPI resourceUri with
  | None =>
      (None, [ShowErrorMessage
                (lit "Git repository not found: " ++ pathText h (fsPath resourceUri))])
  | Some repo => (Some repo, [])
  end.

(** [isBinary], [buildPseudoDiff] and [getDiffText] have the text of
    [isBinary], [buildPseudoDiff] and [getDiffTextGit] of the other revision. *)
Definition isBinary : str -> bool := ReviewDiff.isBinary.

Definition buildPseudoDiff : str -> str -> Prefix -> str -> str -> str :=
  ReviewDiff.buildPseudoDiff.

Definition getDiffText : Host -> Repository -> Uri -> Exc (option str) :=
  ReviewDiff.getDiffTextGit.

Definition buildPrompt (h : Host) (diffs : list DiffEntry) (skippedCount : Z)
  : Exc str :=
  let lang := resolveLanguage h in
  let template := get_slot PROMPT_TEMPLATES lang in
  let diffBlocks :=
    map (fun d =>
           join [LF]
             [ lit "### " ++ slot_fileLabel template ++ lit ": " ++ fileName d;
               lit "```diff";
               diffText d;
               lit "```" ])
        diffs in
  let body := join [LF; LF] diffBlocks in
  await footer <-
    (if skippedCount >? 0
     then await notice <- slot_skipNotice template skippedCount ;
          Ret ([LF; LF] ++ notice)
     else Ret []) ;
  let customPrompt :=
    getConfig h (lit "code-reviewer") (lit "reviewPrompt." ++ lang) [] in
  if truthy (Some (trim customPrompt)) then
    let result :=
      if includes customPrompt (lit "{{diff}}")
      then replace customPrompt (lit "{{diff}}") body
      else customPrompt ++ [LF; LF] ++ body in
    Ret (result ++ footer)
  else Ret (slot_header template ++ [LF; LF] ++ body ++ footer).

(** The body of the loop over the targets. *)
Definition loopBody (h : Host) (gitAPI : GitAPI) (targets_length : Z)
    (target : SourceControlResourceState) (st : LoopState)
  : Control * list Event :=
  let fileName := asRelativePath h (resourceUri target) in
  match getRepositoryForUri h gitAPI (resourceUri target) with
  | (None, shown) => (Continue st, shown)
  | (Some repo, _) =>
      match getDiffText h repo (resourceUri target) with
      | Throw =>
          (Continue {| diffs := diffs st; totalSize := totalSize st;
                       skippedCount := skippedCount st + 1 |},
           [ShowInformationMessage
              (lit "Could not retrieve diff (file may be binary): " ++ fileName)])
      | Ret None | Ret (Some []) =>
          (Continue st, [ShowInformationMessage (lit "No diff found: " ++ fileName)])
      | Ret (Some diffText) => sizeCheck h targets_length fileName diffText st
      end
  end.

(** [reviewDiff]: everything the run shows and sends, in order. *)
Definition reviewDiff (h : Host) (resourceState : SourceControlResourceState)
    (resourceStates : option (list SourceControlResourceState)) : list Event :=
  let targets := targetsOf resourceState resourceStates in
  match getGitAPI h with
  | (None, shown) => shown
  | (Some gitAPI, _) =>
      match forOf (loopBody h gitAPI (Z.of_nat (List.length targets))) targets initialState with
      | (Return, shown) => shown
      | (Continue st, shown) | (Break st, shown) => shown ++ afterLoop (buildPrompt h) st
      end
  end.

End GitOnly.

(* ===================================================================== *)
(** * Vocabulary of the statements *)
(* ===================================================================== *)

(** [has c s]: the code unit [c] occurs in [s]. *)
Definition has (c : Js.unit16) (s : Js.str) : bool := existsb (N.eqb c) s.

(** The text whose lines are [ls], each one closed by a line feed. *)
Definition textOfLines (ls : list Js.str) : Js.str :=
  List.concat (map (fun l => l ++ [Js.LF]) ls).

(** [ls] are the lines of [content]: each is closed by a line feed, except
    possibly the last one when it is not empty. *)
Definition hasLines (content : Js.str) (ls : list Js.str) : Prop :=
  forallb (fun l => negb (has Js.LF l)) ls = true /\
  (content = textOfLines ls \/ (last ls [] <> [] /\ content = Js.join [Js.LF] ls)).

(** ** Sample hosts, used to run the program on concrete inputs

    On every sample host [cp.exec] calls back, and the locale tag is Basic
    Latin, so that [unicodeLower] is never asked. *)

(** The label of a file below the workspace folder [/repo]. *)
Definition relativeLabel (u : Uri) : Js.str := Js.join (Js.lit "/") (tl (fsPath u)).

Definition fileAt (name : string) : Uri := {| fsPath := [Js.lit "repo"; Js.lit name] |}.

Definition selected (name : string) : SourceControlResourceState :=
  {| resourceUri := fileAt name |}.

(** A repository with the given unstaged changes, committed contents and
    working-tree diffs, and nothing staged. *)
Definition sampleRepo (changes : list Change) (head diff : Path -> Exc Js.str)
  : Repository :=
  {| workingTreeChanges := changes;
     indexChanges := [];
     show := fun _ p => head p;
     diffWithHEAD := diff;
     diffIndexWithHEAD := fun _ => Ret [] |}.

(** A host whose git extension is active and owns every file, with default
    settings and an English user interface. *)
Definition gitHost (repo : Repository) (files : Uri -> Exc Js.str)
    (answer : option Js.str) : Host :=
  {| configuration := fun _ _ => None;
     language := Js.lit "en";
     unicodeLower := fun s => s;
     gitExtension :=
       Some {| isActive := true;
               getAPI1 := {| getRepository := fun _ => Some repo |} |};
     asRelativePath := relativeLabel;
     pathText := fun p => Js.lit "/" ++ Js.join (Js.lit "/") p;
     readFile := files;
     existsSync := fun _ => false;
     exec := fun _ _ _ => Ret {| err := true; stdout := [] |};
     pick := fun _ _ => answer |}.

(** A host without git extension, on which [svn status] prints [status] and
    [svn diff] and [svn cat -r BASE] end as given, for every file; [markers]
    are the marker directories that exist. *)
Definition svnHost (markers : list Path) (status : string) (diff base : ExecResult)
    (files : Uri -> Exc Js.str) : Host :=
  {| configuration := fun _ _ => None;
     language := Js.lit "en";
     unicodeLower := fun s => s;
     gitExtension := None;
     asRelativePath := relativeLabel;
     pathText := fun p => Js.lit "/" ++ Js.join (Js.lit "/") p;
     readFile := files;
     existsSync := fun p => existsb (path_eqb p) markers;
     exec := fun c _ _ =>
       match c with
       | SvnStatus => Ret {| err := false; stdout := Js.lit status |}
       | SvnDiff => Ret diff
       | SvnCatBase => Ret base
       end;
     pick := fun _ _ => None |}.

(** [dir] holds the marker directory [marker]. *)
Definition marked (h : Host) (dir : Path) (marker : string) : bool :=
  existsSync h (path_join dir (Js.lit marker)).

(** [root] is the nearest directory, from [dir] upwards, that holds [.git]
    or [.svn]: [dir] lies [below] it, and no directory from [dir] up to,
    but not including, [root] holds either. *)
Definition nearestMarked (h : Host) (dir root : Path) : Prop :=
  exists below,
    dir = root ++ below
    /\ marked h root ".git" || marked h root ".svn" = true
    /\ forall k, (0 < k <= List.length below)%nat ->
         marked h (root ++ firstn k below) ".git"
         || marked h (root ++ firstn k below) ".svn" = false.

(** The characters of all diff texts of a list of accepted diffs. *)
Definition sizeOf (accepted : list DiffEntry) : Z :=
  fold_right (fun e acc => Js.length (diffText e) + acc) 0 accepted.

(** The running total is the size of the accepted diffs, within the limit. *)
Definition Fits (st : LoopState) : Prop :=
  totalSize st = sizeOf (diffs st) /\ totalSize st <= DIFF_SIZE_LIMIT.

(** An information or error message: what a file that is passed by shows. *)
Definition isNotice (e : Event) : bool :=
  match e with
  | ShowInformationMessage _ | ShowErrorMessage _ => true
  | _ => false
  end.

Definition isCommand (e : Event) : bool :=
  match e with
  | ExecuteCommand _ _ => true
  | _ => false
  end.

(** The accumulators a loop ends with, unless its body returned. *)
Definition finalState (outcome : Control * list Event) : option LoopState :=
  match fst outcome with
  | Continue st | Break st => Some st
  | Return => None
  end.

(** The dialog of the first branch of the size check. *)
Definition limitMessage (fileName : Js.str) : Js.str :=
  Js.lit "Diff size exceeds the limit (50KB). Send only the first 50KB?"
  ++ [Js.LF] ++ Js.lit "File: " ++ fileName.

Definition limitItems : list Js.str := [Js.lit "Send first 50KB"; Js.lit "Cancel"].

(** A diff text of [n] characters. *)
Definition diffOfLength (n : nat) : Js.str := repeat 43%N n.

(** A git host on which the working-tree diff of each listed file has the
    given number of characters, and every other file has no pending change. *)
Definition diffsBySize (sizes : list (string * nat)) (p : Path) : Exc Js.str :=
  match find (fun e => path_eqb (fsPath (fileAt (fst e))) p) sizes with
  | Some e => Ret (diffOfLength (snd e))
  | None => Ret []
  end.

Definition budgetHost (sizes : list (string * nat)) (answer : option Js.str) : Host :=
  gitHost (sampleRepo [] (fun _ => Throw) (diffsBySize sizes)) (fun _ => Throw) answer.

Definition entryOfLength (name : string) (n : nat) : DiffEntry :=
  {| fileName := Js.lit name; diffText := diffOfLength n |}.

(** A host with the given settings (section, key, value) and locale tag. *)
Definition settingsHost (settings : list (string * string * Js.str)) (locale : string)
  : Host :=
  {| configuration := fun section key =>
       option_map snd
         (find (fun e => Js.str_eqb (Js.lit (fst (fst e))) section
                         && Js.str_eqb (Js.lit (snd (fst e))) key) settings);
     language := Js.lit locale;
     unicodeLower := fun s => s;
     gitExtension := None;
     asRelativePath := relativeLabel;
     pathText := fun p => Js.lit "/" ++ Js.join (Js.lit "/") p;
     readFile := fun _ => Throw;
     existsSync := fun _ => false;
     exec := fun _ _ _ => Ret {| err := true; stdout := [] |};
     pick := fun _ _ => None |}.

(** The body of a prompt: one fenced block per accepted diff, under a heading
    made of the template's word for "file" and the file name. *)
Definition bodyOf (label : Js.str) (accepted : list DiffEntry) : Js.str :=
  Js.join [Js.LF; Js.LF]
    (map (fun d =>
            Js.join [Js.LF]
              [ Js.lit "### " ++ label ++ Js.lit ": " ++ fileName d;
                Js.lit "```diff"; diffText d; Js.lit "```" ])
         accepted).

(** The skip footer of a template. *)
Definition footerOf (t : PromptTemplate) (skipped : Z) : Js.str :=
  if skipped >? 0 then [Js.LF; Js.LF] ++ skipNotice t skipped else [].

(** ** Vocabulary of the further properties *)

(** A status on which [getDiffTextGit] asks the repository for a diff: any
    but the two new and the two deleted ones, and no status at all. *)
Definition asksForDiff (s : option Status) : bool :=
  match s with
  | Some UNTRACKED | Some INTENT_TO_ADD | Some DELETED | Some INDEX_DELETED => false
  | _ => true
  end.

(** The selected files that have a diff, each with its label, in the order of
    the selection. *)
Fixpoint acceptedOf (h : Host) (gitAPI : option GitAPI)
    (targets : list SourceControlResourceState) : list DiffEntry :=
  match targets with
  | [] => []
  | t :: ts =>
      match ReviewDiff.getFileDiffText h (resourceUri t) gitAPI with
      | Ret (Some (x :: d)) =>
          {| fileName := asRelativePath h (resourceUri t); diffText := x :: d |}
            :: acceptedOf h gitAPI ts
      | _ => acceptedOf h gitAPI ts
      end
  end.

(** How many selected files could not be resolved. *)
Fixpoint failuresOf (h : Host) (gitAPI : option GitAPI)
    (targets : list SourceControlResourceState) : Z :=
  match targets with
  | [] => 0
  | t :: ts =>
      match ReviewDiff.getFileDiffText h (resourceUri t) gitAPI with
      | Throw => 1 + failuresOf h gitAPI ts
      | _ => failuresOf h gitAPI ts
      end
  end.

(** One message for each selected file that gives no diff, in the order of
    the selection. *)
Fixpoint noticesOf (h : Host) (gitAPI : option GitAPI)
    (targets : list SourceControlResourceState) : list Event :=
  match targets with
  | [] => []
  | t :: ts =>
      match ReviewDiff.getFileDiffText h (resourceUri t) gitAPI with
      | Ret (Some (_ :: _)) => noticesOf h gitAPI ts
      | Throw =>
          ShowInformationMessage
            (Js.lit "Could not retrieve diff (file may be binary): "
             ++ asRelativePath h (resourceUri t))
            :: noticesOf h gitAPI ts
      | _ =>
          ShowInformationMessage
            (Js.lit "No diff found: " ++ asRelativePath h (resourceUri t))
            :: noticesOf h gitAPI ts
      end
  end.

Definition isWarning (e : Event) : bool :=
  match e with
  | ShowWarningMessage _ _ => true
  | _ => false
  end.

(** How many events of a run satisfy [p]. *)
Definition countEvents (p : Event -> bool) (run : list Event) : nat :=
  List.length (filter p run).

(** The shape of a run: what it shows, with at most one dialog and nothing
    sent, and then at most one prompt handed to the chat panel, as the last
    thing it does. *)
Definition OneDialogThenOnePrompt (run : list Event) : Prop :=
  exists shown,
    (run = shown
     \/ exists prompt,
          run = shown ++ [ExecuteCommand (Js.lit "workbench.action.chat.open") prompt])
    /\ forallb (fun e => negb (isCommand e)) shown = true
    /\ (countEvents isWarning shown <= 1)%nat.

(** The host [h] with the given settings (section, key, value) in the place
    of its own. *)
Definition withSettings (settings : list (string * string * Js.str)) (h : Host) : Host :=
  {| configuration := fun section key =>
       option_map snd
         (find (fun e => Js.str_eqb (Js.lit (fst (fst e))) section
                         && Js.str_eqb (Js.lit (snd (fst e))) key) settings);
     language := language h;
     unicodeLower := unicodeLower h;
     gitExtension := gitExtension h;
     asRelativePath := asRelativePath h;
     pathText := pathText h;
     readFile := readFile h;
     existsSync := existsSync h;
     exec := exec h;
     pick := pick h |}.

(** A git host like [budgetHost], on which moreover the working-tree diff of
    each file of [failing] cannot be retrieved. *)
Definition diffsOrFailure (failing : list string) (sizes : list (string * nat))
    (p : Path) : Exc Js.str :=
  if existsb (fun name => path_eqb (fsPath (fileAt name)) p) failing
  then Throw else diffsBySize sizes p.

Definition failingHost (failing : list string) (sizes : list (string * nat))
    (answer : option Js.str) : Host :=
  gitHost (sampleRepo [] (fun _ => Throw) (diffsOrFailure failing sizes))
    (fun _ => Throw) answer.

(** A host whose git extension is active and owns no file. *)
Definition strayHost : Host :=
  {| configuration := fun _ _ => None;
     language := Js.lit "en";
     unicodeLower := fun s => s;
     gitExtension :=
       Some {| isActive := true;
               getAPI1 := {| getRepository := fun _ => None |} |};
     asRelativePath := relativeLabel;
     pathText := fun p => Js.lit "/" ++ Js.join (Js.lit "/") p;
     readFile := fun _ => Throw;
     existsSync := fun _ => false;
     exec := fun _ _ _ => Ret {| err := true; stdout := [] |};
     pick := fun _ _ => None |}.

Unset Implicit Arguments.

(** Decide the comparisons of a known status letter. *)
Ltac eval_status :=
  repeat match goal with
         | |- context [ReviewDiff.is_status (Some ?s) ?c] =>
             let v := eval vm_compute in (ReviewDiff.is_status (Some s) c) in
             change (ReviewDiff.is_status (Some s) c) with v
         end;
  cbn [orb].

(* ===================================================================== *)
(** * Facts about the string operations *)
(* ===================================================================== *)

Section StringFacts.

Import Js.

Lemma str_eqb_eq (a b : str) : str_eqb a b = true <-> a = b.
Proof.
  unfold str_eqb. destruct (list_eq_dec N.eq_dec a b); split; congruence.
Qed.

Lemma str_eqb_refl (a : str) : str_eqb a a = true.
Proof. now apply str_eqb_eq. Qed.

Lemma has_app c a b : has c (a ++ b) = has c a || has c b.
Proof. apply existsb_app. Qed.

Lemma has_In c s : has c s = true <-> In c s.
Proof.
  unfold has. rewrite existsb_exists. split.
  - intros (x & Hin & Heq). apply N.eqb_eq in Heq. now subst.
  - intros Hin. exists c. split; [assumption | apply N.eqb_refl].
Qed.

Lemma has_false_In c s : has c s = false <-> ~ In c s.
Proof.
  rewrite <- has_In. destruct (has c s); split; congruence.
Qed.

Lemma startsWith_single s c :
  startsWith s [c] = match s with d :: _ => (c =? d)%N | [] => false end.
Proof.
  destruct s as [|d s]; simpl; [reflexivity|].
  destruct s; now rewrite andb_true_r.
Qed.

Lemma includes_single s c : includes s [c] = has c s.
Proof.
  unfold includes. induction s as [|d s IH].
  - reflexivity.
  - cbn [indexOf]. rewrite startsWith_single. simpl.
    destruct (c =? d)%N; [reflexivity|].
    destruct (indexOf s [c]); simpl in *; congruence.
Qed.

Lemma split_cons_sep sep s : split sep (sep :: s) = [] :: split sep s.
Proof. simpl. now rewrite N.eqb_refl. Qed.

Lemma split_not_nil sep s : split sep s <> [].
Proof.
  destruct s as [|c s]; simpl; [discriminate|].
  destruct (c =? sep)%N; [discriminate|].
  destruct (split sep s); discriminate.
Qed.

(** Splitting a line followed by a separator and more text. *)
Lemma split_line sep l s :
  has sep l = false -> split sep (l ++ sep :: s) = l :: split sep s.
Proof.
  induction l as [|c l IH]; intros Hl.
  - apply split_cons_sep.
  - simpl in Hl. apply orb_false_iff in Hl as [Hc Hl].
    simpl. rewrite N.eqb_sym, Hc, (IH Hl). reflexivity.
Qed.

Lemma split_no_sep sep l : has sep l = false -> split sep l = [l].
Proof.
  induction l as [|c l IH]; intros Hl; [reflexivity|].
  simpl in Hl. apply orb_false_iff in Hl as [Hc Hl].
  simpl. rewrite N.eqb_sym, Hc, (IH Hl). reflexivity.
Qed.

Lemma split_textOfLines ls :
  forallb (fun l => negb (has LF l)) ls = true ->
  split LF (textOfLines ls) = ls ++ [[]].
Proof.
  induction ls as [|l ls IH]; intros H; [reflexivity|].
  simpl in H. apply andb_true_iff in H as [Hl Hls].
  apply negb_true_iff in Hl.
  unfold textOfLines. simpl. rewrite <- app_assoc. simpl.
  rewrite (split_line _ _ _ Hl). f_equal. now apply IH.
Qed.

Lemma join_cons sep p q ps : join sep (p :: q :: ps) = p ++ sep ++ join sep (q :: ps).
Proof. reflexivity. Qed.

Lemma split_join ls :
  ls <> [] ->
  forallb (fun l => negb (has LF l)) ls = true ->
  split LF (join [LF] ls) = ls.
Proof.
  induction ls as [|l ls IH]; intros Hne H; [congruence|].
  simpl in H. apply andb_true_iff in H as [Hl Hls].
  apply negb_true_iff in Hl.
  destruct ls as [|q ls].
  - simpl. now apply split_no_sep.
  - rewrite join_cons. simpl app. rewrite (split_line _ _ _ Hl).
    f_equal. apply IH; [discriminate | assumption].
Qed.

Lemma has_join c sep ps :
  has c sep = false -> forallb (fun p => negb (has c p)) ps = true ->
  has c (join sep ps) = false.
Proof.
  intros Hsep. induction ps as [|p ps IH]; intros H; [reflexivity|].
  simpl in H. apply andb_true_iff in H as [Hp Hps].
  apply negb_true_iff in Hp.
  destruct ps as [|q ps]; [exact Hp|].
  rewrite join_cons, !has_app, Hp, Hsep, (IH Hps). reflexivity.
Qed.

Lemma has_split c sep s :
  has c s = false -> forallb (fun l => negb (has c l)) (split sep s) = true.
Proof.
  induction s as [|d s IH]; intros H; [reflexivity|].
  simpl in H. apply orb_false_iff in H as [Hd Hs].
  specialize (IH Hs). simpl.
  destruct (d =? sep)%N; [exact IH|].
  destruct (split sep s) as [|l ls]; simpl in *.
  - now rewrite Hd.
  - now rewrite Hd.
Qed.

(** Every text has lines: what [split] gives, less a trailing empty line. *)
Lemma join_split (s : str) : join [LF] (split LF s) = s.
Proof.
  induction s as [|c s IH]; [reflexivity|].
  simpl. destruct (c =? LF)%N eqn:E.
  - apply N.eqb_eq in E. subst c.
    pose proof (split_not_nil LF s) as Hne.
    destruct (split LF s) as [|l ls]; [congruence|].
    rewrite join_cons. simpl. now rewrite <- IH.
  - pose proof (split_not_nil LF s) as Hne.
    destruct (split LF s) as [|l ls]; [congruence|].
    destruct ls as [|q ls]; simpl in *; now rewrite <- IH.
Qed.

Lemma split_lines_clean (s : str) :
  forallb (fun l => negb (has LF l)) (split LF s) = true.
Proof.
  induction s as [|c s IH]; [reflexivity|].
  cbn [split]. destruct (c =? LF)%N eqn:E; [exact IH|].
  destruct (split LF s) as [|l ls]; cbn [forallb] in *;
    unfold has at 1; cbn [existsb]; rewrite N.eqb_sym, E; cbn [orb].
  - reflexivity.
  - exact IH.
Qed.

Lemma textOfLines_snoc (ls : list str) (l : str) :
  textOfLines (ls ++ [l]) = textOfLines ls ++ l ++ [LF].
Proof.
  unfold textOfLines. rewrite map_app, concat_app. simpl. now rewrite app_nil_r.
Qed.

Lemma join_snoc_empty (ls : list str) : join [LF] (ls ++ [[]]) = textOfLines ls.
Proof.
  induction ls as [|l ls IH]; [reflexivity|].
  change (textOfLines (l :: ls)) with ((l ++ [LF]) ++ textOfLines ls).
  rewrite <- IH. destruct ls as [|q ls]; simpl; now rewrite <- ?app_assoc.
Qed.

Lemma hasLines_total (content : str) : exists ls, hasLines content ls.
Proof.
  pose proof (join_split content) as Hjoin.
  pose proof (split_lines_clean content) as Hclean.
  pose proof (split_not_nil LF content) as Hne.
  destruct (split LF content) as [|l ls] using rev_ind; [congruence|].
  destruct l as [|c l].
  - exists ls. split.
    + rewrite forallb_app in Hclean. now apply andb_true_iff in Hclean as [H _].
    + left. now rewrite <- Hjoin, join_snoc_empty.
  - exists (ls ++ [c :: l]). split; [assumption|].
    right. split; [rewrite last_last; discriminate | now symmetry].
Qed.

Example lit_ascii : lit "a/b" = [97; 47; 98]%N.
Proof. reflexivity. Qed.

Example lit_bmp : lit "ファイル" = [12501; 12449; 12452; 12523]%N.
Proof. reflexivity. Qed.

Example split_ex : Js.split Js.LF (Js.lit "a" ++ [Js.LF]) = [Js.lit "a"; []].
Proof. reflexivity. Qed.

Example replace_ex :
  Js.replace (Js.lit "x{{diff}}y{{diff}}") (Js.lit "{{diff}}") (Js.lit "B$$")
  = Js.lit "xB$y{{diff}}".
Proof. reflexivity. Qed.

Example ofNumber_ex : Js.ofNumber 120 = Js.lit "120" /\ Js.ofNumber 0 = Js.lit "0".
Proof. split; reflexivity. Qed.

End StringFacts.

(* ===================================================================== *)
(** * Synthesised diffs: [buildPseudoDiff] *)
(* ===================================================================== *)

Section PseudoDiff.

Import Js.
Import ReviewDiff.

Lemma digits_of_uint (d : Decimal.uint) :
  forallb (fun c => (48 <=? c)%N && (c <=? 57)%N)
          (lit (NilEmpty.string_of_uint d)) = true.
Proof.
  induction d; [reflexivity | exact IHd ..].
Qed.

(** A printed integer consists of decimal digits and at most a sign. *)
Lemma ofNumber_chars (n : Z) :
  forallb (fun c => (45 <=? c)%N && (c <=? 57)%N) (ofNumber n) = true.
Proof.
  assert (W : forall s, forallb (fun c => (48 <=? c)%N && (c <=? 57)%N) s = true ->
                        forallb (fun c => (45 <=? c)%N && (c <=? 57)%N) s = true).
  { induction s as [|c s IH]; simpl; [reflexivity|].
    intros H. apply andb_true_iff in H as [Hc Hs].
    rewrite (IH Hs), andb_true_r.
    apply andb_true_iff in Hc as [H1 H2].
    apply andb_true_iff. split; [|assumption].
    apply N.leb_le in H1. apply N.leb_le. lia. }
  unfold ofNumber. destruct n as [|p|p]; simpl.
  - reflexivity.
  - apply W, digits_of_uint.
  - change (forallb (fun c => (45 <=? c)%N && (c <=? 57)%N)
              (45%N :: lit (NilEmpty.string_of_uint (Pos.to_uint p))) = true).
    simpl. apply W, digits_of_uint.
Qed.

Lemma ofNumber_has (c : unit16) (n : Z) :
  (c < 45)%N -> has c (ofNumber n) = false.
Proof.
  intros Hc. pose proof (ofNumber_chars n) as H.
  induction (ofNumber n) as [|d s IH]; [reflexivity|].
  simpl in *. apply andb_true_iff in H as [Hd Hs].
  rewrite (IH Hs), orb_false_r.
  apply andb_true_iff in Hd as [Hd _]. apply N.leb_le in Hd.
  apply N.eqb_neq. lia.
Qed.

Lemma last_line_dropped (ls : list str) :
  match nth_error (ls ++ [[]]) (List.length (ls ++ [[]]) - 1) with
  | Some [] => removelast (ls ++ [[]])
  | _ => ls ++ [[]]
  end = ls.
Proof.
  rewrite length_app. simpl List.length.
  replace (List.length ls + 1 - 1)%nat with (List.length ls + 0)%nat by lia.
  rewrite nth_error_app2 by lia.
  replace (List.length ls + 0 - List.length ls)%nat with O by lia.
  simpl. apply removelast_last.
Qed.

Lemma last_line_kept (ls : list str) :
  last ls [] <> [] ->
  match nth_error ls (List.length ls - 1) with
  | Some [] => removelast ls
  | _ => ls
  end = ls.
Proof.
  intros Hlast.
  destruct ls as [|l ls] using rev_ind; [reflexivity|].
  rewrite last_last in Hlast.
  rewrite length_app. simpl List.length.
  replace (List.length ls + 1 - 1)%nat with (List.length ls + 0)%nat by lia.
  rewrite nth_error_app2 by lia.
  replace (List.length ls + 0 - List.length ls)%nat with O by lia.
  simpl. destruct l; [congruence | reflexivity].
Qed.

(** The hunk header [buildPseudoDiff] writes for [k] lines. *)
Lemma buildPseudoDiff_of_lines relativePath content prefix fromHeader toHeader ls :
  hasLines content ls ->
  buildPseudoDiff relativePath content prefix fromHeader toHeader
  = join [LF]
      ([ lit "--- " ++ fromHeader; lit "+++ " ++ toHeader;
         match prefix with
         | Plus => lit "@@ -0,0 +1," ++ ofNumber (Z.of_nat (List.length ls)) ++ lit " @@"
         | Minus => lit "@@ -1," ++ ofNumber (Z.of_nat (List.length ls)) ++ lit " +0,0 @@"
         end ]
       ++ map (fun line => prefix_unit prefix :: line) ls).
Proof.
  intros [Hls [Hc | [Hlast Hc]]]; subst content; unfold buildPseudoDiff.
  - rewrite (split_textOfLines _ Hls), last_line_dropped. reflexivity.
  - assert (ls <> []) by (destruct ls; simpl in *; congruence).
    rewrite split_join by assumption.
    rewrite (last_line_kept _ Hlast). reflexivity.
Qed.

(** The lines of a synthesised diff, read back by splitting at line feeds. *)
Lemma pseudoDiff_lines (h1 h2 h3 : str) (c : unit16) (ls : list str) :
  has LF h1 = false -> has LF h2 = false -> has LF h3 = false ->
  (c =? LF)%N = false ->
  forallb (fun l => negb (has LF l)) ls = true ->
  split LF (join [LF] ([h1; h2; h3] ++ map (fun line => c :: line) ls))
  = [h1; h2; h3] ++ map (fun line => c :: line) ls.
Proof.
  intros H1 H2 H3 Hc Hls. apply split_join; [discriminate|].
  cbn [app forallb]. rewrite H1, H2, H3. cbn [negb andb].
  induction ls as [|l ls IH]; [reflexivity|].
  cbn [map forallb] in *. apply andb_true_iff in Hls as [Hl Hr].
  unfold has at 1. cbn [existsb]. fold (has LF l).
  rewrite N.eqb_sym, Hc. cbn [orb]. rewrite Hl. now apply IH.
Qed.

Lemma textOfLines_hasLines ls :
  forallb (fun l => negb (has LF l)) ls = true -> hasLines (textOfLines ls) ls.
Proof. intros H. split; [assumption | now left]. Qed.

(** C8. A new or untracked file that is not binary and whose content is [k]
    lines, each closed by a line feed, gets the diff made of the lines
    [--- /dev/null], [+++ b/<relativePath>], [@@ -0,0 +1,k @@] and then the
    [k] content lines, each with [+] in front; when the relative path holds
    no line feed these are exactly the lines of the returned text. *)
Theorem new_file_pseudo_diff (h : Host) (repo : Repository) (resourceUri : Uri)
    (c : Change) (ls : list str) :
  find (fun c => path_eqb (fsPath (uri c)) (fsPath resourceUri))
       (workingTreeChanges repo ++ indexChanges repo) = Some c ->
  status c = UNTRACKED \/ status c = INTENT_TO_ADD ->
  readFile h resourceUri = Ret (textOfLines ls) ->
  forallb (fun l => negb (has LF l)) ls = true ->
  isBinary (textOfLines ls) = false ->
  let k := Z.of_nat (List.length ls) in
  let expected :=
    [ lit "--- /dev/null";
      lit "+++ b/" ++ asRelativePath h resourceUri;
      lit "@@ -0,0 +1," ++ ofNumber k ++ lit " @@" ]
    ++ map (fun line => 43%N :: line) ls in
  getDiffTextGit h repo resourceUri = Ret (Some (join [LF] expected))
  /\ List.length (map (fun line => 43%N :: line) ls) = List.length ls
  /\ (has LF (asRelativePath h resourceUri) = false ->
      split LF (join [LF] expected) = expected).
Proof.
  intros Hfind Hst Hread Hls Hbin k expected. split; [|split].
  - unfold getDiffTextGit. rewrite Hfind. simpl option_map.
    destruct Hst as [-> | ->]; rewrite Hread; simpl bindExc; rewrite Hbin;
      rewrite (buildPseudoDiff_of_lines _ _ _ _ _ ls (textOfLines_hasLines _ Hls));
      reflexivity.
  - apply length_map.
  - intros Hrel. unfold expected. apply pseudoDiff_lines; try reflexivity; try assumption.
    change (has LF (ofNumber k ++ lit " @@") = false).
    rewrite has_app, ofNumber_has by reflexivity. reflexivity.
Qed.

Lemma new_file_pseudo_diff_witness :
  let repo := sampleRepo [{| uri := fileAt "a.txt"; status := UNTRACKED |}]
                         (fun _ => Throw) (fun _ => Throw) in
  let h := gitHost repo (fun _ => Ret (textOfLines [lit "hello"; lit "world"])) None in
  getDiffTextGit h repo (fileAt "a.txt")
  = Ret (Some (lit "--- /dev/null" ++ [LF] ++ lit "+++ b/a.txt" ++ [LF]
               ++ lit "@@ -0,0 +1,2 @@" ++ [LF]
               ++ lit "+hello" ++ [LF] ++ lit "+world")).
Proof.
  intros repo h.
  exact (proj1 (new_file_pseudo_diff h repo (fileAt "a.txt")
                  {| uri := fileAt "a.txt"; status := UNTRACKED |}
                  [lit "hello"; lit "world"]
                  eq_refl (or_introl eq_refl) eq_refl eq_refl eq_refl)).
Defined.

(** C9. A deleted file whose committed content is not binary and has the [k]
    lines [ls] gets the diff made of the lines [--- a/<relativePath>],
    [+++ /dev/null], [@@ -1,k +0,0 @@] and then the [k] lines, each with [-]
    in front; when the relative path holds no line feed these are exactly
    the lines of the returned text. *)
Theorem deleted_file_pseudo_diff (h : Host) (repo : Repository) (resourceUri : Uri)
    (c : Change) (content : str) (ls : list str) :
  find (fun c => path_eqb (fsPath (uri c)) (fsPath resourceUri))
       (workingTreeChanges repo ++ indexChanges repo) = Some c ->
  status c = DELETED \/ status c = INDEX_DELETED ->
  show repo (lit "HEAD") (fsPath resourceUri) = Ret content ->
  isBinary content = false ->
  hasLines content ls ->
  let k := Z.of_nat (List.length ls) in
  let expected :=
    [ lit "--- a/" ++ asRelativePath h resourceUri;
      lit "+++ /dev/null";
      lit "@@ -1," ++ ofNumber k ++ lit " +0,0 @@" ]
    ++ map (fun line => 45%N :: line) ls in
  getDiffTextGit h repo resourceUri = Ret (Some (join [LF] expected))
  /\ List.length (map (fun line => 45%N :: line) ls) = List.length ls
  /\ (has LF (asRelativePath h resourceUri) = false ->
      split LF (join [LF] expected) = expected).
Proof.
  intros Hfind Hst Hshow Hbin Hlines k expected. split; [|split].
  - unfold getDiffTextGit. rewrite Hfind. simpl option_map.
    destruct Hst as [-> | ->]; rewrite Hshow; simpl bindExc; rewrite Hbin;
      rewrite (buildPseudoDiff_of_lines _ _ _ _ _ ls Hlines); reflexivity.
  - apply length_map.
  - intros Hrel. unfold expected.
    apply pseudoDiff_lines; try reflexivity; try assumption; [| apply Hlines].
    change (has LF (ofNumber k ++ lit " +0,0 @@") = false).
    rewrite has_app, ofNumber_has by reflexivity. reflexivity.
Qed.

Lemma deleted_file_pseudo_diff_witness :
  let repo := sampleRepo [{| uri := fileAt "a.txt"; status := DELETED |}]
                         (fun _ => Ret (lit "one" ++ [LF] ++ lit "two"))
                         (fun _ => Throw) in
  let h := gitHost repo (fun _ => Throw) None in
  getDiffTextGit h repo (fileAt "a.txt")
  = Ret (Some (lit "--- a/a.txt" ++ [LF] ++ lit "+++ /dev/null" ++ [LF]
               ++ lit "@@ -1,2 +0,0 @@" ++ [LF]
               ++ lit "-one" ++ [LF] ++ lit "-two")).
Proof.
  intros repo h.
  refine (proj1 (deleted_file_pseudo_diff h repo (fileAt "a.txt")
                   {| uri := fileAt "a.txt"; status := DELETED |}
                   (lit "one" ++ [LF] ++ lit "two") [lit "one"; lit "two"]
                   eq_refl (or_introl eq_refl) eq_refl eq_refl _)).
  split; [reflexivity | right; split; [discriminate | reflexivity]].
Defined.

(** X8. On the SVN side, an added or unversioned file that is not binary and
    whose content is [k] lines, each closed by a line feed, gets the diff made
    of the lines [--- /dev/null], [+++ b/<relativePath>], [@@ -0,0 +1,k @@]
    and the [k] content lines, each with [+] in front. *)
Lemma svn_added_file_synthesis (h : Host) (resourceUri : Uri) (scmRoot : Path)
    (ls : list str) :
  getSvnStatus h (fsPath resourceUri) scmRoot = Ret (Some (lit "A"))
  \/ getSvnStatus h (fsPath resourceUri) scmRoot = Ret (Some (lit "?")) ->
  readFile h resourceUri = Ret (textOfLines ls) ->
  forallb (fun l => negb (has LF l)) ls = true ->
  isBinary (textOfLines ls) = false ->
  getDiffTextSvn h resourceUri scmRoot
  = Ret (Some (join [LF]
                 ([ lit "--- /dev/null";
                    lit "+++ b/" ++ asRelativePath h resourceUri;
                    lit "@@ -0,0 +1," ++ ofNumber (Z.of_nat (List.length ls)) ++ lit " @@" ]
                  ++ map (fun line => 43%N :: line) ls))).
Proof.
  intros Hst Hread Hls Hbin. unfold getDiffTextSvn.
  destruct Hst as [-> | ->]; cbn [bindExc]; eval_status; rewrite Hread; simpl bindExc;
    rewrite Hbin;
    rewrite (buildPseudoDiff_of_lines _ _ _ _ _ ls (textOfLines_hasLines _ Hls));
    reflexivity.
Qed.

(** X9. On the SVN side, a deleted or missing file for which [svn diff] gave
    nothing and whose base revision is not empty, not binary and has [k]
    lines gets the diff made of the lines [--- a/<relativePath>],
    [+++ /dev/null], [@@ -1,k +0,0 @@] and the [k] lines of the base
    revision, each with [-] in front. *)
Lemma svn_removed_file_synthesis (h : Host) (resourceUri : Uri) (scmRoot : Path)
    (content : str) (ls : list str) :
  getSvnStatus h (fsPath resourceUri) scmRoot = Ret (Some (lit "D"))
  \/ getSvnStatus h (fsPath resourceUri) scmRoot = Ret (Some (lit "!")) ->
  getSvnDiffOutput h (fsPath resourceUri) scmRoot = Ret None ->
  getSvnBaseContent h (fsPath resourceUri) scmRoot = Ret (Some content) ->
  content <> [] ->
  isBinary content = false ->
  hasLines content ls ->
  getDiffTextSvn h resourceUri scmRoot
  = Ret (Some (join [LF]
                 ([ lit "--- a/" ++ asRelativePath h resourceUri;
                    lit "+++ /dev/null";
                    lit "@@ -1," ++ ofNumber (Z.of_nat (List.length ls)) ++ lit " +0,0 @@" ]
                  ++ map (fun line => 45%N :: line) ls))).
Proof.
  intros Hst Hdiff Hbase Hne Hbin Hlines. unfold getDiffTextSvn.
  destruct content as [|x content]; [congruence|].
  destruct Hst as [-> | ->]; cbn [bindExc]; eval_status; rewrite Hdiff;
    cbn [bindExc truthy]; rewrite Hbase; cbn [bindExc];
    rewrite Hbin;
    rewrite (buildPseudoDiff_of_lines _ _ _ _ _ ls Hlines); reflexivity.
Qed.

End PseudoDiff.

(* ===================================================================== *)
(** * Null bytes in resolved diffs *)
(* ===================================================================== *)

Section NullBytes.

Import Js.
Import ReviewDiff.

Lemma isBinary_has (content : str) : isBinary content = has NUL content.
Proof. apply includes_single. Qed.

Lemma forallb_removelast {A} (f : A -> bool) (l : list A) :
  forallb f l = true -> forallb f (removelast l) = true.
Proof.
  induction l as [|a l IH]; [reflexivity|].
  intros H. simpl in H. apply andb_true_iff in H as [Ha Hl].
  destruct l as [|b l]; [reflexivity|].
  change (removelast (a :: b :: l)) with (a :: removelast (b :: l)).
  simpl forallb at 1. rewrite Ha. now apply IH.
Qed.

(** A synthesised diff holds a control character below the line feed only
    if a header or the content holds it. *)
Lemma buildPseudoDiff_has (c : unit16) relativePath content prefix fromHeader toHeader :
  (c < 10)%N ->
  has c fromHeader = false -> has c toHeader = false -> has c content = false ->
  has c (buildPseudoDiff relativePath content prefix fromHeader toHeader) = false.
Proof.
  intros Hc Hfrom Hto Hcontent. unfold buildPseudoDiff. cbv zeta.
  assert (Hne : forall d, (10 <= d)%N -> (c =? d)%N = false)
    by (intros d Hd; apply N.eqb_neq; lia).
  assert (Hlit : forall s, forallb (fun d => (10 <=? d)%N) s = true -> has c s = false).
  { induction s as [|d s IH]; [reflexivity|]. simpl. intros H.
    apply andb_true_iff in H as [Hd Hs]. apply N.leb_le in Hd.
    now rewrite (Hne d Hd), (IH Hs). }
  set (lines := match nth_error (split LF content) _ with
                | Some [] => removelast (split LF content)
                | _ => split LF content
                end).
  assert (Hlines : forallb (fun l => negb (has c l)) lines = true).
  { pose proof (has_split c LF content Hcontent) as Hs. subst lines.
    destruct (nth_error _ _) as [[|? ?]|]; try assumption.
    now apply forallb_removelast. }
  apply has_join.
  - simpl. rewrite Hne by (unfold LF; lia). reflexivity.
  - cbn [app forallb]. rewrite !has_app, Hfrom, Hto.
    rewrite !(Hlit (lit _)) by reflexivity. cbn [orb negb andb].
    assert (Hhunk : forall a b, has c (lit a ++ ofNumber (Z.of_nat (List.length lines)) ++ lit b)
                                = has c (lit a) || has c (lit b)).
    { intros a b. rewrite !has_app, ofNumber_has by lia. reflexivity. }
    assert (Hpre : (c =? prefix_unit prefix)%N = false)
      by (apply Hne; destruct prefix; simpl; lia).
    destruct prefix; rewrite Hhunk; cbn [negb andb orb];
      rewrite !(Hlit (lit _)) by reflexivity; cbn [negb andb orb].
    all: set (p := prefix_unit _) in *.
    all: clear Hhunk; clearbody lines p; induction lines as [|l ls IH]; [reflexivity|].
    all: cbn [map forallb] in *; apply andb_true_iff in Hlines as [Hl Hls].
    all: unfold has at 1; cbn [existsb]; fold (has c l).
    all: rewrite Hpre; cbn [orb]; rewrite Hl; now apply IH.
Qed.

Lemma buildPseudoDiff_not_binary relativePath content prefix fromHeader toHeader :
  isBinary fromHeader = false -> isBinary toHeader = false ->
  isBinary content = false ->
  isBinary (buildPseudoDiff relativePath content prefix fromHeader toHeader) = false.
Proof.
  rewrite !isBinary_has. apply buildPseudoDiff_has. reflexivity.
Qed.

(** A modified file whose working-tree diff holds a null byte: the git
    backend's text is returned as it is. *)
Lemma modified_diff_keeps_null_byte :
  let repo := sampleRepo [{| uri := fileAt "a.dat"; status := MODIFIED |}]
                         (fun _ => Throw)
                         (fun _ => Ret (lit "@@ -1 +1 @@" ++ [LF] ++ lit "+x" ++ [NUL])) in
  let h := gitHost repo (fun _ => Throw) None in
  getFileDiffText h (fileAt "a.dat") (getGitAPI h)
  = Ret (Some (lit "@@ -1 +1 @@" ++ [LF] ++ lit "+x" ++ [NUL]))
  /\ isBinary (lit "@@ -1 +1 @@" ++ [LF] ++ lit "+x" ++ [NUL]) = true.
Proof. split; reflexivity. Qed.

(** C5, as the code has it. When the relative path holds no null byte, every
    diff text that the resolver builds from file content holds none either:
    on the git side for a new, untracked or deleted file, on the SVN side for
    an added or unversioned file and for a deleted or missing one whose
    [svn diff] printed nothing.  (The other paths hand on the backend's own
    diff text unchecked.) *)
Theorem synthesised_diff_has_no_null (h : Host) (resourceUri : Uri) (d : str) :
  isBinary (asRelativePath h resourceUri) = false ->
  (forall (repo : Repository) (c : Change),
      find (fun c => path_eqb (fsPath (uri c)) (fsPath resourceUri))
           (workingTreeChanges repo ++ indexChanges repo) = Some c ->
      In (status c) [UNTRACKED; INTENT_TO_ADD; DELETED; INDEX_DELETED] ->
      getDiffTextGit h repo resourceUri = Ret (Some d) ->
      isBinary d = false)
  /\
  (forall (scmRoot : Path) (s : str),
      getSvnStatus h (fsPath resourceUri) scmRoot = Ret (Some s) ->
      In s [lit "A"; lit "?"]
      \/ (In s [lit "D"; lit "!"]
          /\ getSvnDiffOutput h (fsPath resourceUri) scmRoot = Ret None) ->
      getDiffTextSvn h resourceUri scmRoot = Ret (Some d) ->
      isBinary d = false).
Proof.
  intros Hrel.
  assert (Hb : isBinary (lit "b/" ++ asRelativePath h resourceUri) = false)
    by (rewrite isBinary_has in *; exact Hrel).
  assert (Ha : isBinary (lit "a/" ++ asRelativePath h resourceUri) = false)
    by (rewrite isBinary_has in *; exact Hrel).
  assert (Hsyn : forall content prefix fromHeader toHeader,
             isBinary fromHeader = false -> isBinary toHeader = false ->
             (if isBinary content then Ret None
              else Ret (Some (buildPseudoDiff (asRelativePath h resourceUri) content
                                prefix fromHeader toHeader))) = Ret (Some d) ->
             isBinary d = false).
  { intros content prefix fromHeader toHeader Hf Ht.
    destruct (isBinary content) eqn:Hbin; [discriminate|].
    intros [= <-]. now apply buildPseudoDiff_not_binary. }
  split.
  - intros repo c Hfind Hst. unfold getDiffTextGit. rewrite Hfind. simpl option_map.
    simpl in Hst.
    destruct Hst as [<- | [<- | [<- | [<- | []]]]];
      match goal with |- context [bindExc ?m _] => destruct m as [content|] end;
      simpl bindExc; try discriminate;
      apply Hsyn; (reflexivity || assumption).
  - intros scmRoot s Hs Hst. unfold getDiffTextSvn. rewrite Hs. cbn [bindExc].
    destruct Hst as [Hnew | [Hdel Hdiff]]; simpl in *.
    + destruct Hnew as [<- | [<- | []]]; eval_status;
        (destruct (readFile h resourceUri) as [content|]); simpl bindExc;
        try discriminate; apply Hsyn; (reflexivity || assumption).
    + rewrite Hdiff. cbn [bindExc].
      destruct Hdel as [<- | [<- | []]]; eval_status; cbn [truthy];
        (destruct (getSvnBaseContent h (fsPath resourceUri) scmRoot) as [[[|x content]|]|]);
        cbn [bindExc]; try discriminate; apply Hsyn; (reflexivity || assumption).
Qed.

Lemma synthesised_diff_has_no_null_witness :
  isBinary (lit "--- /dev/null" ++ [LF] ++ lit "+++ b/a.txt" ++ [LF]
            ++ lit "@@ -0,0 +1,2 @@" ++ [LF]
            ++ lit "+hello" ++ [LF] ++ lit "+world") = false.
Proof.
  pose (repo := sampleRepo [{| uri := fileAt "a.txt"; status := UNTRACKED |}]
                           (fun _ => Throw) (fun _ => Throw)).
  pose (h := gitHost repo (fun _ => Ret (textOfLines [lit "hello"; lit "world"])) None).
  exact (proj1 (synthesised_diff_has_no_null h (fileAt "a.txt") _ eq_refl)
           repo {| uri := fileAt "a.txt"; status := UNTRACKED |}
           eq_refl (or_introl eq_refl) eq_refl).
Defined.

End NullBytes.

(* ===================================================================== *)
(** * Choosing the backend: [findScmRoot] and [getFileDiffText] *)
(* ===================================================================== *)

Section Backend.

Import Js.
Import ReviewDiff.

Lemma path_eqb_eq (p q : Path) : path_eqb p q = true <-> p = q.
Proof.
  unfold path_eqb.
  destruct (list_eq_dec (list_eq_dec N.eq_dec) p q); split; congruence.
Qed.

(** One turn of the loop of [findScmRoot]. *)
Lemma findScmRootFrom_unfold (h : Host) (currentDir : Path) :
  findScmRootFrom h currentDir
  = if marked h currentDir ".git" then Some {| root := currentDir; type := git |}
    else if marked h currentDir ".svn" then Some {| root := currentDir; type := svn |}
    else if path_eqb (dirname currentDir) currentDir then None
    else findScmRootFrom h (dirname currentDir).
Proof.
  unfold marked, path_eqb.
  funelim (findScmRootFrom h currentDir); try rewrite Heq; try rewrite Heq0;
    try rewrite Heq1; try reflexivity.
Qed.

Lemma dirname_snoc (p : Path) (x : str) : dirname (p ++ [x]) = p.
Proof. apply removelast_last. Qed.

Lemma path_snoc_neq (p : Path) (x : str) : path_eqb p (p ++ [x]) = false.
Proof.
  destruct (path_eqb p (p ++ [x])) eqn:E; [|reflexivity].
  apply path_eqb_eq in E. apply (f_equal (@List.length _)) in E.
  rewrite length_app in E. simpl in E. lia.
Qed.

(** The walk stops at the nearest marked directory, and says [git] when
    that directory holds [.git]. *)
Lemma findScmRootFrom_nearest (h : Host) (root below : Path) :
  marked h root ".git" || marked h root ".svn" = true ->
  (forall k, (0 < k <= List.length below)%nat ->
     marked h (root ++ firstn k below) ".git"
     || marked h (root ++ firstn k below) ".svn" = false) ->
  findScmRootFrom h (root ++ below)
  = Some {| root := root;
            type := if marked h root ".git" then git else svn |}.
Proof.
  intros Hroot. induction below as [|x below IH] using rev_ind; intros Hnone.
  - rewrite app_nil_r, findScmRootFrom_unfold.
    destruct (marked h root ".git"); [reflexivity|].
    simpl in Hroot. now rewrite Hroot.
  - rewrite findScmRootFrom_unfold, app_assoc, dirname_snoc, path_snoc_neq.
    pose proof (Hnone (List.length (below ++ [x]))) as Hhere.
    rewrite firstn_all, app_assoc in Hhere.
    assert (Hlen : (0 < List.length (below ++ [x]) <= List.length (below ++ [x]))%nat)
      by (rewrite length_app; simpl; lia).
    apply Hhere in Hlen. apply orb_false_iff in Hlen as [-> ->].
    apply IH. intros k Hk.
    specialize (Hnone k). rewrite firstn_app in Hnone.
    replace (k - List.length below)%nat with O in Hnone by lia.
    rewrite firstn_O, app_nil_r in Hnone. apply Hnone.
    rewrite length_app. simpl. lia.
Qed.

(** Without any marker from [dir] up to the root, the walk finds nothing. *)
Lemma findScmRootFrom_none (h : Host) (dir : Path) :
  (forall k, (k <= List.length dir)%nat ->
     marked h (firstn k dir) ".git" || marked h (firstn k dir) ".svn" = false) ->
  findScmRootFrom h dir = None.
Proof.
  induction dir as [|x dir IH] using rev_ind; intros Hnone.
  - rewrite findScmRootFrom_unfold.
    specialize (Hnone O (Nat.le_refl _)). simpl in Hnone.
    apply orb_false_iff in Hnone as [-> ->]. reflexivity.
  - rewrite findScmRootFrom_unfold, dirname_snoc, path_snoc_neq.
    pose proof (Hnone (List.length (dir ++ [x])) (Nat.le_refl _)) as Hhere.
    rewrite firstn_all in Hhere. apply orb_false_iff in Hhere as [-> ->].
    apply IH. intros k Hk.
    specialize (Hnone k). rewrite firstn_app in Hnone.
    replace (k - List.length dir)%nat with O in Hnone by lia.
    rewrite firstn_O, app_nil_r in Hnone. apply Hnone.
    rewrite length_app. simpl. lia.
Qed.

(** A directory with both markers, and no active git extension: the walk
    stops on [.git], and the file gets no diff although [svn diff] has one. *)
Lemma git_marker_hides_svn_marker :
  let h := svnHost [ [lit "repo"; lit ".git"]; [lit "repo"; lit ".svn"] ] "M       a.txt"
                   {| err := false; stdout := lit "+new line" |}
                   {| err := true; stdout := [] |} (fun _ => Throw) in
  getGitAPI h = None
  /\ marked h (dirname (fsPath (fileAt "a.txt"))) ".svn" = true
  /\ getDiffTextSvn h (fileAt "a.txt") [lit "repo"] = Ret (Some (lit "+new line"))
  /\ getFileDiffText h (fileAt "a.txt") (getGitAPI h) = Ret None.
Proof. repeat split; reflexivity. Qed.

(** C4, as the code has it. For a file that git does not take, the resolver
    walks from the file's directory upwards and stops at the first directory
    holding [.git] or [.svn]; the result is the SVN backend's, run at that
    directory, when it holds [.svn] and not [.git], and is absent when it
    holds [.git]; and it is absent when no directory up to the root holds
    either marker. *)
Theorem backend_selection (h : Host) (resourceUri : Uri) (gitAPI : option GitAPI) :
  (forall api, gitAPI = Some api -> getRepositoryForUri api resourceUri = None) ->
  (forall scmRoot,
      nearestMarked h (dirname (fsPath resourceUri)) scmRoot ->
      getFileDiffText h resourceUri gitAPI
      = if marked h scmRoot ".git" then Ret None
        else getDiffTextSvn h resourceUri scmRoot)
  /\
  ((forall k, (k <= List.length (dirname (fsPath resourceUri)))%nat ->
      marked h (firstn k (dirname (fsPath resourceUri))) ".git"
      || marked h (firstn k (dirname (fsPath resourceUri))) ".svn" = false) ->
   getFileDiffText h resourceUri gitAPI = Ret None).
Proof.
  intros Hgit.
  assert (E : getFileDiffText h resourceUri gitAPI = trySvn h resourceUri).
  { unfold getFileDiffText. destruct gitAPI as [api|]; [|reflexivity].
    now rewrite (Hgit api eq_refl). }
  rewrite E. unfold trySvn, findScmRoot. split.
  - intros scmRoot (below & -> & Hroot & Hnone).
    rewrite (findScmRootFrom_nearest _ _ _ Hroot Hnone).
    destruct (marked h scmRoot ".git"); reflexivity.
  - intros Hnone. now rewrite (findScmRootFrom_none _ _ Hnone).
Qed.

Lemma backend_selection_witness :
  let h := svnHost [ [lit "repo"; lit ".svn"] ] "M       src/a.txt"
                   {| err := false; stdout := lit "+new line" |}
                   {| err := true; stdout := [] |} (fun _ => Throw) in
  let file := {| fsPath := [lit "repo"; lit "src"; lit "a.txt"] |} in
  getFileDiffText h file (getGitAPI h) = Ret (Some (lit "+new line")).
Proof.
  intros h file.
  refine (proj1 (backend_selection h file (getGitAPI h) _) [lit "repo"] _).
  - intros api H. discriminate H.
  - exists [lit "src"]. split; [reflexivity|]. split; [reflexivity|].
    intros k Hk. simpl in Hk.
    assert (k = 1%nat) as -> by lia. reflexivity.
Defined.

End Backend.

(* ===================================================================== *)
(** * The orchestrator: the size budget *)
(* ===================================================================== *)

Section SizeBudget.

Import Js.

Variable h : Host.
Variable targets_length : Z.

Lemma forOf_app {A} (f : A -> LoopState -> Control * list Event) pre more st :
  forOf f (pre ++ more) st
  = match forOf f pre st with
    | (Continue st', shown) =>
        let (r, later) := forOf f more st' in (r, shown ++ later)
    | r => r
    end.
Proof.
  revert st. induction pre as [|t pre IH]; intros st; simpl.
  - destruct (forOf f more st). reflexivity.
  - destruct (f t st) as [[st'| st' |] shown]; try reflexivity.
    rewrite IH. destruct (forOf f pre st') as [[st''| st'' |] shown']; try reflexivity.
    destruct (forOf f more st''). now rewrite app_assoc.
Qed.

Lemma length_nonneg (s : str) : 0 <= length s.
Proof. unfold length. lia. Qed.

Lemma sizeOf_app a b : sizeOf (a ++ b) = sizeOf a + sizeOf b.
Proof.
  unfold sizeOf. induction a as [|e a IH]; simpl; [reflexivity|].
  rewrite IH. lia.
Qed.

Lemma sizeOf_bounds accepted :
  Forall (fun e => length (diffText e) <= sizeOf accepted) accepted.
Proof.
  induction accepted as [|e a IH]; constructor.
  - assert (0 <= sizeOf a)
      by (clear; induction a as [|x a IH]; simpl; [lia | pose proof (length_nonneg (diffText x)); lia]).
    simpl. lia.
  - eapply Forall_impl; [|exact IH]. simpl. intros x Hx.
    pose proof (length_nonneg (diffText e)). lia.
Qed.

Lemma slice0_length (s : str) (n : Z) :
  0 <= n -> n < length s -> length (slice0 s n) = n.
Proof.
  unfold length, slice0. intros H0 Hn. rewrite length_firstn. lia.
Qed.

Lemma Fits_initialState : Fits initialState.
Proof. split; simpl; [reflexivity | unfold DIFF_SIZE_LIMIT; lia]. Qed.

(** ** The three ways through the size check *)

Lemma sizeCheck_accept fileName d st :
  totalSize st + length d <= DIFF_SIZE_LIMIT ->
  sizeCheck h targets_length fileName d st
  = (Continue {| diffs := diffs st ++ [{| fileName := fileName; diffText := d |}];
                 totalSize := totalSize st + length d;
                 skippedCount := skippedCount st |}, []).
Proof.
  intros Hfit. unfold sizeCheck.
  destruct (Z.gtb_spec (totalSize st + length d) DIFF_SIZE_LIMIT); [lia | reflexivity].
Qed.

Lemma sizeCheck_over_first fileName d st :
  totalSize st + length d > DIFF_SIZE_LIMIT ->
  diffs st = [] ->
  sizeCheck h targets_length fileName d st
  = (match pick h (limitMessage fileName) limitItems with
     | Some a =>
         if str_eqb a (lit "Send first 50KB") then
           Break {| diffs := [{| fileName := fileName;
                                 diffText := slice0 d DIFF_SIZE_LIMIT |}];
                    totalSize := totalSize st;
                    skippedCount := skippedCount st + (targets_length - 1) |}
         else Return
     | None => Return
     end,
     [ShowWarningMessage (limitMessage fileName) limitItems]).
Proof.
  intros Hover Hempty. unfold sizeCheck. rewrite Hempty.
  destruct (Z.gtb_spec (totalSize st + length d) DIFF_SIZE_LIMIT); [|lia].
  unfold limitMessage, limitItems.
  cbn [List.length Z.of_nat Z.eqb].
  destruct (pick h _ _) as [a|]; [|reflexivity].
  destruct (str_eqb a _); reflexivity.
Qed.

Lemma sizeCheck_over_later fileName d st :
  totalSize st + length d > DIFF_SIZE_LIMIT ->
  diffs st <> [] ->
  sizeCheck h targets_length fileName d st
  = (Break {| diffs := diffs st; totalSize := totalSize st;
              skippedCount := skippedCount st
                              + (targets_length - Z.of_nat (List.length (diffs st))) |}, []).
Proof.
  intros Hover Hne. unfold sizeCheck.
  destruct (Z.gtb_spec (totalSize st + length d) DIFF_SIZE_LIMIT); [|lia].
  destruct (diffs st) as [|e l]; [congruence|]. reflexivity.
Qed.

(** What the size check can do to a state that fits. *)
Lemma sizeCheck_cases fileName d st :
  Fits st ->
  match sizeCheck h targets_length fileName d st with
  | (Continue st', shown) => Fits st' /\ shown = []
  | (Break st', shown) =>
      (st' = {| diffs := diffs st; totalSize := totalSize st;
                skippedCount := skippedCount st
                                + (targets_length - Z.of_nat (List.length (diffs st))) |}
       /\ diffs st <> [] /\ shown = [])
      \/ (exists e, diffs st' = [e] /\ length (diffText e) = DIFF_SIZE_LIMIT
                    /\ exists m i, shown = [ShowWarningMessage m i])
  | (Return, shown) => exists m i, shown = [ShowWarningMessage m i]
  end.
Proof.
  intros [Htotal Hlimit].
  destruct (Z.gtb_spec (totalSize st + length d) DIFF_SIZE_LIMIT) as [Hover|Hfit].
  - destruct (diffs st) as [|e l] eqn:Hd.
    + rewrite sizeCheck_over_first by (assumption || lia).
      assert (Hlen : DIFF_SIZE_LIMIT < length d)
        by (simpl in Htotal; lia).
      destruct (pick h _ _) as [a|]; [|now eauto].
      destruct (str_eqb a _); [|now eauto].
      right. eexists. split; [reflexivity|]. split; [|now eauto].
      cbn [diffText]. apply slice0_length; [unfold DIFF_SIZE_LIMIT; lia | assumption].
    + rewrite sizeCheck_over_later by (try lia; rewrite Hd; discriminate).
      left. rewrite Hd. repeat split. discriminate.
  - rewrite sizeCheck_accept by assumption.
    split; [|reflexivity]. split; cbn [diffs totalSize]; [|assumption].
    rewrite sizeOf_app, Htotal. simpl. lia.
Qed.

(** ** A loop whose body either passes a file by or runs the size check

    Both revisions have such a body: a file is passed by with a notice (no
    repository, no diff, or a failure, which alone moves the skipped count),
    or it reaches the size check. *)

Variable body : SourceControlResourceState -> LoopState -> Control * list Event.

Hypothesis body_shape : forall target st,
  (exists st' shown,
      body target st = (Continue st', shown)
      /\ diffs st' = diffs st /\ totalSize st' = totalSize st
      /\ forallb isNotice shown = true)
  \/ (exists d, body target st
                = sizeCheck h targets_length (asRelativePath h (resourceUri target)) d st).

Lemma body_cases target st :
  Fits st ->
  match body target st with
  | (Continue st', shown) => Fits st' /\ forallb isNotice shown = true
  | (Break st', shown) =>
      (st' = {| diffs := diffs st; totalSize := totalSize st;
                skippedCount := skippedCount st
                                + (targets_length - Z.of_nat (List.length (diffs st))) |}
       /\ diffs st <> [] /\ shown = [])
      \/ (exists e, diffs st' = [e] /\ length (diffText e) = DIFF_SIZE_LIMIT
                    /\ exists m i, shown = [ShowWarningMessage m i])
  | (Return, shown) => exists m i, shown = [ShowWarningMessage m i]
  end.
Proof.
  intros Hfit.
  destruct (body_shape target st) as [(st' & shown & -> & Hd & Ht & Hn) | (d & ->)].
  - split; [|assumption]. destruct Hfit as [Htotal Hlimit].
    split; [rewrite Hd, Ht | rewrite Ht]; assumption.
  - pose proof (sizeCheck_cases (asRelativePath h (resourceUri target)) d st Hfit) as Hc.
    destruct (sizeCheck _ _ _ _ _) as [[st'|st'|] shown]; [|assumption..].
    destruct Hc as [Hfit' ->]. now split.
Qed.

(** The same for the whole loop. *)
Lemma forOf_cases targets st :
  Fits st ->
  match forOf body targets st with
  | (Continue st', shown) => Fits st' /\ forallb isNotice shown = true
  | (Break st', shown) =>
      sizeOf (diffs st') <= DIFF_SIZE_LIMIT
      /\ (forallb isNotice shown = true
          \/ exists e, diffs st' = [e] /\ length (diffText e) = DIFF_SIZE_LIMIT)
  | (Return, shown) => True
  end.
Proof.
  revert st. induction targets as [|t ts IH]; intros st Hfit; simpl.
  - split; [assumption | reflexivity].
  - pose proof (body_cases t st Hfit) as Hbody.
    destruct (body t st) as [[st'|st'|] shown].
    + destruct Hbody as [Hfit' Hinfo]. specialize (IH st' Hfit').
      destruct (forOf body ts st') as [[st''|st''|] later]; [| |exact I].
      * destruct IH as [Hfit'' Hinfo'']. split; [assumption|].
        rewrite forallb_app, Hinfo, Hinfo''. reflexivity.
      * destruct IH as [Hsize [Hinfo''|Hone]]; (split; [assumption|]).
        -- left. rewrite forallb_app, Hinfo, Hinfo''. reflexivity.
        -- now right.
    + destruct Hbody as [(-> & Hne & ->) | (e & He & Hlen & m & i & ->)].
      * destruct Hfit as [Htotal Hlimit]. cbn [diffs]. split; [lia | now left].
      * split; [|right; now exists e].
        rewrite He. simpl. lia.
    + exact I.
Qed.

(** The loop itself sends nothing to the chat panel. *)
Lemma body_sends_nothing target st :
  forallb (fun e => negb (isCommand e)) (snd (body target st)) = true.
Proof.
  destruct (body_shape target st) as [(st' & shown & -> & _ & _ & Hn) | (d & ->)].
  - simpl. clear - Hn. induction shown as [|e l IH]; [reflexivity|].
    simpl in *. apply andb_true_iff in Hn as [He Hl].
    rewrite (IH Hl), andb_true_r. now destruct e.
  - unfold sizeCheck.
    destruct (_ >? _); [|reflexivity].
    destruct (_ =? _); [|reflexivity].
    destruct (pick h _ _) as [a|]; [destruct (str_eqb a _)|]; reflexivity.
Qed.

Lemma forOf_sends_nothing targets st :
  forallb (fun e => negb (isCommand e)) (snd (forOf body targets st)) = true.
Proof.
  revert st. induction targets as [|t ts IH]; intros st; [reflexivity|].
  simpl. pose proof (body_sends_nothing t st) as Hb.
  destruct (body t st) as [[st'|st'|] shown]; simpl in *; try assumption.
  specialize (IH st'). destruct (forOf body ts st') as [r later]. simpl in *.
  now rewrite forallb_app, Hb, IH.
Qed.

(** ** The loop up to a file that does not fit *)

Variables (pre rest : list SourceControlResourceState).
Variable target : SourceControlResourceState.
Variables (st : LoopState) (shown : list Event) (d : str).

Hypothesis before : forOf body pre initialState = (Continue st, shown).
Hypothesis reached :
  body target st = sizeCheck h targets_length (asRelativePath h (resourceUri target)) d st.

Lemma forOf_over_first :
  diffs st = [] ->
  length d > DIFF_SIZE_LIMIT ->
  let fileName := asRelativePath h (resourceUri target) in
  forOf body (pre ++ target :: rest) initialState
  = (match pick h (limitMessage fileName) limitItems with
     | Some a =>
         if str_eqb a (lit "Send first 50KB") then
           Break {| diffs := [{| fileName := fileName;
                                 diffText := slice0 d DIFF_SIZE_LIMIT |}];
                    totalSize := totalSize st;
                    skippedCount := skippedCount st + (targets_length - 1) |}
         else Return
     | None => Return
     end,
     shown ++ [ShowWarningMessage (limitMessage fileName) limitItems])
  /\ forallb isNotice shown = true.
Proof.
  intros Hempty Hlen fileName.
  pose proof (forOf_cases pre initialState Fits_initialState) as Hc.
  rewrite before in Hc. destruct Hc as [[Htotal _] Hinfo].
  rewrite Hempty in Htotal. simpl in Htotal.
  split; [|assumption].
  rewrite forOf_app, before. cbn [forOf]. rewrite reached.
  rewrite sizeCheck_over_first by (assumption || lia).
  fold fileName.
  destruct (pick h _ _) as [a|]; [destruct (str_eqb a _)|]; reflexivity.
Qed.

Lemma forOf_over_later :
  diffs st <> [] ->
  totalSize st + length d > DIFF_SIZE_LIMIT ->
  forOf body (pre ++ target :: rest) initialState
  = (Break {| diffs := diffs st; totalSize := totalSize st;
              skippedCount := skippedCount st
                              + (targets_length - Z.of_nat (List.length (diffs st))) |},
     shown).
Proof.
  intros Hne Hover.
  rewrite forOf_app, before. cbn [forOf]. rewrite reached.
  rewrite sizeCheck_over_later by assumption.
  now rewrite app_nil_r.
Qed.

End SizeBudget.

Section Delivery.

Import Js.

Variable h : Host.
Variable targets_length : Z.
Variable body : SourceControlResourceState -> LoopState -> Control * list Event.

Hypothesis body_shape : forall target st,
  (exists st' shown,
      body target st = (Continue st', shown)
      /\ diffs st' = diffs st /\ totalSize st' = totalSize st
      /\ forallb isNotice shown = true)
  \/ (exists d, body target st
                = sizeCheck h targets_length (asRelativePath h (resourceUri target)) d st).

Variable buildPrompt : list DiffEntry -> Z -> Exc str.

(** Whatever a run built on such a loop sends was assembled from the diffs
    the loop ended with, and these are within the limit. *)
Lemma delivery_within_limit (targets : list SourceControlResourceState)
    (command prompt : str) :
  let outcome := forOf body targets initialState in
  let run :=
    match outcome with
    | (Return, shown) => shown
    | (Continue st, shown) | (Break st, shown) => shown ++ afterLoop buildPrompt st
    end in
  In (ExecuteCommand command prompt) run ->
  exists st,
    finalState outcome = Some st
    /\ buildPrompt (diffs st) (skippedCount st) = Ret prompt
    /\ Forall (fun e => length (diffText e) <= 50000) (diffs st)
    /\ sizeOf (diffs st) <= 50000
    /\ ((exists m i, In (ShowWarningMessage m i) run) ->
        exists e, diffs st = [e] /\ length (diffText e) = 50000).
Proof.
  intros outcome run. subst run outcome.
  pose proof (forOf_cases h targets_length body body_shape targets initialState
                Fits_initialState) as Hc.
  pose proof (forOf_sends_nothing h targets_length body body_shape targets initialState)
    as Hquietloop.
  assert (Hinfo : forall shown, forallb isNotice shown = true ->
                    forall m i, ~ In (ShowWarningMessage m i) shown).
  { intros shown Hall. rewrite forallb_forall in Hall.
    intros a b Hin; apply Hall in Hin; discriminate. }
  assert (Hsent : forall st, In (ExecuteCommand command prompt) (afterLoop buildPrompt st) ->
                    buildPrompt (diffs st) (skippedCount st) = Ret prompt).
  { intros st. unfold afterLoop, openChat.
    destruct (Z.of_nat (List.length (diffs st)) =? 0); [intros []|].
    destruct (buildPrompt (diffs st) (skippedCount st)); [|intros []].
    intros [[= _ ->] | []]. reflexivity. }
  assert (Hquiet : forall st m i, ~ In (ShowWarningMessage m i) (afterLoop buildPrompt st)).
  { intros st m i. unfold afterLoop, openChat.
    destruct (Z.of_nat (List.length (diffs st)) =? 0); [intros []|].
    destruct (buildPrompt (diffs st) (skippedCount st)); [|intros []].
    intros [[=] | []]. }
  assert (Hall : forall accepted, sizeOf accepted <= DIFF_SIZE_LIMIT ->
                   Forall (fun e => length (diffText e) <= 50000) accepted).
  { intros accepted Hsize. eapply Forall_impl; [|apply sizeOf_bounds].
    simpl. unfold DIFF_SIZE_LIMIT in Hsize. intros e He. lia. }
  destruct (forOf body targets initialState) as [[st|st|] shown];
    simpl in Hquietloop; rewrite forallb_forall in Hquietloop;
    intros Hin;
    try (apply in_app_or in Hin as [Hin | Hin]);
    try (apply Hquietloop in Hin; discriminate Hin).
  - destruct Hc as [[Htotal Hlimit] Hshown].
    exists st. split; [reflexivity|]. split; [now apply Hsent|].
    assert (sizeOf (diffs st) <= DIFF_SIZE_LIMIT) by lia.
    split; [now apply Hall|]. split; [assumption|].
    intros (m & i & Hw). apply in_app_or in Hw as [Hw | Hw];
      [now apply (Hinfo shown Hshown) in Hw | now apply Hquiet in Hw].
  - destruct Hc as [Hsize Hshown].
    exists st. split; [reflexivity|]. split; [now apply Hsent|].
    split; [now apply Hall|]. split; [assumption|].
    intros (m & i & Hw). destruct Hshown as [Hshown | Hone]; [|assumption].
    apply in_app_or in Hw as [Hw | Hw];
      [now apply (Hinfo shown Hshown) in Hw | now apply Hquiet in Hw].
Qed.

End Delivery.

Section Runs.

Import Js.
Import PromptTemplates.
Import ReviewDiff.

(** The loop body of the Git and SVN revision passes a file by or runs the
    size check on its diff. *)
Lemma loopBody_shape (h : Host) (gitAPI : option GitAPI) (n : Z) target st :
  (exists st' shown,
      loopBody h gitAPI n target st = (Continue st', shown)
      /\ diffs st' = diffs st /\ totalSize st' = totalSize st
      /\ forallb isNotice shown = true)
  \/ (exists d, loopBody h gitAPI n target st
                = sizeCheck h n (asRelativePath h (resourceUri target)) d st).
Proof.
  unfold loopBody.
  destruct (getFileDiffText h (resourceUri target) gitAPI) as [[[|x d]|]|];
    try (left; do 2 eexists; repeat split; reflexivity).
  right. now exists (x :: d).
Qed.

Lemma loopBody_reaches (h : Host) (gitAPI : option GitAPI) (n : Z) target st d :
  getFileDiffText h (resourceUri target) gitAPI = Ret (Some d) ->
  d <> [] ->
  loopBody h gitAPI n target st
  = sizeCheck h n (asRelativePath h (resourceUri target)) d st.
Proof.
  intros Hres Hd. unfold loopBody. rewrite Hres.
  destruct d; [congruence | reflexivity].
Qed.

(** With a supported language, the prompt is always assembled. *)
Lemma buildPrompt_returns (h : Host) (accepted : list DiffEntry) (skipped : Z) :
  own PROMPT_TEMPLATES (resolveLanguage h) <> None ->
  exists prompt, buildPrompt h accepted skipped = Ret prompt.
Proof.
  intros Hown. unfold buildPrompt, get_slot.
  destruct (own PROMPT_TEMPLATES (resolveLanguage h)) as [t|]; [|congruence].
  destruct (skipped >? 0); cbn [bindExc slot_skipNotice];
    destruct (truthy _); eexists; reflexivity.
Qed.

(** With no file skipped, the prompt is assembled whatever the language. *)
Lemma buildPrompt_returns_unskipped (h : Host) (accepted : list DiffEntry) (skipped : Z) :
  skipped <= 0 ->
  exists prompt, buildPrompt h accepted skipped = Ret prompt.
Proof.
  intros Hzero. unfold buildPrompt.
  destruct (Z.gtb_spec skipped 0); [lia|].
  cbn [bindExc]. destruct (truthy _); eexists; reflexivity.
Qed.

(** With a language that is no key of the table and a skipped file, the
    prompt is not assembled: the notice of an inherited slot cannot be called. *)
Lemma buildPrompt_fails (h : Host) (accepted : list DiffEntry) (skipped : Z) :
  own PROMPT_TEMPLATES (resolveLanguage h) = None ->
  skipped > 0 ->
  buildPrompt h accepted skipped = Throw.
Proof.
  intros Hown Hpos. unfold buildPrompt, get_slot. rewrite Hown.
  destruct (Z.gtb_spec skipped 0); [reflexivity | lia].
Qed.

(** With a language that is a key of the table, the prompt ends with the
    skip footer of its template. *)
Lemma buildPrompt_footer (h : Host) (t : PromptTemplate) (accepted : list DiffEntry)
    (skipped : Z) :
  own PROMPT_TEMPLATES (resolveLanguage h) = Some t ->
  exists text, buildPrompt h accepted skipped = Ret (text ++ footerOf t skipped).
Proof.
  intros Hown. unfold buildPrompt, get_slot, footerOf. rewrite Hown.
  destruct (skipped >? 0); cbn [bindExc slot_skipNotice slot_header];
    destruct (truthy _);
    first [ eexists; reflexivity
          | eexists; rewrite !app_assoc; reflexivity ].
Qed.

(** The run that meets, with nothing accepted yet, a file whose diff alone is
    over the limit: the dialog, and after [Send first 50KB] the loop's end
    and what the assembly of the prompt leaves to send. *)
Lemma over_first_run (h : Host)
    (resourceState : SourceControlResourceState)
    (resourceStates : option (list SourceControlResourceState))
    (pre rest : list SourceControlResourceState) (target : SourceControlResourceState)
    (st : LoopState) (shown : list Event) (d : str) :
  let n := Z.of_nat (List.length (targetsOf resourceState resourceStates)) in
  targetsOf resourceState resourceStates = pre ++ target :: rest ->
  forOf (loopBody h (getGitAPI h) n) pre initialState = (Continue st, shown) ->
  diffs st = [] ->
  getFileDiffText h (resourceUri target) (getGitAPI h) = Ret (Some d) ->
  length d > DIFF_SIZE_LIMIT ->
  let fileName := asRelativePath h (resourceUri target) in
  let dialog := ShowWarningMessage (limitMessage fileName) limitItems in
  let truncated := {| fileName := fileName; diffText := slice0 d DIFF_SIZE_LIMIT |} in
  let skipped := skippedCount st + (n - 1) in
  forallb isNotice shown = true
  /\ (pick h (limitMessage fileName) limitItems = Some (lit "Send first 50KB") ->
      forOf (loopBody h (getGitAPI h) n) (pre ++ target :: rest) initialState
      = (Break {| diffs := [truncated]; totalSize := totalSize st;
                  skippedCount := skipped |},
         shown ++ [dialog])
      /\ reviewDiff h resourceState resourceStates
         = shown ++ [dialog] ++ openChat (buildPrompt h [truncated] skipped)
      /\ length (diffText truncated) = 50000)
  /\ (pick h (limitMessage fileName) limitItems <> Some (lit "Send first 50KB") ->
      reviewDiff h resourceState resourceStates = shown ++ [dialog]).
Proof.
  intros n Htargets Hpre Hempty Hres Hlen fileName dialog truncated skipped.
  assert (Hd : d <> [])
    by (intros ->; unfold length, DIFF_SIZE_LIMIT in Hlen; simpl in Hlen; lia).
  destruct (forOf_over_first h n _ (loopBody_shape h (getGitAPI h) n)
              pre rest target st shown d Hpre (loopBody_reaches _ _ _ _ _ _ Hres Hd)
              Hempty Hlen) as [Hloop Hinfo].
  fold fileName in Hloop.
  split; [exact Hinfo|]. split.
  - intros Hpick. rewrite Hpick, str_eqb_refl in Hloop.
    split; [exact Hloop|]. split.
    + unfold reviewDiff. fold n. rewrite Htargets, Hloop. unfold afterLoop.
      cbn [diffs skippedCount List.length Z.of_nat Z.eqb].
      now rewrite <- app_assoc.
    + subst truncated. cbn [diffText].
      unfold DIFF_SIZE_LIMIT in Hlen. apply slice0_length; lia.
  - intros Hno. unfold reviewDiff. fold n. rewrite Htargets, Hloop.
    destruct (pick h (limitMessage fileName) limitItems) as [a|]; [|reflexivity].
    destruct (str_eqb a (lit "Send first 50KB")) eqn:E; [|reflexivity].
    apply str_eqb_eq in E. congruence.
Qed.

(** X27. With a language that is a key of the template table: when the loop
    reaches, with nothing accepted yet, a file whose diff alone is longer
    than 50,000 characters, the user is shown one dialog with the two items
    [Send first 50KB] and [Cancel].  If the first is picked, the loop ends
    there with exactly the first 50,000 characters of that diff accepted and
    the number of selected files minus one added to the skipped count, and
    the run hands the prompt assembled from these to the chat panel as its
    last event.  Otherwise the run ends after the dialog, and nothing is
    sent to the chat panel. *)
Theorem oversized_first_diff_delivery (h : Host)
    (resourceState : SourceControlResourceState)
    (resourceStates : option (list SourceControlResourceState))
    (pre rest : list SourceControlResourceState) (target : SourceControlResourceState)
    (st : LoopState) (shown : list Event) (d : str) :
  let n := Z.of_nat (List.length (targetsOf resourceState resourceStates)) in
  targetsOf resourceState resourceStates = pre ++ target :: rest ->
  forOf (loopBody h (getGitAPI h) n) pre initialState = (Continue st, shown) ->
  diffs st = [] ->
  getFileDiffText h (resourceUri target) (getGitAPI h) = Ret (Some d) ->
  length d > DIFF_SIZE_LIMIT ->
  own PROMPT_TEMPLATES (resolveLanguage h) <> None ->
  let fileName := asRelativePath h (resourceUri target) in
  let dialog := ShowWarningMessage (limitMessage fileName) limitItems in
  let answer := pick h (limitMessage fileName) limitItems in
  let truncated := {| fileName := fileName; diffText := slice0 d DIFF_SIZE_LIMIT |} in
  let skipped := skippedCount st + (n - 1) in
  (answer = Some (lit "Send first 50KB") ->
     exists prompt,
       buildPrompt h [truncated] skipped = Ret prompt
       /\ forOf (loopBody h (getGitAPI h) n) (pre ++ target :: rest) initialState
          = (Break {| diffs := [truncated]; totalSize := totalSize st;
                      skippedCount := skipped |},
             shown ++ [dialog])
       /\ reviewDiff h resourceState resourceStates
          = shown ++ [dialog; ExecuteCommand (lit "workbench.action.chat.open") prompt]
       /\ diffText truncated = firstn (Z.to_nat 50000) d
       /\ length (diffText truncated) = 50000)
  /\ (answer <> Some (lit "Send first 50KB") ->
     reviewDiff h resourceState resourceStates = shown ++ [dialog])
  /\ (forall command query, ~ In (ExecuteCommand command query) (shown ++ [dialog])).
Proof.
  intros n Htargets Hpre Hempty Hres Hlen Hlang fileName dialog answer truncated skipped.
  destruct (over_first_run h resourceState resourceStates pre rest target st shown d
              Htargets Hpre Hempty Hres Hlen) as (Hinfo & Hyes & Hno).
  split; [|split].
  - intros Hpick. destruct (Hyes Hpick) as (Hloop & Hrun & Hsize).
    destruct (buildPrompt_returns h [truncated] skipped Hlang) as [prompt Hprompt].
    exists prompt. split; [exact Hprompt|]. split; [exact Hloop|].
    split; [|split; [reflexivity | exact Hsize]].
    rewrite Hrun. fold fileName truncated n skipped. rewrite Hprompt. reflexivity.
  - exact Hno.
  - intros command query Hin. apply in_app_or in Hin as [Hin | [Hin | []]]; [|discriminate].
    rewrite forallb_forall in Hinfo. apply Hinfo in Hin. discriminate.
Qed.

(** C3. When the loop reaches, with at least one diff accepted, a file whose
    diff would take the running total over 50,000 characters, it adds the
    number of selected files minus the number of accepted diffs to the
    skipped count and leaves the loop: the accepted diffs stay as they are,
    no later file is looked at, and the prompt is assembled from them.  (Its
    instance on two diffs of 30,000 characters each follows: the first alone
    is accepted and one file is counted as skipped.) *)
Theorem later_diff_over_limit (h : Host)
    (resourceState : SourceControlResourceState)
    (resourceStates : option (list SourceControlResourceState))
    (pre rest : list SourceControlResourceState) (target : SourceControlResourceState)
    (st : LoopState) (shown : list Event) (d : str) :
  let n := Z.of_nat (List.length (targetsOf resourceState resourceStates)) in
  targetsOf resourceState resourceStates = pre ++ target :: rest ->
  forOf (loopBody h (getGitAPI h) n) pre initialState = (Continue st, shown) ->
  diffs st <> [] ->
  getFileDiffText h (resourceUri target) (getGitAPI h) = Ret (Some d) ->
  totalSize st + length d > DIFF_SIZE_LIMIT ->
  let skipped := skippedCount st + (n - Z.of_nat (List.length (diffs st))) in
  forOf (loopBody h (getGitAPI h) n) (pre ++ target :: rest) initialState
  = (Break {| diffs := diffs st; totalSize := totalSize st; skippedCount := skipped |},
     shown)
  /\ reviewDiff h resourceState resourceStates
     = shown ++ openChat (buildPrompt h (diffs st) skipped).
Proof.
  intros n Htargets Hpre Hne Hres Hover skipped.
  pose proof (forOf_cases h n _ (loopBody_shape h (getGitAPI h) n) pre initialState
                Fits_initialState) as Hc.
  rewrite Hpre in Hc. destruct Hc as [[Htotal Hlimit] _].
  assert (Hd : d <> [])
    by (intros ->; unfold length in Hover; simpl in Hover; lia).
  pose proof (forOf_over_later h n _ pre rest target st shown d Hpre
                (loopBody_reaches _ _ _ _ _ _ Hres Hd) Hne Hover) as Hloop.
  split; [exact Hloop|].
  unfold reviewDiff. fold n. rewrite Htargets, Hloop.
  unfold afterLoop. cbn [diffs skippedCount].
  destruct (diffs st) as [|e l]; [congruence | reflexivity].
Qed.

Lemma later_diff_over_limit_witness :
  let h := budgetHost [("a.txt", 30000%nat); ("b.txt", 30000%nat)]%string None in
  let accepted := [{| fileName := asRelativePath h (resourceUri (selected "a.txt"));
                      diffText := diffOfLength 30000 |}] in
  forOf (loopBody h (getGitAPI h) 2) ([selected "a.txt"] ++ [selected "b.txt"]) initialState
  = (Break {| diffs := accepted; totalSize := 30000; skippedCount := 0 + (2 - 1) |}, [])
  /\ reviewDiff h (selected "a.txt") (Some [selected "a.txt"; selected "b.txt"])
     = [] ++ openChat (buildPrompt h accepted (0 + (2 - 1))).
Proof.
  intros h accepted.
  assert (Hpre : forOf (loopBody h (getGitAPI h) 2) [selected "a.txt"] initialState
                 = (Continue {| diffs := accepted; totalSize := 30000; skippedCount := 0 |}, []))
    by (vm_cast_no_check
          (@eq_refl _ (Continue {| diffs := accepted; totalSize := 30000; skippedCount := 0 |},
                       @nil Event))).
  assert (Hres : getFileDiffText h (resourceUri (selected "b.txt")) (getGitAPI h)
                 = Ret (Some (diffOfLength 30000)))
    by (vm_cast_no_check (@eq_refl _ (Ret (Some (diffOfLength 30000))))).
  assert (Hover : 30000 + length (diffOfLength 30000) > DIFF_SIZE_LIMIT)
    by (vm_compute; reflexivity).
  assert (Hne : accepted <> []) by discriminate.
  exact (later_diff_over_limit h (selected "a.txt")
           (Some [selected "a.txt"; selected "b.txt"])
           [selected "a.txt"] [] (selected "b.txt")
           {| diffs := accepted; totalSize := 30000; skippedCount := 0 |} []
           (diffOfLength 30000) eq_refl Hpre Hne Hres Hover).
Defined.

(** C10. Whatever is sent to the chat panel is the prompt assembled from the
    diffs the loop ended with; no one of them is longer than 50,000
    characters and together they have at most 50,000 characters; and when
    the run asked the user about an oversized diff first, there is a single
    one, cut to exactly 50,000 characters. *)
Theorem delivered_diffs_within_limit (h : Host)
    (resourceState : SourceControlResourceState)
    (resourceStates : option (list SourceControlResourceState))
    (command prompt : str) :
  let targets := targetsOf resourceState resourceStates in
  let n := Z.of_nat (List.length targets) in
  In (ExecuteCommand command prompt) (reviewDiff h resourceState resourceStates) ->
  exists st,
    finalState (forOf (loopBody h (getGitAPI h) n) targets initialState) = Some st
    /\ buildPrompt h (diffs st) (skippedCount st) = Ret prompt
    /\ Forall (fun e => length (diffText e) <= 50000) (diffs st)
    /\ sizeOf (diffs st) <= 50000
    /\ ((exists m i, In (ShowWarningMessage m i) (reviewDiff h resourceState resourceStates)) ->
        exists e, diffs st = [e] /\ length (diffText e) = 50000).
Proof.
  intros targets n. unfold reviewDiff. fold targets. fold n.
  apply (delivery_within_limit h _ _ (loopBody_shape h (getGitAPI h) _) (buildPrompt h)).
Qed.

Lemma delivered_diffs_within_limit_witness :
  let h := budgetHost [("a.txt", 12%nat)]%string None in
  let prompt := match buildPrompt h [entryOfLength "a.txt" 12] 0 with
                | Ret prompt => prompt
                | Throw => []
                end in
  exists st,
    finalState (forOf (loopBody h (getGitAPI h) 1) [selected "a.txt"] initialState) = Some st
    /\ buildPrompt h (diffs st) (skippedCount st) = Ret prompt
    /\ Forall (fun e => length (diffText e) <= 50000) (diffs st)
    /\ sizeOf (diffs st) <= 50000
    /\ ((exists m i, In (ShowWarningMessage m i) (reviewDiff h (selected "a.txt") None)) ->
        exists e, diffs st = [e] /\ length (diffText e) = 50000).
Proof.
  intros h prompt.
  apply (delivered_diffs_within_limit h (selected "a.txt") None
           (lit "workbench.action.chat.open") prompt).
  vm_compute. left. reflexivity.
Defined.

(** ** Runs on the sample git host, worked out without unfolding the texts *)

Lemma length_diffOfLength (n : nat) : length (diffOfLength n) = Z.of_nat n.
Proof. unfold length, diffOfLength. now rewrite repeat_length. Qed.

Lemma trim_diffOfLength (n : nat) : trim (diffOfLength n) = diffOfLength n.
Proof.
  unfold trim, diffOfLength.
  assert (Hstart : trimStart (repeat 43%N n) = repeat 43%N n) by (destruct n; reflexivity).
  rewrite Hstart. clear Hstart. induction n as [|n IH]; [reflexivity|].
  cbn [repeat trimEnd]. rewrite IH. destruct n; reflexivity.
Qed.

(** On the sample git host, a listed file resolves to its diff text and any
    other file to nothing. *)
Lemma budget_present (sizes : list (string * nat)) (answer : option str)
    (name : string) (n : nat) :
  diffsBySize sizes (fsPath (fileAt name)) = Ret (diffOfLength n) ->
  n <> O ->
  getDiffTextGit (budgetHost sizes answer)
    (sampleRepo [] (fun _ => Throw) (diffsBySize sizes)) (fileAt name)
  = Ret (Some (diffOfLength n)).
Proof.
  intros Hsize Hn. unfold getDiffTextGit.
  cbn [sampleRepo workingTreeChanges indexChanges app find option_map
       diffWithHEAD diffIndexWithHEAD].
  rewrite Hsize. cbn [bindExc]. rewrite trim_diffOfLength.
  destruct n as [|n]; [congruence|]. reflexivity.
Qed.

Lemma budget_absent (sizes : list (string * nat)) (answer : option str) (name : string) :
  diffsBySize sizes (fsPath (fileAt name)) = Ret [] ->
  getDiffTextGit (budgetHost sizes answer)
    (sampleRepo [] (fun _ => Throw) (diffsBySize sizes)) (fileAt name)
  = Ret None.
Proof.
  intros Hsize. unfold getDiffTextGit.
  cbn [sampleRepo workingTreeChanges indexChanges app find option_map
       diffWithHEAD diffIndexWithHEAD].
  rewrite Hsize. reflexivity.
Qed.

(** The same through the dispatcher of the Git and SVN revision. *)
Lemma budget_dispatch (sizes : list (string * nat)) (answer : option str) (name : string) :
  getFileDiffText (budgetHost sizes answer) (fileAt name)
    (getGitAPI (budgetHost sizes answer))
  = getDiffTextGit (budgetHost sizes answer)
      (sampleRepo [] (fun _ => Throw) (diffsBySize sizes)) (fileAt name).
Proof. reflexivity. Qed.

(** The loop on an unchanged file followed by two diffs of 30,000 characters,
    for a body that passes the first by and runs the size check on the other
    two. *)
Lemma unchanged_then_two_large (h : Host)
    (body : SourceControlResourceState -> LoopState -> Control * list Event)
    (a b c : SourceControlResourceState) (notice : Event) (lb lc : str) :
  body a initialState = (Continue initialState, [notice]) ->
  (forall st, body b st = sizeCheck h 3 lb (diffOfLength 30000) st) ->
  (forall st, body c st = sizeCheck h 3 lc (diffOfLength 30000) st) ->
  forOf body [a; b; c] initialState
  = (Break {| diffs := [{| fileName := lb; diffText := diffOfLength 30000 |}];
              totalSize := 30000; skippedCount := 2 |},
     [notice]).
Proof.
  intros Ha Hb Hc. cbn [forOf]. rewrite Ha, Hb.
  assert (Hfits : 0 + length (diffOfLength 30000) <= DIFF_SIZE_LIMIT)
    by (rewrite length_diffOfLength; vm_compute; discriminate).
  rewrite sizeCheck_accept by exact Hfits.
  rewrite Hc.
  rewrite sizeCheck_over_later;
    [| cbn [totalSize]; rewrite length_diffOfLength; vm_compute; reflexivity
     | discriminate].
  cbn [diffs totalSize skippedCount app List.length].
  rewrite length_diffOfLength.
  change (0 + Z.of_nat 30000) with 30000.
  change (0 + (3 - Z.of_nat 1)) with 2.
  reflexivity.
Qed.

Lemma two_large (h : Host)
    (body : SourceControlResourceState -> LoopState -> Control * list Event)
    (b c : SourceControlResourceState) (lb lc : str) :
  (forall st, body b st = sizeCheck h 2 lb (diffOfLength 30000) st) ->
  (forall st, body c st = sizeCheck h 2 lc (diffOfLength 30000) st) ->
  forOf body [b; c] initialState
  = (Break {| diffs := [{| fileName := lb; diffText := diffOfLength 30000 |}];
              totalSize := 30000; skippedCount := 1 |},
     []).
Proof.
  intros Hb Hc. cbn [forOf]. rewrite Hb.
  assert (Hfits : 0 + length (diffOfLength 30000) <= DIFF_SIZE_LIMIT)
    by (rewrite length_diffOfLength; vm_compute; discriminate).
  rewrite sizeCheck_accept by exact Hfits.
  rewrite Hc.
  rewrite sizeCheck_over_later;
    [| cbn [totalSize]; rewrite length_diffOfLength; vm_compute; reflexivity
     | discriminate].
  cbn [diffs totalSize skippedCount app List.length].
  rewrite length_diffOfLength.
  change (0 + Z.of_nat 30000) with 30000.
  change (0 + (2 - Z.of_nat 1)) with 1.
  reflexivity.
Qed.

(** C1, where the code departs from it.  A selection of three files, the
    first without any change and the other two with diffs of 30,000
    characters: the third stops the loop, and the prompt announces two
    skipped files; without the unchanged file in the selection it announces
    one. *)
Theorem unchanged_file_counted_at_size_stop :
  let h := budgetHost [("b.txt", 30000%nat); ("c.txt", 30000%nat)]%string None in
  reviewDiff h (selected "a.txt")
    (Some [selected "a.txt"; selected "b.txt"; selected "c.txt"])
  = [ShowInformationMessage (lit "No diff found: a.txt")]
    ++ openChat (buildPrompt h [entryOfLength "b.txt" 30000] 2)
  /\ reviewDiff h (selected "b.txt") (Some [selected "b.txt"; selected "c.txt"])
     = openChat (buildPrompt h [entryOfLength "b.txt" 30000] 1)
  /\ buildPrompt h [entryOfLength "b.txt" 30000] 2
     = Ret (lit "Please review the following diff." ++ [LF]
            ++ lit "For each file, point out problems, suggestions for improvement, and good points specifically."
            ++ [LF; LF] ++ lit "### File: b.txt" ++ [LF] ++ lit "```diff" ++ [LF]
            ++ diffOfLength 30000 ++ [LF] ++ lit "```" ++ [LF; LF]
            ++ lit "> Note: 2 file(s) were skipped because the diff size exceeded the limit.").
Proof.
  intros h.
  assert (Hb : forall name n st,
             getFileDiffText h (fileAt name) (getGitAPI h) = Ret (Some (diffOfLength 30000)) ->
             loopBody h (getGitAPI h) n (selected name) st
             = sizeCheck h n (relativeLabel (fileAt name)) (diffOfLength 30000) st).
  { intros name n st Hres. apply (loopBody_reaches h (getGitAPI h) n (selected name));
      [exact Hres | discriminate]. }
  assert (Hres : forall name,
             diffsBySize [("b.txt", 30000%nat); ("c.txt", 30000%nat)]%string
               (fsPath (fileAt name)) = Ret (diffOfLength 30000) ->
             getFileDiffText h (fileAt name) (getGitAPI h) = Ret (Some (diffOfLength 30000))).
  { intros name Hsize. subst h. rewrite budget_dispatch.
    apply budget_present; [exact Hsize | discriminate]. }
  assert (Ha : loopBody h (getGitAPI h) 3 (selected "a.txt") initialState
               = (Continue initialState,
                  [ShowInformationMessage (lit "No diff found: a.txt")])).
  { unfold loopBody. cbn [selected resourceUri]. subst h.
    rewrite budget_dispatch, budget_absent by reflexivity. reflexivity. }
  assert (Hpresent : forall name, name = "b.txt"%string \/ name = "c.txt"%string ->
             forall n st,
               loopBody h (getGitAPI h) n (selected name) st
               = sizeCheck h n (lit name) (diffOfLength 30000) st).
  { intros name Hname n st.
    destruct Hname as [-> | ->]; apply Hb; apply Hres; reflexivity. }
  pose proof (unchanged_then_two_large h (loopBody h (getGitAPI h) 3)
                (selected "a.txt") (selected "b.txt") (selected "c.txt")
                (ShowInformationMessage (lit "No diff found: a.txt"))
                (lit "b.txt") (lit "c.txt") Ha
                (Hpresent _ (or_introl eq_refl) 3) (Hpresent _ (or_intror eq_refl) 3))
    as Hthree.
  pose proof (two_large h (loopBody h (getGitAPI h) 2)
                (selected "b.txt") (selected "c.txt") (lit "b.txt") (lit "c.txt")
                (Hpresent _ (or_introl eq_refl) 2) (Hpresent _ (or_intror eq_refl) 2))
    as Htwo.
  split; [|split].
  - unfold reviewDiff. cbn [targetsOf List.length].
    change (Z.of_nat 3) with 3. rewrite Hthree. reflexivity.
  - unfold reviewDiff. cbn [targetsOf List.length].
    change (Z.of_nat 2) with 2. rewrite Htwo. reflexivity.
  - vm_cast_no_check
      (@eq_refl _ (buildPrompt h [entryOfLength "b.txt" 30000] 2)).
Qed.

(** On a repository without listed changes, a file whose working-tree diff
    is [n] characters resolves to that diff, whatever the host. *)
Lemma sized_diff_resolves (h : Host) (head diff : Path -> Exc str) (file : Uri) (n : nat) :
  diff (fsPath file) = Ret (diffOfLength n) ->
  n <> O ->
  getDiffTextGit h (sampleRepo [] head diff) file = Ret (Some (diffOfLength n)).
Proof.
  intros Hsize Hn. unfold getDiffTextGit.
  cbn [sampleRepo workingTreeChanges indexChanges app find option_map
       diffWithHEAD diffIndexWithHEAD].
  rewrite Hsize. cbn [bindExc]. rewrite trim_diffOfLength.
  destruct n as [|n]; [congruence|]. reflexivity.
Qed.

Lemma oversized_first_diff_delivery_witness :
  let h := budgetHost [("big.txt", 60000%nat); ("b.txt", 12%nat)]%string
             (Some (lit "Send first 50KB")) in
  let targets := [selected "big.txt"; selected "b.txt"] in
  let fileName := asRelativePath h (resourceUri (selected "big.txt")) in
  let dialog := ShowWarningMessage (limitMessage fileName) limitItems in
  let truncated := {| fileName := fileName;
                      diffText := slice0 (diffOfLength 60000) DIFF_SIZE_LIMIT |} in
  exists prompt,
    buildPrompt h [truncated] (0 + (2 - 1)) = Ret prompt
    /\ forOf (loopBody h (getGitAPI h) 2) ([] ++ targets) initialState
       = (Break {| diffs := [truncated]; totalSize := 0; skippedCount := 0 + (2 - 1) |},
          [] ++ [dialog])
    /\ reviewDiff h (selected "big.txt") (Some targets)
       = [] ++ [dialog; ExecuteCommand (lit "workbench.action.chat.open") prompt]
    /\ diffText truncated = firstn (Z.to_nat 50000) (diffOfLength 60000)
    /\ length (diffText truncated) = 50000.
Proof.
  intros h targets fileName dialog truncated.
  assert (Hres : getFileDiffText h (resourceUri (selected "big.txt")) (getGitAPI h)
                 = Ret (Some (diffOfLength 60000))).
  { apply (budget_present [("big.txt", 60000%nat); ("b.txt", 12%nat)]%string
             (Some (lit "Send first 50KB")) "big.txt" 60000); [reflexivity | discriminate]. }
  assert (Hlen : length (diffOfLength 60000) > DIFF_SIZE_LIMIT)
    by (rewrite length_diffOfLength; reflexivity).
  refine (proj1 (oversized_first_diff_delivery h (selected "big.txt") (Some targets)
                   [] [selected "b.txt"] (selected "big.txt") initialState []
                   (diffOfLength 60000) eq_refl eq_refl eq_refl Hres Hlen _) eq_refl).
  discriminate.
Defined.

(** C2, where the code departs from it.  The setting [reviewLanguage] is
    [toString], which language resolution keeps (the defect of C7).  Two
    files are selected and the diff of the first has 60,000 characters; the
    user picks [Send first 50KB].  The loop ends with the first 50,000
    characters accepted and one file counted as skipped, but assembling the
    prompt fails on the skip notice of the inherited slot: the run shows the
    dialog and sends nothing.  Without the setting, the same run sends the
    prompt. *)
Theorem confirmed_truncation_not_delivered :
  let sizes := [("big.txt", 60000%nat); ("b.txt", 12%nat)]%string in
  let plain := budgetHost sizes (Some (lit "Send first 50KB")) in
  let h := withSettings
             [("copilot-scm-code-reviewer"%string, "reviewLanguage"%string,
               lit "toString")] plain in
  let targets := [selected "big.txt"; selected "b.txt"] in
  let fileName := asRelativePath h (resourceUri (selected "big.txt")) in
  let dialog := ShowWarningMessage (limitMessage fileName) limitItems in
  let truncated := {| fileName := fileName;
                      diffText := slice0 (diffOfLength 60000) DIFF_SIZE_LIMIT |} in
  getFileDiffText h (resourceUri (selected "big.txt")) (getGitAPI h)
  = Ret (Some (diffOfLength 60000))
  /\ length (diffOfLength 60000) = 60000
  /\ pick h (limitMessage fileName) limitItems = Some (lit "Send first 50KB")
  /\ forOf (loopBody h (getGitAPI h) 2) targets initialState
     = (Break {| diffs := [truncated]; totalSize := 0; skippedCount := 1 |}, [dialog])
  /\ length (diffText truncated) = 50000
  /\ buildPrompt h [truncated] 1 = Throw
  /\ reviewDiff h (selected "big.txt") (Some targets) = [dialog]
  /\ exists prompt,
       reviewDiff plain (selected "big.txt") (Some targets)
       = [dialog; ExecuteCommand (lit "workbench.action.chat.open") prompt].
Proof.
  intros sizes plain h targets fileName dialog truncated.
  assert (Hlen : length (diffOfLength 60000) > DIFF_SIZE_LIMIT)
    by (rewrite length_diffOfLength; reflexivity).
  assert (Hres : getFileDiffText h (resourceUri (selected "big.txt")) (getGitAPI h)
                 = Ret (Some (diffOfLength 60000))).
  { apply (sized_diff_resolves h (fun _ => Throw) (diffsBySize sizes) (fileAt "big.txt") 60000);
      [reflexivity | discriminate]. }
  assert (Hplain : getFileDiffText plain (resourceUri (selected "big.txt")) (getGitAPI plain)
                   = Ret (Some (diffOfLength 60000))).
  { apply (sized_diff_resolves plain (fun _ => Throw) (diffsBySize sizes)
             (fileAt "big.txt") 60000); [reflexivity | discriminate]. }
  destruct (over_first_run h (selected "big.txt") (Some targets)
              [] [selected "b.txt"] (selected "big.txt") initialState []
              (diffOfLength 60000) eq_refl eq_refl eq_refl Hres Hlen) as (_ & Hyes & _).
  destruct (Hyes eq_refl) as (Hloop & Hrun & Hsize).
  destruct (over_first_run plain (selected "big.txt") (Some targets)
              [] [selected "b.txt"] (selected "big.txt") initialState []
              (diffOfLength 60000) eq_refl eq_refl eq_refl Hplain Hlen) as (_ & Hyes' & _).
  destruct (Hyes' eq_refl) as (_ & Hrun' & _).
  assert (Hfail : forall accepted, buildPrompt h accepted 1 = Throw).
  { intros accepted. apply buildPrompt_fails; reflexivity. }
  split; [exact Hres|].
  split; [apply length_diffOfLength|].
  split; [reflexivity|].
  split; [exact Hloop|].
  split; [exact Hsize|].
  split; [apply Hfail|].
  split.
  - rewrite Hrun.
    change (skippedCount initialState
            + (Z.of_nat (List.length (targetsOf (selected "big.txt") (Some targets))) - 1))
      with 1.
    rewrite Hfail. reflexivity.
  - destruct (buildPrompt_returns plain
                [{| fileName := asRelativePath plain (resourceUri (selected "big.txt"));
                    diffText := slice0 (diffOfLength 60000) DIFF_SIZE_LIMIT |}]
                (skippedCount initialState
                 + (Z.of_nat (List.length (targetsOf (selected "big.txt") (Some targets))) - 1)))
      as [prompt Hprompt]; [discriminate|].
    exists prompt. rewrite Hrun', Hprompt. reflexivity.
Qed.

End Runs.


(* ===================================================================== *)
(** * Language resolution *)
(* ===================================================================== *)

Section Language.

Import Js.
Import PromptTemplates.

(** No name inherited from [Object.prototype] has fewer than three code units. *)
Lemma short_name_not_inherited (s : str) :
  (List.length s <= 2)%nat -> existsb (str_eqb s) Object_prototype = false.
Proof.
  intros Hlen.
  assert (Hlong : forallb (fun k => (2 <? List.length k)%nat) Object_prototype = true)
    by reflexivity.
  induction Object_prototype as [|k ks IH]; [reflexivity|].
  simpl in *. apply andb_true_iff in Hlong as [Hk Hks].
  rewrite (IH Hks), orb_false_r.
  destruct (str_eqb s k) eqn:E; [|reflexivity].
  apply str_eqb_eq in E. subst k. apply Nat.ltb_lt in Hk. lia.
Qed.

Lemma slice0_two_short (s : str) : (List.length (slice0 s 2) <= 2)%nat.
Proof.
  unfold slice0. change (Z.to_nat 2) with 2%nat. rewrite length_firstn. lia.
Qed.

(** X17. Language resolution for every setting that is not a name inherited
    from [Object.prototype]: a setting other than [auto] is kept when it is a key
    of the table and replaced by the default otherwise; with [auto], a
    lower-cased locale tag starting with [zh] gives [zh-cn], and any other
    gives its first two characters when they are a key, else the default. *)
Lemma resolveLanguage_on_ordinary_settings (h : Host) :
  let configured :=
    getConfig h (lit "copilot-scm-code-reviewer") (lit "reviewLanguage") (lit "auto") in
  let supported key := match own PROMPT_TEMPLATES key with Some _ => true | None => false end in
  existsb (str_eqb configured) Object_prototype = false ->
  resolveLanguage h
  = if str_eqb configured (lit "auto") then
      if startsWith (toLowerCase (unicodeLower h) (language h)) (lit "zh") then lit "zh-cn"
      else if supported (slice0 (toLowerCase (unicodeLower h) (language h)) 2)
           then slice0 (toLowerCase (unicodeLower h) (language h)) 2
           else lit "en"
    else if supported configured then configured else lit "en".
Proof.
  intros configured supported Hord. unfold resolveLanguage. fold configured.
  unfold js_in. rewrite Hord.
  rewrite (short_name_not_inherited _ (slice0_two_short _)).
  unfold supported.
  destruct (str_eqb configured (lit "auto")); simpl negb; cbv iota.
  - destruct (startsWith _ _); [reflexivity|].
    destruct (own PROMPT_TEMPLATES (slice0 _ 2)); reflexivity.
  - destruct (own PROMPT_TEMPLATES configured); reflexivity.
Qed.

(** Every supported code resolves to itself. *)
Lemma resolveLanguage_supported (h : Host) (code : str) :
  In code (map fst PROMPT_TEMPLATES) ->
  getConfig h (lit "copilot-scm-code-reviewer") (lit "reviewLanguage") (lit "auto") = code ->
  resolveLanguage h = code.
Proof.
  intros Hin Hcfg. unfold resolveLanguage. rewrite Hcfg.
  simpl in Hin.
  repeat (destruct Hin as [<- | Hin]; [reflexivity|]). destruct Hin.
Qed.

(** C7, where the code departs from it.  The setting [toString] is neither
    [auto] nor a supported code, yet it is not replaced by the default: the
    membership test finds the name on the table's prototype. *)
Theorem inherited_name_kept_as_language :
  let h := settingsHost
             [("copilot-scm-code-reviewer", "reviewLanguage", lit "toString")]%string
             "en" in
  resolveLanguage h = lit "toString"
  /\ own PROMPT_TEMPLATES (lit "toString") = None
  /\ map fst PROMPT_TEMPLATES
     = [lit "ja"; lit "en"; lit "zh-cn"; lit "ko"; lit "fr"; lit "de"; lit "es"]
  /\ DEFAULT_LANG = lit "en".
Proof. repeat split; reflexivity. Qed.

End Language.

(* ===================================================================== *)
(** * Assembling the prompt around a custom text *)
(* ===================================================================== *)

Section CustomPrompt.

Import Js.
Import PromptTemplates.
Import ReviewDiff.

(** A replacement text without dollar sign is inserted as it is. *)
Lemma getSubstitution_literal (matched before after templ : str) :
  has DOLLAR templ = false -> getSubstitution matched before after templ = templ.
Proof.
  induction templ as [|c t IH]; intros H; [reflexivity|].
  unfold has in H. cbn [existsb] in H. apply orb_false_iff in H as [Hc Ht].
  cbn [getSubstitution]. rewrite N.eqb_sym, Hc. f_equal. now apply IH.
Qed.

Lemma replace_literal (s pattern replacement : str) (i : nat) :
  indexOf s pattern = Some i ->
  has DOLLAR replacement = false ->
  replace s pattern replacement
  = firstn i s ++ replacement ++ skipn (i + List.length pattern) s.
Proof.
  intros Hi Hr. unfold replace. rewrite Hi.
  now rewrite (getSubstitution_literal _ _ _ _ Hr).
Qed.

Variable h : Host.
Variable t : PromptTemplate.
Hypothesis supported : own PROMPT_TEMPLATES (resolveLanguage h) = Some t.

Let custom : str :=
  getConfig h (lit "code-reviewer") (lit "reviewPrompt." ++ resolveLanguage h) [].

Lemma buildPrompt_custom (accepted : list DiffEntry) (skipped : Z) :
  trim custom <> [] ->
  buildPrompt h accepted skipped
  = Ret ((if includes custom (lit "{{diff}}")
          then replace custom (lit "{{diff}}") (bodyOf (fileLabel t) accepted)
          else custom ++ [LF; LF] ++ bodyOf (fileLabel t) accepted)
         ++ footerOf t skipped).
Proof.
  intros Hblank. unfold buildPrompt, get_slot. rewrite supported.
  fold custom. unfold footerOf, bodyOf.
  destruct (trim custom) as [|x r] eqn:Htrim; [congruence|].
  destruct (skipped >? 0); cbn [bindExc slot_skipNotice slot_fileLabel truthy]; reflexivity.
Qed.

(** X15. With a supported language and a custom text that is more than white
    space and does not name the placeholder, the prompt is the custom text,
    a blank line, the body and the skip footer. *)
Lemma custom_prompt_without_placeholder (accepted : list DiffEntry) (skipped : Z) :
  trim custom <> [] ->
  includes custom (lit "{{diff}}") = false ->
  buildPrompt h accepted skipped
  = Ret (custom ++ [LF; LF] ++ bodyOf (fileLabel t) accepted ++ footerOf t skipped).
Proof.
  intros Hblank Hno. rewrite (buildPrompt_custom _ _ Hblank), Hno.
  now rewrite <- !app_assoc.
Qed.

(** X16. With a supported language, a custom text that names the placeholder
    and a body without dollar sign, the prompt is the custom text with the
    body in the place of the first placeholder, and then the skip footer. *)
Lemma custom_prompt_with_placeholder (accepted : list DiffEntry) (skipped : Z) :
  trim custom <> [] ->
  includes custom (lit "{{diff}}") = true ->
  has DOLLAR (bodyOf (fileLabel t) accepted) = false ->
  exists i,
    indexOf custom (lit "{{diff}}") = Some i
    /\ buildPrompt h accepted skipped
       = Ret (firstn i custom ++ bodyOf (fileLabel t) accepted
              ++ skipn (i + 8) custom ++ footerOf t skipped).
Proof.
  intros Hblank Hyes Hbody. rewrite (buildPrompt_custom _ _ Hblank), Hyes.
  unfold includes in Hyes.
  destruct (indexOf custom (lit "{{diff}}")) as [i|] eqn:Hi; [|discriminate].
  exists i. split; [reflexivity|].
  rewrite (replace_literal _ _ _ _ Hi Hbody). now rewrite <- !app_assoc.
Qed.

End CustomPrompt.

(** C6, where the code departs from it.  The custom text is the placeholder
    after a line of instructions and the diff adds the line [echo $$]: in the
    prompt the body stands at the placeholder with one dollar sign missing. *)
Theorem placeholder_replacement_rewrites_dollars :
  let h := settingsHost
             [("code-reviewer"%string, "reviewPrompt.en"%string,
               Js.lit "Review this:" ++ [Js.LF] ++ Js.lit "{{diff}}")] "en" in
  let accepted := [{| fileName := Js.lit "run.sh"; diffText := Js.lit "+echo $$" |}] in
  bodyOf (Js.lit "File") accepted
  = Js.lit "### File: run.sh" ++ [Js.LF] ++ Js.lit "```diff" ++ [Js.LF]
    ++ Js.lit "+echo $$" ++ [Js.LF] ++ Js.lit "```"
  /\ ReviewDiff.buildPrompt h accepted 0
     = Ret (Js.lit "Review this:" ++ [Js.LF]
            ++ Js.lit "### File: run.sh" ++ [Js.LF] ++ Js.lit "```diff" ++ [Js.LF]
            ++ Js.lit "+echo $" ++ [Js.LF] ++ Js.lit "```")
  /\ ReviewDiff.buildPrompt h accepted 0
     <> Ret (Js.lit "Review this:" ++ [Js.LF] ++ bodyOf (Js.lit "File") accepted).
Proof.
  intros h accepted. split; [reflexivity|]. split; [reflexivity|].
  vm_compute. discriminate.
Qed.

(* ===================================================================== *)
(** * The Git-only revision *)
(* ===================================================================== *)

(** The Git-only revision of [reviewDiff.ts] has the same size check, the
    same prompt assembly and the same language resolution; the statements
    above are repeated for it here. *)

Section GitOnlyRuns.

Import Js.

Lemma git_only_loopBody_shape (h : Host) (api : GitAPI) (n : Z) target st :
  (exists st' shown,
      GitOnly.loopBody h api n target st = (Continue st', shown)
      /\ diffs st' = diffs st /\ totalSize st' = totalSize st
      /\ forallb isNotice shown = true)
  \/ (exists d, GitOnly.loopBody h api n target st
                = sizeCheck h n (asRelativePath h (resourceUri target)) d st).
Proof.
  unfold GitOnly.loopBody, GitOnly.getRepositoryForUri.
  destruct (getRepository api (resourceUri target)) as [repo|];
    [|left; do 2 eexists; repeat split; reflexivity].
  destruct (GitOnly.getDiffText h repo (resourceUri target)) as [[[|x d]|]|];
    try (left; do 2 eexists; repeat split; reflexivity).
  right. now exists (x :: d).
Qed.

Lemma git_only_loopBody_reaches (h : Host) (api : GitAPI) (n : Z) target st repo d :
  getRepository api (resourceUri target) = Some repo ->
  GitOnly.getDiffText h repo (resourceUri target) = Ret (Some d) ->
  d <> [] ->
  GitOnly.loopBody h api n target st
  = sizeCheck h n (asRelativePath h (resourceUri target)) d st.
Proof.
  intros Hrepo Hres Hd. unfold GitOnly.loopBody, GitOnly.getRepositoryForUri.
  rewrite Hrepo, Hres. destruct d; [congruence | reflexivity].
Qed.

(** With a supported language, the Git-only revision always assembles the
    prompt. *)
Lemma git_only_buildPrompt_returns (h : Host) (accepted : list DiffEntry) (skipped : Z) :
  own GitOnly.PROMPT_TEMPLATES (GitOnly.resolveLanguage h) <> None ->
  exists prompt, GitOnly.buildPrompt h accepted skipped = Ret prompt.
Proof.
  intros Hown. unfold GitOnly.buildPrompt, get_slot.
  destruct (own GitOnly.PROMPT_TEMPLATES (GitOnly.resolveLanguage h)) as [t|]; [|congruence].
  destruct (skipped >? 0); cbn [bindExc slot_skipNotice];
    destruct (truthy _); eexists; reflexivity.
Qed.

Variable h : Host.
Variable api : GitAPI.
Hypothesis active : GitOnly.getGitAPI h = (Some api, []).

Variable resourceState : SourceControlResourceState.
Variable resourceStates : option (list SourceControlResourceState).

Let n : Z := Z.of_nat (List.length (targetsOf resourceState resourceStates)).

Variables (pre rest : list SourceControlResourceState).
Variable target : SourceControlResourceState.
Variables (st : LoopState) (shown : list Event) (repo : Repository) (d : str).

Hypothesis selection : targetsOf resourceState resourceStates = pre ++ target :: rest.
Hypothesis before : forOf (GitOnly.loopBody h api n) pre initialState = (Continue st, shown).
Hypothesis owned : getRepository api (resourceUri target) = Some repo.
Hypothesis resolved : GitOnly.getDiffText h repo (resourceUri target) = Ret (Some d).

Let label : str := asRelativePath h (resourceUri target).

(** X24. In the Git-only revision, with a language that is a key of the
    template table: when the loop reaches, with nothing accepted yet, a file
    of a repository whose diff is longer than 50,000 characters, the dialog
    is shown; on [Send first 50KB] the prompt built from the first 50,000
    characters of that diff, with the number of selected files minus one
    added to the skipped count, is handed to the chat panel as the last event
    of the run; on any other answer the run ends after the dialog. *)
Lemma git_only_oversized_first_diff :
  diffs st = [] ->
  length d > DIFF_SIZE_LIMIT ->
  own GitOnly.PROMPT_TEMPLATES (GitOnly.resolveLanguage h) <> None ->
  let dialog := ShowWarningMessage (limitMessage label) limitItems in
  let truncated := {| fileName := label; diffText := slice0 d DIFF_SIZE_LIMIT |} in
  (pick h (limitMessage label) limitItems = Some (lit "Send first 50KB") ->
     exists prompt,
       GitOnly.buildPrompt h [truncated] (skippedCount st + (n - 1)) = Ret prompt
       /\ GitOnly.reviewDiff h resourceState resourceStates
          = shown ++ [dialog; ExecuteCommand (lit "workbench.action.chat.open") prompt]
       /\ length (diffText truncated) = 50000)
  /\ (pick h (limitMessage label) limitItems <> Some (lit "Send first 50KB") ->
     GitOnly.reviewDiff h resourceState resourceStates = shown ++ [dialog]).
Proof.
  intros Hempty Hlen Hlang dialog truncated.
  assert (Hd : d <> [])
    by (intros ->; unfold length, DIFF_SIZE_LIMIT in Hlen; simpl in Hlen; lia).
  destruct (forOf_over_first h n _ (git_only_loopBody_shape h api n)
              pre rest target st shown d before
              (git_only_loopBody_reaches _ _ _ _ _ _ _ owned resolved Hd)
              Hempty Hlen) as [Hloop _].
  unfold GitOnly.reviewDiff. rewrite active. fold n. rewrite selection, Hloop.
  fold label. split.
  - intros ->. rewrite str_eqb_refl. unfold afterLoop.
    cbn [diffs skippedCount List.length Z.of_nat Z.eqb].
    destruct (git_only_buildPrompt_returns h [truncated] (skippedCount st + (n - 1)) Hlang)
      as [prompt Hprompt].
    exists prompt. split; [exact Hprompt|]. split.
    + fold truncated. rewrite Hprompt. cbn [openChat]. now rewrite <- app_assoc.
    + subst truncated. cbn [diffText].
      unfold DIFF_SIZE_LIMIT in Hlen. apply slice0_length; lia.
  - intros Hno. destruct (pick h _ _) as [a|]; [|reflexivity].
    destruct (str_eqb a (lit "Send first 50KB")) eqn:E; [|reflexivity].
    apply str_eqb_eq in E. congruence.
Qed.

(** X25. In the Git-only revision, with a language that is a key of the
    template table: when the loop reaches, with at least one diff accepted, a
    file whose diff takes the total over 50,000 characters, the run ends by
    handing to the chat panel the prompt built from the diffs accepted so
    far, with the number of selected files minus the number of accepted
    diffs added to the skipped count. *)
Lemma git_only_overflowing_later_diff :
  diffs st <> [] ->
  totalSize st + length d > DIFF_SIZE_LIMIT ->
  own GitOnly.PROMPT_TEMPLATES (GitOnly.resolveLanguage h) <> None ->
  let skipped := skippedCount st + (n - Z.of_nat (List.length (diffs st))) in
  exists prompt,
    GitOnly.buildPrompt h (diffs st) skipped = Ret prompt
    /\ GitOnly.reviewDiff h resourceState resourceStates
       = shown ++ [ExecuteCommand (lit "workbench.action.chat.open") prompt].
Proof.
  intros Hne Hover Hlang skipped.
  assert (Hd : d <> [])
    by (intros ->; unfold length in Hover; simpl in Hover;
        pose proof (forOf_cases h n _ (git_only_loopBody_shape h api n) pre initialState
                      Fits_initialState) as Hc;
        rewrite before in Hc; destruct Hc as [[_ Hlimit] _]; lia).
  pose proof (forOf_over_later h n _ pre rest target st shown d before
                (git_only_loopBody_reaches _ _ _ _ _ _ _ owned resolved Hd) Hne Hover)
    as Hloop.
  destruct (git_only_buildPrompt_returns h (diffs st) skipped Hlang) as [prompt Hprompt].
  exists prompt. split; [exact Hprompt|].
  unfold GitOnly.reviewDiff. rewrite active. fold n. rewrite selection, Hloop.
  unfold afterLoop. cbn [diffs skippedCount]. fold skipped. rewrite Hprompt.
  destruct (diffs st) as [|e l]; [congruence | reflexivity].
Qed.

End GitOnlyRuns.

(** X26. In the Git-only revision, whatever is sent to the chat panel is the
    prompt built from the diffs the loop ended with; no one of them is longer
    than 50,000 characters and together they have at most 50,000. *)
Lemma git_only_sent_diffs_bounded (h : Host)
    (resourceState : SourceControlResourceState)
    (resourceStates : option (list SourceControlResourceState))
    (command prompt : Js.str) :
  In (ExecuteCommand command prompt) (GitOnly.reviewDiff h resourceState resourceStates) ->
  exists api st,
    GitOnly.getGitAPI h = (Some api, [])
    /\ finalState (forOf (GitOnly.loopBody h api
                            (Z.of_nat (List.length (targetsOf resourceState resourceStates))))
                     (targetsOf resourceState resourceStates) initialState) = Some st
    /\ GitOnly.buildPrompt h (diffs st) (skippedCount st) = Ret prompt
    /\ Forall (fun e => Js.length (diffText e) <= 50000) (diffs st)
    /\ sizeOf (diffs st) <= 50000.
Proof.
  unfold GitOnly.reviewDiff.
  destruct (GitOnly.getGitAPI h) as [[api|] shown] eqn:Hapi.
  - intros Hin.
    destruct (delivery_within_limit h _ _ (git_only_loopBody_shape h api _)
                (GitOnly.buildPrompt h) _ _ _ Hin) as (st & H0 & H1 & H2 & H3 & _).
    exists api, st. repeat split; try assumption.
    unfold GitOnly.getGitAPI in Hapi |- *.
    destruct (gitExtension h) as [e|]; [destruct (negb (isActive e))|];
      inversion Hapi; reflexivity.
  - unfold GitOnly.getGitAPI in Hapi.
    destruct (gitExtension h) as [e|]; [destruct (negb (isActive e))|];
      inversion Hapi; subst; intros [Hin | []]; discriminate Hin.
Qed.

(** The three departures, on the Git-only revision. *)
Lemma git_only_unchanged_file_in_count :
  let h := budgetHost [("b.txt", 30000%nat); ("c.txt", 30000%nat)]%string None in
  GitOnly.reviewDiff h (selected "a.txt")
    (Some [selected "a.txt"; selected "b.txt"; selected "c.txt"])
  = [ShowInformationMessage (Js.lit "No diff found: a.txt")]
    ++ openChat (GitOnly.buildPrompt h [entryOfLength "b.txt" 30000] 2).
Proof.
  intros h.
  pose (api := {| getRepository := fun _ : Uri =>
                      Some (sampleRepo [] (fun _ => Throw)
                              (diffsBySize [("b.txt", 30000%nat); ("c.txt", 30000%nat)]%string)) |}).
  assert (Ha : GitOnly.loopBody h api 3 (selected "a.txt") initialState
               = (Continue initialState,
                  [ShowInformationMessage (Js.lit "No diff found: a.txt")])).
  { unfold GitOnly.loopBody, GitOnly.getRepositoryForUri, GitOnly.getDiffText.
    cbn [selected resourceUri api getRepository]. subst h.
    rewrite budget_absent by reflexivity. reflexivity. }
  assert (Hpresent : forall name, name = "b.txt"%string \/ name = "c.txt"%string ->
             forall st,
               GitOnly.loopBody h api 3 (selected name) st
               = sizeCheck h 3 (Js.lit name) (diffOfLength 30000) st).
  { intros name Hname st.
    assert (Hres : GitOnly.getDiffText h
                     (sampleRepo [] (fun _ => Throw)
                        (diffsBySize [("b.txt", 30000%nat); ("c.txt", 30000%nat)]%string))
                     (resourceUri (selected name))
                   = Ret (Some (diffOfLength 30000))).
    { subst h. unfold GitOnly.getDiffText. cbn [selected resourceUri].
      destruct Hname as [-> | ->]; apply budget_present; (reflexivity || discriminate). }
    destruct Hname as [-> | ->];
      apply (git_only_loopBody_reaches h api 3 _ st _ _ eq_refl Hres); discriminate. }
  pose proof (unchanged_then_two_large h (GitOnly.loopBody h api 3)
                (selected "a.txt") (selected "b.txt") (selected "c.txt")
                (ShowInformationMessage (Js.lit "No diff found: a.txt"))
                (Js.lit "b.txt") (Js.lit "c.txt") Ha
                (Hpresent _ (or_introl eq_refl)) (Hpresent _ (or_intror eq_refl)))
    as Hthree.
  unfold GitOnly.reviewDiff.
  change (GitOnly.getGitAPI h) with (Some api, @nil Event).
  cbn [targetsOf List.length].
  change (Z.of_nat 3) with 3. rewrite Hthree. reflexivity.
Qed.

Lemma git_only_inherited_name_as_language :
  GitOnly.resolveLanguage
    (settingsHost [("code-reviewer"%string, "reviewLanguage"%string, Js.lit "toString")] "en")
  = Js.lit "toString".
Proof. reflexivity. Qed.

Lemma git_only_placeholder_dollars :
  GitOnly.buildPrompt
    (settingsHost
       [("code-reviewer"%string, "reviewPrompt.en"%string,
         Js.lit "Review this:" ++ [Js.LF] ++ Js.lit "{{diff}}")] "en")
    [{| fileName := Js.lit "run.sh"; diffText := Js.lit "+echo $$" |}] 0
  = Ret (Js.lit "Review this:" ++ [Js.LF]
         ++ Js.lit "### File: run.sh" ++ [Js.LF] ++ Js.lit "```diff" ++ [Js.LF]
         ++ Js.lit "+echo $" ++ [Js.LF] ++ Js.lit "```").
Proof. reflexivity. Qed.

(* ===================================================================== *)
(** * Further properties of the diff resolver *)
(* ===================================================================== *)

Section ResolverMore.

Import Js.
Import ReviewDiff.

Lemma trim_nil_of_nil (s : str) : s = [] -> trim s = [].
Proof. now intros ->. Qed.

Lemma or_undefined_Some (v : option str) (d : str) :
  or_undefined v = Some d -> v = Some d /\ d <> [].
Proof.
  unfold or_undefined, truthy. destruct v as [[|x r]|]; try discriminate.
  intros [= <-]. split; [reflexivity | discriminate].
Qed.

Lemma buildPseudoDiff_nonempty relativePath content prefix fromHeader toHeader :
  buildPseudoDiff relativePath content prefix fromHeader toHeader <> [].
Proof.
  unfold buildPseudoDiff. cbv zeta. cbn [app]. rewrite join_cons.
  change (lit "--- " ++ fromHeader)
    with (45%N :: 45%N :: 45%N :: 32%N :: fromHeader).
  discriminate.
Qed.

Lemma getDiffTextGit_nonempty (h : Host) (repo : Repository) (resourceUri : Uri) (d : str) :
  getDiffTextGit h repo resourceUri = Ret (Some d) -> d <> [].
Proof.
  unfold getDiffTextGit.
  assert (Hsyn : forall m prefix fromHeader toHeader,
             (await content <- m ;
              if isBinary content then Ret None
              else Ret (Some (buildPseudoDiff (asRelativePath h resourceUri) content
                                prefix fromHeader toHeader))) = Ret (Some d) ->
             d <> []).
  { intros [content|] prefix fromHeader toHeader; cbn [bindExc]; [|discriminate].
    destruct (isBinary content); [discriminate|].
    intros [= <-]. apply buildPseudoDiff_nonempty. }
  assert (Hmod : (await diffText <- diffWithHEAD repo (fsPath resourceUri) ;
                  await diffText <-
                    (if negb (truthy (Some diffText)) || str_eqb (trim diffText) []
                     then diffIndexWithHEAD repo (fsPath resourceUri)
                     else Ret diffText) ;
                  Ret (or_undefined (Some diffText))) = Ret (Some d) ->
                 d <> []).
  { destruct (diffWithHEAD repo (fsPath resourceUri)) as [w|]; cbn [bindExc]; [|discriminate].
    destruct (negb (truthy (Some w)) || str_eqb (trim w) []);
      [destruct (diffIndexWithHEAD repo (fsPath resourceUri)) as [s|]|];
      cbn [bindExc]; try discriminate;
      intros [= H]; now apply or_undefined_Some in H. }
  destruct (option_map status _) as [[]|]; first [exact Hmod | apply Hsyn].
Qed.

Lemma getSvnDiffOutput_Some (h : Host) (filePath scmRoot : Path) (d : str) :
  getSvnDiffOutput h filePath scmRoot = Ret (Some d)
  <-> exists r, exec h SvnDiff filePath scmRoot = Ret r
                /\ err r = false /\ trim (stdout r) = d /\ d <> [].
Proof.
  unfold getSvnDiffOutput.
  destruct (exec h SvnDiff filePath scmRoot) as [r|]; cbn [bindExc].
  - split.
    + destruct (err r) eqn:E; [discriminate|].
      intros [= H]. apply or_undefined_Some in H as [[= <-] Hne].
      exists r. now repeat split.
    + intros (r' & Hr & He & Ht & Hne). injection Hr as <-.
      rewrite He, Ht. destruct d; [congruence | reflexivity].
  - split; [discriminate | intros (r & H & _); discriminate H].
Qed.

Lemma getDiffTextSvn_nonempty (h : Host) (resourceUri : Uri) (scmRoot : Path) (d : str) :
  getDiffTextSvn h resourceUri scmRoot = Ret (Some d) -> d <> [].
Proof.
  unfold getDiffTextSvn.
  destruct (getSvnStatus h (fsPath resourceUri) scmRoot) as [status|];
    cbn [bindExc]; [|discriminate].
  destruct (is_status _ "A" || is_status _ "?").
  - destruct (readFile h resourceUri) as [content|]; cbn [bindExc]; [|discriminate].
    destruct (isBinary content); [discriminate|].
    intros [= <-]. apply buildPseudoDiff_nonempty.
  - destruct (is_status _ "D" || is_status _ "!").
    + destruct (getSvnDiffOutput h (fsPath resourceUri) scmRoot) as [[[|x o]|]|] eqn:Ho;
        cbn [bindExc truthy]; try discriminate.
      * apply getSvnDiffOutput_Some in Ho. now destruct Ho as (_ & _ & _ & _ & ?).
      * intros [= <-]. discriminate.
      * destruct (getSvnBaseContent h (fsPath resourceUri) scmRoot) as [[[|y c]|]|];
          cbn [bindExc]; try discriminate.
        destruct (isBinary (y :: c)); [discriminate|].
        intros [= <-]. apply buildPseudoDiff_nonempty.
    + intros H. apply getSvnDiffOutput_Some in H. now destruct H as (_ & _ & _ & _ & ?).
Qed.

(** X1. Whatever the resolver returns as a diff text is not the empty string:
    a file has a diff with at least one character, or it has none. *)
Theorem resolved_diff_never_empty (h : Host) (resourceUri : Uri)
    (gitAPI : option GitAPI) (d : str) :
  getFileDiffText h resourceUri gitAPI = Ret (Some d) -> d <> [].
Proof.
  unfold getFileDiffText, trySvn.
  assert (Hsvn : match findScmRoot h (fsPath resourceUri) with
                 | Some {| root := root; type := svn |} => getDiffTextSvn h resourceUri root
                 | _ => Ret None
                 end = Ret (Some d) -> d <> []).
  { destruct (findScmRoot h (fsPath resourceUri)) as [[root [|]]|]; try discriminate.
    apply getDiffTextSvn_nonempty. }
  destruct gitAPI as [api|]; [|exact Hsvn].
  destruct (getRepositoryForUri api resourceUri) as [repo|]; [|exact Hsvn].
  apply getDiffTextGit_nonempty.
Qed.

Lemma resolved_diff_never_empty_witness :
  lit "+new line" <> [].
Proof.
  pose (h := svnHost [ [lit "repo"; lit ".svn"] ] "M       a.txt"
                     {| err := false; stdout := lit "+new line" |}
                     {| err := true; stdout := [] |} (fun _ => Throw)).
  exact (resolved_diff_never_empty h (fileAt "a.txt") (getGitAPI h) (lit "+new line")
           eq_refl).
Defined.

(** On a status that asks for a diff, [getDiffTextGit] is its last part. *)
Lemma getDiffTextGit_asks (h : Host) (repo : Repository) (resourceUri : Uri) :
  asksForDiff
    (option_map status
       (find (fun c => path_eqb (fsPath (uri c)) (fsPath resourceUri))
             (workingTreeChanges repo ++ indexChanges repo))) = true ->
  getDiffTextGit h repo resourceUri
  = (await diffText <- diffWithHEAD repo (fsPath resourceUri) ;
     await diffText <-
       (if negb (truthy (Some diffText)) || str_eqb (trim diffText) []
        then diffIndexWithHEAD repo (fsPath resourceUri)
        else Ret diffText) ;
     Ret (or_undefined (Some diffText))).
Proof.
  unfold getDiffTextGit.
  destruct (option_map status _) as [[]|]; cbn [asksForDiff];
    first [discriminate | reflexivity].
Qed.

(** X2. A changed file that is neither new nor deleted gets its working-tree
    diff, exactly as the repository gives it, whenever that diff is more than
    white space; the staged diff is then not asked for. *)
Theorem working_tree_diff_preferred (h : Host) (repo : Repository) (resourceUri : Uri)
    (w : str) :
  asksForDiff
    (option_map status
       (find (fun c => path_eqb (fsPath (uri c)) (fsPath resourceUri))
             (workingTreeChanges repo ++ indexChanges repo))) = true ->
  diffWithHEAD repo (fsPath resourceUri) = Ret w ->
  trim w <> [] ->
  getDiffTextGit h repo resourceUri = Ret (Some w).
Proof.
  intros Hst Hw Hblank. rewrite (getDiffTextGit_asks h repo resourceUri Hst), Hw.
  cbn [bindExc].
  destruct w as [|x r]; [now contradiction Hblank|].
  cbn [truthy negb orb].
  destruct (str_eqb (trim (x :: r)) []) eqn:E;
    [apply str_eqb_eq in E; congruence|].
  reflexivity.
Qed.

Lemma working_tree_diff_preferred_witness :
  let repo := {| workingTreeChanges := [{| uri := fileAt "a.txt"; status := MODIFIED |}];
                 indexChanges := [];
                 show := fun _ _ => Throw;
                 diffWithHEAD := fun _ => Ret (lit "+unstaged" ++ [LF]);
                 diffIndexWithHEAD := fun _ => Throw |} in
  getDiffTextGit (gitHost repo (fun _ => Throw) None) repo (fileAt "a.txt")
  = Ret (Some (lit "+unstaged" ++ [LF])).
Proof.
  intros repo.
  refine (working_tree_diff_preferred (gitHost repo (fun _ => Throw) None) repo
            (fileAt "a.txt") (lit "+unstaged" ++ [LF]) eq_refl eq_refl _).
  discriminate.
Defined.

(** X3. When the working-tree diff of such a file is empty or only white
    space, the file gets its staged diff instead, as the repository gives it,
    and no diff when the staged diff is the empty string. *)
Theorem staged_diff_as_fallback (h : Host) (repo : Repository) (resourceUri : Uri)
    (w s : str) :
  asksForDiff
    (option_map status
       (find (fun c => path_eqb (fsPath (uri c)) (fsPath resourceUri))
             (workingTreeChanges repo ++ indexChanges repo))) = true ->
  diffWithHEAD repo (fsPath resourceUri) = Ret w ->
  trim w = [] ->
  diffIndexWithHEAD repo (fsPath resourceUri) = Ret s ->
  getDiffTextGit h repo resourceUri
  = Ret (match s with [] => None | _ :: _ => Some s end).
Proof.
  intros Hst Hw Hblank Hs. rewrite (getDiffTextGit_asks h repo resourceUri Hst), Hw.
  cbn [bindExc]. rewrite Hblank, str_eqb_refl, orb_true_r, Hs.
  cbn [bindExc]. destruct s; reflexivity.
Qed.

Lemma staged_diff_as_fallback_witness :
  let repo := {| workingTreeChanges := [];
                 indexChanges := [{| uri := fileAt "a.txt"; status := INDEX_MODIFIED |}];
                 show := fun _ _ => Throw;
                 diffWithHEAD := fun _ => Ret [LF];
                 diffIndexWithHEAD := fun _ => Ret (lit "+staged") |} in
  getDiffTextGit (gitHost repo (fun _ => Throw) None) repo (fileAt "a.txt")
  = Ret (Some (lit "+staged")).
Proof.
  intros repo.
  exact (staged_diff_as_fallback (gitHost repo (fun _ => Throw) None) repo
           (fileAt "a.txt") [LF] (lit "+staged") eq_refl eq_refl eq_refl eq_refl).
Defined.

(** X4. A new or deleted file whose content holds a null byte gets no diff:
    the result is absent, not a failure. *)
Theorem binary_content_gives_no_diff (h : Host) (repo : Repository) (resourceUri : Uri)
    (c : Change) (content : str) :
  find (fun c => path_eqb (fsPath (uri c)) (fsPath resourceUri))
       (workingTreeChanges repo ++ indexChanges repo) = Some c ->
  (In (status c) [UNTRACKED; INTENT_TO_ADD] /\ readFile h resourceUri = Ret content)
  \/ (In (status c) [DELETED; INDEX_DELETED]
      /\ show repo (lit "HEAD") (fsPath resourceUri) = Ret content) ->
  In NUL content ->
  getDiffTextGit h repo resourceUri = Ret None.
Proof.
  intros Hfind Hst Hnul.
  assert (Hbin : isBinary content = true)
    by (rewrite isBinary_has; now apply has_In).
  unfold getDiffTextGit. rewrite Hfind. cbn [option_map].
  destruct Hst as [[Hst Hread] | [Hst Hshow]]; simpl in Hst;
    repeat destruct Hst as [<- | Hst]; try contradiction;
    rewrite ?Hread, ?Hshow; cbn [bindExc]; now rewrite Hbin.
Qed.

Lemma binary_content_gives_no_diff_witness :
  let repo := sampleRepo [{| uri := fileAt "a.png"; status := UNTRACKED |}]
                         (fun _ => Throw) (fun _ => Throw) in
  getDiffTextGit (gitHost repo (fun _ => Ret (lit "PNG" ++ [NUL] ++ lit "data")) None)
    repo (fileAt "a.png")
  = Ret None.
Proof.
  intros repo.
  refine (binary_content_gives_no_diff
            (gitHost repo (fun _ => Ret (lit "PNG" ++ [NUL] ++ lit "data")) None)
            repo (fileAt "a.png") {| uri := fileAt "a.png"; status := UNTRACKED |}
            (lit "PNG" ++ [NUL] ++ lit "data") eq_refl
            (or_introl (conj (or_introl eq_refl) eq_refl)) _).
  right. right. right. left. reflexivity.
Defined.

Lemma is_status_true (status : option str) (c : string) :
  is_status status c = true <-> status = Some (lit c).
Proof.
  unfold is_status. destruct status as [s|]; [|split; discriminate].
  rewrite str_eqb_eq. split; congruence.
Qed.

(** X5. The SVN backend fails exactly when a call of [cp.exec] that it makes
    throws before calling back -- for the status; for the diff of a file
    whose status is not added or unversioned; for the base revision of a
    deleted or missing file for which [svn diff] gave nothing -- or when the
    status is added or unversioned and reading the file fails.  An [svn]
    command that ends with an error never makes it fail. *)
Theorem svn_backend_failures (h : Host) (resourceUri : Uri) (scmRoot : Path) :
  getDiffTextSvn h resourceUri scmRoot = Throw
  <-> exec h SvnStatus (fsPath resourceUri) scmRoot = Throw
      \/ exists s,
           getSvnStatus h (fsPath resourceUri) scmRoot = Ret s
           /\ ((s = Some (lit "A") \/ s = Some (lit "?"))
                /\ readFile h resourceUri = Throw
               \/ (s <> Some (lit "A") /\ s <> Some (lit "?"))
                  /\ exec h SvnDiff (fsPath resourceUri) scmRoot = Throw
               \/ (s = Some (lit "D") \/ s = Some (lit "!"))
                  /\ getSvnDiffOutput h (fsPath resourceUri) scmRoot = Ret None
                  /\ exec h SvnCatBase (fsPath resourceUri) scmRoot = Throw).
Proof.
  unfold getDiffTextSvn.
  assert (Hstatus : getSvnStatus h (fsPath resourceUri) scmRoot = Throw
                    <-> exec h SvnStatus (fsPath resourceUri) scmRoot = Throw).
  { unfold getSvnStatus. destruct (exec h SvnStatus _ _); cbn [bindExc];
      split; (discriminate || reflexivity). }
  assert (Hdiff : getSvnDiffOutput h (fsPath resourceUri) scmRoot = Throw
                  <-> exec h SvnDiff (fsPath resourceUri) scmRoot = Throw).
  { unfold getSvnDiffOutput. destruct (exec h SvnDiff _ _); cbn [bindExc];
      split; (discriminate || reflexivity). }
  assert (Hbase : getSvnBaseContent h (fsPath resourceUri) scmRoot = Throw
                  <-> exec h SvnCatBase (fsPath resourceUri) scmRoot = Throw).
  { unfold getSvnBaseContent. destruct (exec h SvnCatBase _ _); cbn [bindExc];
      split; (discriminate || reflexivity). }
  destruct (getSvnStatus h (fsPath resourceUri) scmRoot) as [s|] eqn:Hs; cbn [bindExc].
  2: { split; [intros _; left; now apply Hstatus | reflexivity]. }
  assert (Hran : exec h SvnStatus (fsPath resourceUri) scmRoot <> Throw)
    by (intros H; apply Hstatus in H; discriminate H).
  destruct (is_status s "A" || is_status s "?") eqn:Enew.
  - apply orb_true_iff in Enew. rewrite !is_status_true in Enew.
    assert (Hnot : ~ (s <> Some (lit "A") /\ s <> Some (lit "?")))
      by (intros [HA HQ]; destruct Enew; contradiction).
    assert (Hdel : ~ (s = Some (lit "D") \/ s = Some (lit "!")))
      by (intros [-> | ->]; destruct Enew as [E | E]; discriminate E).
    destruct (readFile h resourceUri) as [content|]; cbn [bindExc].
    + split; [destruct (isBinary content); discriminate|].
      intros [H | (s' & [= <-] & [[_ H] | [[H _] | [H _]]])];
        [contradiction | discriminate H | contradiction | contradiction].
    + split; [|reflexivity]. intros _. right. exists s. split; [reflexivity|].
      left. now split.
  - apply orb_false_iff in Enew as [EA EQ].
    assert (HA : s <> Some (lit "A")) by (intros H; apply is_status_true in H; congruence).
    assert (HQ : s <> Some (lit "?")) by (intros H; apply is_status_true in H; congruence).
    destruct (is_status s "D" || is_status s "!") eqn:Edel.
    + apply orb_true_iff in Edel. rewrite !is_status_true in Edel.
      destruct (getSvnDiffOutput h (fsPath resourceUri) scmRoot) as [[[|x o]|]|] eqn:Ho;
        cbn [bindExc truthy].
      * apply getSvnDiffOutput_Some in Ho. now destruct Ho as (_ & _ & _ & _ & ?).
      * split; [discriminate|].
        intros [H | (s' & [= <-] & [[[H | H] _] | [[_ H] | [_ [H _]]]])];
          try contradiction; try (apply Hdiff in H; discriminate H); discriminate H.
      * destruct (getSvnBaseContent h (fsPath resourceUri) scmRoot) as [[[|y c]|]|] eqn:Hb;
          cbn [bindExc].
        -- split; [discriminate|].
           intros [H | (s' & [= <-] & [[[H | H] _] | [[_ H] | [_ [_ H]]]])];
             try contradiction; try (apply Hdiff in H; discriminate H);
             apply Hbase in H; discriminate H.
        -- split; [destruct (isBinary (y :: c)); discriminate|].
           intros [H | (s' & [= <-] & [[[H | H] _] | [[_ H] | [_ [_ H]]]])];
             try contradiction; try (apply Hdiff in H; discriminate H);
             apply Hbase in H; discriminate H.
        -- split; [discriminate|].
           intros [H | (s' & [= <-] & [[[H | H] _] | [[_ H] | [_ [_ H]]]])];
             try contradiction; try (apply Hdiff in H; discriminate H);
             apply Hbase in H; discriminate H.
        -- split; [|reflexivity]. intros _. right. exists s. split; [reflexivity|].
           right. right. repeat split; [assumption | now apply Hbase].
      * split; [|reflexivity]. intros _. right. exists s. split; [reflexivity|].
        right. left. repeat split; [assumption.. | now apply Hdiff].
    + assert (Hdel : ~ (s = Some (lit "D") \/ s = Some (lit "!"))).
      { intros [H | H]; apply is_status_true in H; rewrite H in Edel;
          [discriminate Edel | rewrite orb_true_r in Edel; discriminate Edel]. }
      destruct (getSvnDiffOutput h (fsPath resourceUri) scmRoot) as [o|] eqn:Ho.
      * split; [discriminate|].
        intros [H | (s' & [= <-] & [[[H | H] _] | [[_ H] | [H _]]])];
          try contradiction; apply Hdiff in H; discriminate H.
      * split; [|reflexivity]. intros _. right. exists s. split; [reflexivity|].
        right. left. repeat split; [assumption.. | now apply Hdiff].
Qed.

(** X6. For a file whose SVN status is not added or unversioned, a [svn diff]
    that succeeds and prints more than white space is the result, with the
    white space around it removed; for a deleted or missing file the base
    revision is then not read. *)
Theorem svn_diff_output_preferred (h : Host) (resourceUri : Uri) (scmRoot : Path)
    (s : option str) (r : ExecResult) :
  getSvnStatus h (fsPath resourceUri) scmRoot = Ret s ->
  s <> Some (lit "A") ->
  s <> Some (lit "?") ->
  exec h SvnDiff (fsPath resourceUri) scmRoot = Ret r ->
  err r = false ->
  trim (stdout r) <> [] ->
  getDiffTextSvn h resourceUri scmRoot = Ret (Some (trim (stdout r))).
Proof.
  intros Hs HA HQ Hr Herr Hout. unfold getDiffTextSvn. rewrite Hs. cbn [bindExc].
  destruct (is_status s "A") eqn:EA; [apply is_status_true in EA; contradiction|].
  destruct (is_status s "?") eqn:EQ; [apply is_status_true in EQ; contradiction|].
  cbn [orb].
  assert (Hdiff : getSvnDiffOutput h (fsPath resourceUri) scmRoot
                  = Ret (Some (trim (stdout r)))).
  { apply getSvnDiffOutput_Some. exists r. now repeat split. }
  rewrite Hdiff. cbn [bindExc].
  destruct (is_status s "D" || is_status s "!"); [|reflexivity].
  destruct (trim (stdout r)); [congruence | reflexivity].
Qed.

Lemma svn_diff_output_preferred_witness :
  getDiffTextSvn
    (svnHost [ [lit "repo"; lit ".svn"] ] "D       a.txt"
       {| err := false; stdout := [LF] ++ lit "-old line" ++ [LF] |}
       {| err := false; stdout := lit "old line" |} (fun _ => Throw))
    (fileAt "a.txt") [lit "repo"]
  = Ret (Some (trim ([LF] ++ lit "-old line" ++ [LF]))).
Proof.
  refine (svn_diff_output_preferred
            (svnHost [ [lit "repo"; lit ".svn"] ] "D       a.txt"
               {| err := false; stdout := [LF] ++ lit "-old line" ++ [LF] |}
               {| err := false; stdout := lit "old line" |} (fun _ => Throw))
            (fileAt "a.txt") [lit "repo"] (Some (lit "D"))
            {| err := false; stdout := [LF] ++ lit "-old line" ++ [LF] |}
            eq_refl _ _ eq_refl eq_refl _); discriminate.
Defined.

(** X7. For a deleted or missing file for which [svn diff] gave nothing, and
    whose [svn cat -r BASE] was run, the SVN backend gives no diff exactly
    when that command failed, printed nothing, or printed a null byte. *)
Theorem svn_deleted_without_base (h : Host) (resourceUri : Uri) (scmRoot : Path)
    (r : ExecResult) :
  getSvnStatus h (fsPath resourceUri) scmRoot = Ret (Some (lit "D"))
  \/ getSvnStatus h (fsPath resourceUri) scmRoot = Ret (Some (lit "!")) ->
  getSvnDiffOutput h (fsPath resourceUri) scmRoot = Ret None ->
  exec h SvnCatBase (fsPath resourceUri) scmRoot = Ret r ->
  getDiffTextSvn h resourceUri scmRoot = Ret None
  <-> (err r = true \/ stdout r = [] \/ In NUL (stdout r)).
Proof.
  intros Hst Hdiff Hr. unfold getDiffTextSvn.
  destruct Hst as [-> | ->]; cbn [bindExc]; eval_status; rewrite Hdiff;
    cbn [bindExc truthy]; unfold getSvnBaseContent; rewrite Hr; cbn [bindExc];
    destruct r as [e out]; cbn [err stdout];
    (destruct e; [split; [now left | reflexivity]|]);
    (destruct out as [|x out]; [split; [right; now left | reflexivity]|]);
    cbn [or_undefined truthy]; rewrite isBinary_has;
    (destruct (has NUL (x :: out)) eqn:E;
     [ split; [intros _; right; right; now apply has_In | reflexivity]
     | split; [discriminate|];
       intros [H | [H | H]]; [discriminate H | discriminate H |];
       apply has_In in H; congruence ]).
Qed.

Lemma svn_deleted_without_base_witness :
  let h := svnHost [ [lit "repo"; lit ".svn"] ] "!       a.txt"
             {| err := true; stdout := [] |} {| err := true; stdout := [] |}
             (fun _ => Throw) in
  getDiffTextSvn h (fileAt "a.txt") [lit "repo"] = Ret None.
Proof.
  intros h.
  apply (svn_deleted_without_base h (fileAt "a.txt") [lit "repo"]
           {| err := true; stdout := [] |} (or_intror eq_refl) eq_refl eq_refl).
  left. reflexivity.
Defined.

(** Witnesses of the two SVN syntheses. *)
Lemma svn_added_file_synthesis_witness :
  let h := svnHost [ [lit "repo"; lit ".svn"] ] "?       a.txt"
             {| err := true; stdout := [] |} {| err := true; stdout := [] |}
             (fun _ => Ret (textOfLines [lit "one"; lit "two"])) in
  getDiffTextSvn h (fileAt "a.txt") [lit "repo"]
  = Ret (Some (join [LF]
                 ([ lit "--- /dev/null";
                    lit "+++ b/" ++ lit "a.txt";
                    lit "@@ -0,0 +1," ++ lit "2" ++ lit " @@" ]
                  ++ [lit "+one"; lit "+two"]))).
Proof.
  intros h.
  exact (svn_added_file_synthesis h (fileAt "a.txt") [lit "repo"] [lit "one"; lit "two"]
           (or_intror eq_refl) eq_refl eq_refl eq_refl).
Defined.

Lemma svn_removed_file_synthesis_witness :
  let h := svnHost [ [lit "repo"; lit ".svn"] ] "D       a.txt"
             {| err := false; stdout := [] |}
             {| err := false; stdout := lit "one" ++ [LF] ++ lit "two" |}
             (fun _ => Throw) in
  getDiffTextSvn h (fileAt "a.txt") [lit "repo"]
  = Ret (Some (join [LF]
                 ([ lit "--- a/" ++ lit "a.txt";
                    lit "+++ /dev/null";
                    lit "@@ -1," ++ lit "2" ++ lit " +0,0 @@" ]
                  ++ [lit "-one"; lit "-two"]))).
Proof.
  intros h.
  refine (svn_removed_file_synthesis h (fileAt "a.txt") [lit "repo"]
            (lit "one" ++ [LF] ++ lit "two") [lit "one"; lit "two"]
            (or_introl eq_refl) eq_refl eq_refl _ eq_refl _).
  - discriminate.
  - split; [reflexivity | right; split; [discriminate | reflexivity]].
Defined.

End ResolverMore.

(* ===================================================================== *)
(** * Further properties of the walk to the SCM root *)
(* ===================================================================== *)

Section ScmRootMore.

Import Js.

(** The walk of [findScmRoot] answers with a directory it visited. *)
Lemma findScmRootFrom_sound (h : Host) (dir : Path) (i : ScmInfo) :
  ReviewDiff.findScmRootFrom h dir = Some i ->
  nearestMarked h dir (root i)
  /\ type i = (if marked h (root i) ".git" then git else svn).
Proof.
  revert i. induction dir as [|x dir IH] using rev_ind; intros i;
    rewrite findScmRootFrom_unfold.
  - destruct (marked h [] ".git") eqn:Eg.
    + intros [= <-]. cbn [root type]. rewrite Eg. split; [|reflexivity].
      exists []. repeat split; [now rewrite Eg|]. simpl. lia.
    + destruct (marked h [] ".svn") eqn:Es; [|discriminate].
      intros [= <-]. cbn [root type]. rewrite Eg. split; [|reflexivity].
      exists []. repeat split; [now rewrite Eg, Es|]. simpl. lia.
  - rewrite dirname_snoc, path_snoc_neq.
    destruct (marked h (dir ++ [x]) ".git") eqn:Eg.
    + intros [= <-]. cbn [root type]. rewrite Eg. split; [|reflexivity].
      exists []. rewrite app_nil_r. repeat split; [now rewrite Eg|]. simpl. lia.
    + destruct (marked h (dir ++ [x]) ".svn") eqn:Es.
      * intros [= <-]. cbn [root type]. rewrite Eg. split; [|reflexivity].
        exists []. rewrite app_nil_r. repeat split; [now rewrite Eg, Es|]. simpl. lia.
      * intros Hi. destruct (IH i Hi) as [(below & Hdir & Hroot & Hnone) Htype].
        split; [|exact Htype].
        exists (below ++ [x]). split; [now rewrite app_assoc, <- Hdir|].
        split; [exact Hroot|].
        intros k Hk. rewrite length_app in Hk. simpl in Hk.
        destruct (Nat.eq_dec k (List.length below + 1)) as [-> | Hneq].
        -- replace (List.length below + 1)%nat with (List.length (below ++ [x]))
             by (rewrite length_app; reflexivity).
           rewrite firstn_all, app_assoc, <- Hdir, Eg, Es. reflexivity.
        -- rewrite firstn_app.
           replace (k - List.length below)%nat with O by lia.
           rewrite firstn_O, app_nil_r. apply Hnone. lia.
Qed.

Lemma findScmRootFrom_unmarked (h : Host) (dir : Path) :
  ReviewDiff.findScmRootFrom h dir = None ->
  forall k, (k <= List.length dir)%nat ->
    marked h (firstn k dir) ".git" || marked h (firstn k dir) ".svn" = false.
Proof.
  induction dir as [|x dir IH] using rev_ind; rewrite findScmRootFrom_unfold.
  - destruct (marked h [] ".git") eqn:Eg; [discriminate|].
    destruct (marked h [] ".svn") eqn:Es; [discriminate|].
    intros _ k Hk. rewrite firstn_nil, Eg, Es. reflexivity.
  - rewrite dirname_snoc, path_snoc_neq.
    destruct (marked h (dir ++ [x]) ".git") eqn:Eg; [discriminate|].
    destruct (marked h (dir ++ [x]) ".svn") eqn:Es; [discriminate|].
    intros Hnone k Hk. rewrite length_app in Hk. simpl in Hk.
    destruct (Nat.eq_dec k (List.length dir + 1)) as [-> | Hneq].
    + replace (List.length dir + 1)%nat with (List.length (dir ++ [x]))
        by (rewrite length_app; reflexivity).
      rewrite firstn_all, Eg, Es. reflexivity.
    + rewrite firstn_app.
      replace (k - List.length dir)%nat with O by lia.
      rewrite firstn_O, app_nil_r. apply (IH Hnone). lia.
Qed.

(** X10. Whatever root [findScmRoot] answers with is the nearest directory,
    from the file's directory upwards, that holds [.git] or [.svn], and the
    kind it names is [git] exactly when that directory holds [.git]. *)
Theorem scm_root_is_nearest_marker (h : Host) (filePath : Path) (i : ScmInfo) :
  ReviewDiff.findScmRoot h filePath = Some i ->
  nearestMarked h (dirname filePath) (root i)
  /\ (type i = git <-> marked h (root i) ".git" = true).
Proof.
  intros Hi. destruct (findScmRootFrom_sound h _ i Hi) as [Hnear Htype].
  split; [exact Hnear|]. rewrite Htype.
  destruct (marked h (root i) ".git"); split; congruence.
Qed.

Lemma scm_root_is_nearest_marker_witness :
  let h := svnHost [ [lit "repo"; lit ".svn"]; [lit ".git"] ] "" {| err := true; stdout := [] |}
             {| err := true; stdout := [] |} (fun _ => Throw) in
  nearestMarked h [lit "repo"; lit "src"] [lit "repo"]
  /\ (svn = git <-> marked h [lit "repo"] ".git" = true).
Proof.
  intros h.
  exact (scm_root_is_nearest_marker h [lit "repo"; lit "src"; lit "a.txt"]
           {| root := [lit "repo"]; type := svn |} eq_refl).
Defined.

(** X11. [findScmRoot] answers with nothing exactly when no directory from the
    file's directory up to the root holds [.git] or [.svn]. *)
Theorem scm_root_absent_iff_unmarked (h : Host) (filePath : Path) :
  ReviewDiff.findScmRoot h filePath = None
  <-> forall k, (k <= List.length (dirname filePath))%nat ->
        marked h (firstn k (dirname filePath)) ".git"
        || marked h (firstn k (dirname filePath)) ".svn" = false.
Proof.
  unfold ReviewDiff.findScmRoot. split.
  - apply findScmRootFrom_unmarked.
  - apply findScmRootFrom_none.
Qed.

End ScmRootMore.
(* ===================================================================== *)
(** * Further properties of the synthesised diffs, the prompt and the language *)
(* ===================================================================== *)

Section PromptMore.

Import Js.
Import PromptTemplates.
Import ReviewDiff.

Lemma join_then_line_feed (ls : list str) :
  ls <> [] -> join [LF] ls ++ [LF] = textOfLines ls.
Proof.
  induction ls as [|l ls IH]; intros Hne; [congruence|].
  change (textOfLines (l :: ls)) with ((l ++ [LF]) ++ textOfLines ls).
  destruct ls as [|q ls].
  - simpl. now rewrite app_nil_r.
  - rewrite join_cons, <- IH by discriminate. now rewrite <- !app_assoc.
Qed.

Lemma textOfLines_last (ls : list str) : last (textOfLines ls) LF = LF.
Proof.
  destruct ls as [|l ls _] using rev_ind; [reflexivity|].
  rewrite textOfLines_snoc, !app_assoc. apply last_last.
Qed.

(** X12. A final line feed makes no difference to a synthesised diff: a content
    that does not end in a line feed and the same content with one added
    give the same text. *)
Theorem final_line_feed_is_ignored (relativePath content : str) (prefix : Prefix)
    (fromHeader toHeader : str) :
  last content LF <> LF ->
  buildPseudoDiff relativePath (content ++ [LF]) prefix fromHeader toHeader
  = buildPseudoDiff relativePath content prefix fromHeader toHeader.
Proof.
  intros Hlast.
  destruct (hasLines_total content) as [ls Hlines].
  rewrite (buildPseudoDiff_of_lines _ content _ _ _ ls Hlines).
  apply buildPseudoDiff_of_lines.
  destruct Hlines as [Hclean [Hc | [Hne Hc]]]; subst content.
  - now rewrite textOfLines_last in Hlast.
  - split; [assumption|]. left. apply join_then_line_feed.
    intros ->. now simpl in Hne.
Qed.

Lemma final_line_feed_is_ignored_witness :
  buildPseudoDiff (lit "a.txt") (lit "one" ++ [LF] ++ lit "two" ++ [LF]) Plus
    (lit "/dev/null") (lit "b/a.txt")
  = buildPseudoDiff (lit "a.txt") (lit "one" ++ [LF] ++ lit "two") Plus
      (lit "/dev/null") (lit "b/a.txt").
Proof.
  refine (final_line_feed_is_ignored (lit "a.txt") (lit "one" ++ [LF] ++ lit "two") Plus
            (lit "/dev/null") (lit "b/a.txt") _).
  discriminate.
Defined.

(** X13. With a supported language and a custom text that is empty or only
    white space, the prompt is the template's header, a blank line, the body
    and the skip footer: such a custom text is ignored. *)
Theorem blank_custom_text_is_ignored (h : Host) (t : PromptTemplate)
    (accepted : list DiffEntry) (skipped : Z) :
  own PROMPT_TEMPLATES (resolveLanguage h) = Some t ->
  trim (getConfig h (lit "code-reviewer") (lit "reviewPrompt." ++ resolveLanguage h) [])
  = [] ->
  buildPrompt h accepted skipped
  = Ret (header t ++ [LF; LF] ++ bodyOf (fileLabel t) accepted ++ footerOf t skipped).
Proof.
  intros Hown Hblank. unfold buildPrompt, get_slot. rewrite Hown.
  cbv zeta. unfold footerOf, bodyOf.
  destruct (skipped >? 0); cbn [bindExc slot_skipNotice slot_fileLabel slot_header];
    rewrite Hblank; reflexivity.
Qed.

Lemma blank_custom_text_is_ignored_witness :
  let h := settingsHost
             [("code-reviewer"%string, "reviewPrompt.en"%string, [LF] ++ lit "  ")] "en" in
  let accepted := [{| fileName := lit "a.txt"; diffText := lit "+x" |}] in
  exists t,
    own PROMPT_TEMPLATES (lit "en") = Some t
    /\ buildPrompt h accepted 1
       = Ret (header t ++ [LF; LF] ++ bodyOf (fileLabel t) accepted ++ footerOf t 1).
Proof.
  intros h accepted. eexists. split; [reflexivity|].
  apply blank_custom_text_is_ignored; reflexivity.
Defined.

(** X14. Assembling the prompt fails in one situation only: the resolved
    language is no key of the table (so it is a name inherited from
    [Object.prototype]) and at least one file was skipped. *)
Theorem prompt_fails_only_on_inherited_name (h : Host) (accepted : list DiffEntry)
    (skipped : Z) :
  buildPrompt h accepted skipped = Throw
  <-> own PROMPT_TEMPLATES (resolveLanguage h) = None /\ skipped > 0.
Proof.
  unfold buildPrompt, get_slot.
  destruct (own PROMPT_TEMPLATES (resolveLanguage h)) as [t|];
    destruct (Z.gtb_spec skipped 0) as [Hpos | Hzero];
    cbn [bindExc slot_skipNotice]; try destruct (truthy _);
    split; try discriminate; try (intros [H1 H2]; (discriminate H1 || lia));
    intros _; split; (reflexivity || lia).
Qed.

Lemma own_In (t : Table) (key : str) (v : PromptTemplate) :
  own t key = Some v -> In key (map fst t).
Proof.
  induction t as [|[k w] t IH]; [discriminate|].
  cbn [own map fst In]. destruct (str_eqb k key) eqn:E.
  - intros _. left. now apply str_eqb_eq.
  - intros H. right. now apply IH.
Qed.

(** X18. The resolved language is always a key of the table or a name
    inherited from [Object.prototype]; the latter only when the setting
    itself is that name. *)
Theorem resolved_language_is_key_or_inherited (h : Host) :
  let configured :=
    getConfig h (lit "copilot-scm-code-reviewer") (lit "reviewLanguage") (lit "auto") in
  In (resolveLanguage h) (map fst PROMPT_TEMPLATES)
  \/ (resolveLanguage h = configured /\ In configured Object_prototype).
Proof.
  intros configured. unfold resolveLanguage. fold configured.
  assert (Hen : In DEFAULT_LANG (map fst PROMPT_TEMPLATES))
    by (right; left; reflexivity).
  assert (Hzh : In (lit "zh-cn") (map fst PROMPT_TEMPLATES))
    by (right; right; left; reflexivity).
  destruct (negb (str_eqb configured (lit "auto"))).
  - unfold js_in. destruct (own PROMPT_TEMPLATES configured) as [t|] eqn:Hown.
    + left. exact (own_In _ _ _ Hown).
    + destruct (existsb (str_eqb configured) Object_prototype) eqn:Hin; [|now left].
      right. split; [reflexivity|].
      apply existsb_exists in Hin as (k & Hk & E).
      apply str_eqb_eq in E. now subst k.
  - destruct (startsWith _ _); [now left|].
    unfold js_in.
    destruct (own PROMPT_TEMPLATES (slice0 _ 2)) as [t|] eqn:Hown.
    + left. exact (own_In _ _ _ Hown).
    + rewrite (short_name_not_inherited _ (slice0_two_short _)). now left.
Qed.

(** Witnesses of the statements on language resolution and custom texts. *)
Lemma resolveLanguage_on_ordinary_settings_witness :
  resolveLanguage (settingsHost [] "zh-TW") = lit "zh-cn"
  /\ resolveLanguage
       (settingsHost [("copilot-scm-code-reviewer"%string, "reviewLanguage"%string, lit "xx")] "fr")
     = lit "en".
Proof.
  split.
  - exact (resolveLanguage_on_ordinary_settings (settingsHost [] "zh-TW") eq_refl).
  - exact (resolveLanguage_on_ordinary_settings
             (settingsHost [("copilot-scm-code-reviewer"%string, "reviewLanguage"%string, lit "xx")]
                "fr") eq_refl).
Defined.

Lemma custom_prompt_without_placeholder_witness :
  let h := settingsHost
             [("code-reviewer"%string, "reviewPrompt.en"%string, lit "Be strict.")] "en" in
  let accepted := [{| fileName := lit "a.txt"; diffText := lit "+x" |}] in
  buildPrompt h accepted 0
  = Ret (lit "Be strict." ++ [LF; LF] ++ bodyOf (lit "File") accepted ++ []).
Proof.
  intros h accepted.
  pose proof (custom_prompt_without_placeholder h) as H.
  specialize (H _ eq_refl accepted 0).
  apply H; [discriminate | reflexivity].
Defined.

Lemma custom_prompt_with_placeholder_witness :
  let h := settingsHost
             [("code-reviewer"%string, "reviewPrompt.en"%string,
               lit "Check {{diff}} carefully.")] "en" in
  let accepted := [{| fileName := lit "a.txt"; diffText := lit "+x" |}] in
  let custom :=
    getConfig h (lit "code-reviewer") (lit "reviewPrompt." ++ resolveLanguage h) [] in
  exists t,
    own PROMPT_TEMPLATES (lit "en") = Some t
    /\ exists i,
        indexOf custom (lit "{{diff}}") = Some i
        /\ buildPrompt h accepted 0
           = Ret (firstn i custom ++ bodyOf (fileLabel t) accepted
                  ++ skipn (i + 8) custom ++ footerOf t 0).
Proof.
  intros h accepted custom. eexists. split; [reflexivity|].
  apply (custom_prompt_with_placeholder h); [reflexivity | discriminate | reflexivity..].
Defined.

End PromptMore.

(* ===================================================================== *)
(** * Further properties of the orchestrator *)
(* ===================================================================== *)

Section CountingEvents.

Import Js.

Lemma countEvents_app (p : Event -> bool) (a b : list Event) :
  countEvents p (a ++ b) = (countEvents p a + countEvents p b)%nat.
Proof. unfold countEvents. now rewrite filter_app, length_app. Qed.

Lemma notices_hold_no_dialog (shown : list Event) :
  forallb isNotice shown = true -> countEvents isWarning shown = O.
Proof.
  induction shown as [|e l IH]; [reflexivity|].
  cbn [forallb]. intros H. apply andb_true_iff in H as [He Hl].
  unfold countEvents in *. cbn [filter].
  destruct e; try discriminate He; cbn [isWarning]; now apply IH.
Qed.

Variable h : Host.
Variable targets_length : Z.
Variable body : SourceControlResourceState -> LoopState -> Control * list Event.

Hypothesis body_shape : forall target st,
  (exists st' shown,
      body target st = (Continue st', shown)
      /\ diffs st' = diffs st /\ totalSize st' = totalSize st
      /\ forallb isNotice shown = true)
  \/ (exists d, body target st
                = sizeCheck h targets_length (asRelativePath h (resourceUri target)) d st).

Lemma body_dialogs target st :
  match body target st with
  | (Continue _, shown) => countEvents isWarning shown = O
  | (_, shown) => (countEvents isWarning shown <= 1)%nat
  end.
Proof.
  destruct (body_shape target st) as [(st' & shown & -> & _ & _ & Hn) | (d & ->)].
  - now apply notices_hold_no_dialog.
  - unfold sizeCheck.
    destruct (_ >? _); [|reflexivity].
    destruct (_ =? _); [|apply Nat.le_0_l].
    destruct (pick h _ _) as [a|]; [destruct (str_eqb a _)|]; apply Nat.le_refl.
Qed.

Lemma forOf_dialogs targets st :
  match forOf body targets st with
  | (Continue _, shown) => countEvents isWarning shown = O
  | (_, shown) => (countEvents isWarning shown <= 1)%nat
  end.
Proof.
  revert st. induction targets as [|t ts IH]; intros st; [reflexivity|].
  cbn [forOf]. pose proof (body_dialogs t st) as Hb.
  destruct (body t st) as [[st'|st'|] shown]; try assumption.
  specialize (IH st'). destruct (forOf body ts st') as [[st''|st''|] later];
    rewrite countEvents_app, Hb; exact IH.
Qed.

Variable buildPrompt : list DiffEntry -> Z -> Exc str.

(** A run built on such a loop has the shape [OneDialogThenOnePrompt]. *)
Lemma run_has_shape (targets : list SourceControlResourceState) :
  OneDialogThenOnePrompt
    match forOf body targets initialState with
    | (Return, shown) => shown
    | (Continue st, shown) | (Break st, shown) => shown ++ afterLoop buildPrompt st
    end.
Proof.
  pose proof (forOf_dialogs targets initialState) as Hd.
  pose proof (forOf_sends_nothing h targets_length body body_shape targets initialState)
    as Hq.
  assert (Hafter : forall st, afterLoop buildPrompt st = []
                     \/ exists prompt,
                          afterLoop buildPrompt st
                          = [ExecuteCommand (lit "workbench.action.chat.open") prompt]).
  { intros st. unfold afterLoop, openChat.
    destruct (_ =? _); [now left|].
    destruct (buildPrompt _ _) as [prompt|]; [right; now exists prompt | now left]. }
  destruct (forOf body targets initialState) as [[st|st|] shown]; cbn [snd] in Hq;
    exists shown; (split; [|split; [exact Hq | rewrite ?Hd; lia]]).
  - destruct (Hafter st) as [-> | [prompt ->]];
      [left; apply app_nil_r | right; now exists prompt].
  - destruct (Hafter st) as [-> | [prompt ->]];
      [left; apply app_nil_r | right; now exists prompt].
  - now left.
Qed.

End CountingEvents.

Section OrchestratorMore.

Import Js.
Import ReviewDiff.

(** X19. A run of either revision shows any number of messages, among them at
    most one dialog, and only then, as the last thing it does, hands at most
    one prompt to the chat panel. *)
Theorem one_dialog_then_one_prompt (h : Host)
    (resourceState : SourceControlResourceState)
    (resourceStates : option (list SourceControlResourceState)) :
  OneDialogThenOnePrompt (reviewDiff h resourceState resourceStates)
  /\ OneDialogThenOnePrompt (GitOnly.reviewDiff h resourceState resourceStates).
Proof.
  split.
  - unfold reviewDiff.
    apply (run_has_shape h _ _ (loopBody_shape h (getGitAPI h) _) (buildPrompt h)).
  - unfold GitOnly.reviewDiff.
    destruct (GitOnly.getGitAPI h) as [[api|] shown] eqn:Hapi.
    + apply (run_has_shape h _ _ (git_only_loopBody_shape h api _) (GitOnly.buildPrompt h)).
    + exists shown. split; [now left|].
      unfold GitOnly.getGitAPI in Hapi.
      destruct (gitExtension h) as [e|]; [destruct (negb (isActive e))|];
        inversion Hapi; subst; split; (reflexivity || (cbv; lia)).
Qed.

Lemma sizeOf_nonneg (accepted : list DiffEntry) : 0 <= sizeOf accepted.
Proof.
  induction accepted as [|e a IH]; simpl; [lia|].
  pose proof (length_nonneg (diffText e)). lia.
Qed.

(** The loop on files whose diffs fit together: it runs off the end. *)
Lemma forOf_within_budget (h : Host) (gitAPI : option GitAPI) (n : Z)
    (targets : list SourceControlResourceState) (st : LoopState) :
  totalSize st + sizeOf (acceptedOf h gitAPI targets) <= DIFF_SIZE_LIMIT ->
  forOf (loopBody h gitAPI n) targets st
  = (Continue {| diffs := diffs st ++ acceptedOf h gitAPI targets;
                 totalSize := totalSize st + sizeOf (acceptedOf h gitAPI targets);
                 skippedCount := skippedCount st + failuresOf h gitAPI targets |},
     noticesOf h gitAPI targets).
Proof.
  revert st. induction targets as [|t ts IH]; intros st Hfit.
  - cbn [forOf acceptedOf failuresOf noticesOf]. rewrite app_nil_r.
    change (sizeOf []) with 0. rewrite !Z.add_0_r. now destruct st.
  - cbn [forOf acceptedOf failuresOf noticesOf] in *. unfold loopBody at 1.
    destruct (getFileDiffText h (resourceUri t) gitAPI) as [[[|x d]|]|].
    + rewrite (IH st Hfit). reflexivity.
    + pose proof (sizeOf_nonneg (acceptedOf h gitAPI ts)) as Hrest.
      cbn [sizeOf fold_right diffText] in Hfit. fold (sizeOf (acceptedOf h gitAPI ts)) in Hfit.
      rewrite sizeCheck_accept by lia.
      rewrite IH by (cbn [totalSize]; lia).
      cbn [diffs totalSize skippedCount app].
      rewrite <- app_assoc. cbn [app sizeOf fold_right diffText].
      fold (sizeOf (acceptedOf h gitAPI ts)).
      now rewrite Z.add_assoc.
    + rewrite (IH st Hfit). reflexivity.
    + rewrite IH by exact Hfit.
      cbn [diffs totalSize skippedCount app]. now rewrite Z.add_assoc.
Qed.

(** X20. When the diffs of the selected files have together at most 50,000
    characters, the loop looks at every file and stops nowhere: the accepted
    diffs are those of the files that have one, in the order of the
    selection; the skipped count is the number of files whose diff could not
    be retrieved (files without diff are not counted); one message is shown
    for each file without accepted diff, and no dialog.  When no diff was
    accepted the run ends there.  Otherwise the prompt is assembled from
    these diffs and this count: when that succeeds -- as it does whenever
    the language is a key of the template table or no file failed -- the run
    ends by handing the prompt to the chat panel, and when it fails nothing
    is sent. *)
Theorem run_within_budget (h : Host)
    (resourceState : SourceControlResourceState)
    (resourceStates : option (list SourceControlResourceState)) :
  let targets := targetsOf resourceState resourceStates in
  let accepted := acceptedOf h (getGitAPI h) targets in
  let failures := failuresOf h (getGitAPI h) targets in
  let notices := noticesOf h (getGitAPI h) targets in
  sizeOf accepted <= DIFF_SIZE_LIMIT ->
  forOf (loopBody h (getGitAPI h) (Z.of_nat (List.length targets))) targets initialState
  = (Continue {| diffs := accepted; totalSize := sizeOf accepted;
                 skippedCount := failures |},
     notices)
  /\ (accepted = [] -> reviewDiff h resourceState resourceStates = notices)
  /\ (forall prompt,
        accepted <> [] ->
        buildPrompt h accepted failures = Ret prompt ->
        reviewDiff h resourceState resourceStates
        = notices ++ [ExecuteCommand (lit "workbench.action.chat.open") prompt])
  /\ (accepted <> [] ->
      buildPrompt h accepted failures = Throw ->
      reviewDiff h resourceState resourceStates = notices)
  /\ (own PromptTemplates.PROMPT_TEMPLATES (PromptTemplates.resolveLanguage h) <> None
      \/ failures = 0 ->
      exists prompt, buildPrompt h accepted failures = Ret prompt).
Proof.
  intros targets accepted failures notices Hfit.
  pose proof (forOf_within_budget h (getGitAPI h) (Z.of_nat (List.length targets))
                targets initialState Hfit) as Hloop.
  cbn [initialState diffs totalSize skippedCount app Z.add] in Hloop.
  fold accepted failures notices in Hloop.
  assert (Hrun : reviewDiff h resourceState resourceStates
                 = notices ++ match accepted with
                              | [] => []
                              | _ :: _ => openChat (buildPrompt h accepted failures)
                              end).
  { unfold reviewDiff. fold targets. rewrite Hloop. unfold afterLoop.
    cbn [diffs skippedCount]. destruct accepted; reflexivity. }
  split; [exact Hloop|]. split; [|split; [|split]].
  - intros Hnone. rewrite Hrun, Hnone. apply app_nil_r.
  - intros prompt Hsome Hprompt. rewrite Hrun, Hprompt.
    destruct accepted; [congruence | reflexivity].
  - intros Hsome Hthrow. rewrite Hrun, Hthrow.
    destruct accepted; [congruence | apply app_nil_r].
  - intros [Hlang | Hzero].
    + now apply buildPrompt_returns.
    + apply buildPrompt_returns_unskipped. lia.
Qed.

Lemma run_within_budget_witness :
  let h := failingHost ["f.txt"]%string [("a.txt", 12%nat); ("c.txt", 20%nat)]%string None in
  let targets := [selected "f.txt"; selected "a.txt"; selected "b.txt"; selected "c.txt"] in
  let accepted := acceptedOf h (getGitAPI h) targets in
  let failures := failuresOf h (getGitAPI h) targets in
  let notices := noticesOf h (getGitAPI h) targets in
  (List.length accepted = 2%nat /\ failures = 1 /\ List.length notices = 2%nat)
  /\ forOf (loopBody h (getGitAPI h) 4) targets initialState
     = (Continue {| diffs := accepted; totalSize := sizeOf accepted;
                    skippedCount := failures |},
        notices)
  /\ exists prompt,
       buildPrompt h accepted failures = Ret prompt
       /\ reviewDiff h (selected "f.txt") (Some targets)
          = notices ++ [ExecuteCommand (lit "workbench.action.chat.open") prompt].
Proof.
  intros h targets accepted failures notices.
  split; [repeat split|].
  assert (Hfit : sizeOf accepted <= DIFF_SIZE_LIMIT) by (vm_compute; discriminate).
  destruct (run_within_budget h (selected "f.txt") (Some targets) Hfit)
    as (Hloop & _ & Hsend & _ & Hbuilt).
  split; [exact Hloop|].
  assert (Hlang : own PromptTemplates.PROMPT_TEMPLATES (PromptTemplates.resolveLanguage h)
                  <> None) by discriminate.
  destruct (Hbuilt (or_introl Hlang)) as [prompt Hprompt].
  exists prompt. split; [exact Hprompt|].
  apply Hsend; [discriminate | exact Hprompt].
Defined.

(** X22. Without an active git extension the Git-only revision shows one
    error message and does nothing else, whatever was selected. *)
Theorem git_only_stops_without_git (h : Host)
    (resourceState : SourceControlResourceState)
    (resourceStates : option (list SourceControlResourceState)) :
  (forall e, gitExtension h = Some e -> isActive e = false) ->
  GitOnly.reviewDiff h resourceState resourceStates
  = [ShowErrorMessage
       match gitExtension h with
       | None => lit "vscode.git extension not found."
       | Some _ => lit "vscode.git extension is not active."
       end].
Proof.
  intros Hoff. unfold GitOnly.reviewDiff, GitOnly.getGitAPI.
  destruct (gitExtension h) as [e|]; [|reflexivity].
  now rewrite (Hoff e eq_refl).
Qed.

Lemma git_only_stops_without_git_witness :
  let h := settingsHost [] "en" in
  gitExtension h = None
  /\ GitOnly.reviewDiff h (selected "a.txt") None
     = [ShowErrorMessage
          match gitExtension h with
          | None => lit "vscode.git extension not found."
          | Some _ => lit "vscode.git extension is not active."
          end].
Proof.
  intros h. split; [reflexivity|].
  apply (git_only_stops_without_git h (selected "a.txt") None).
  intros e He. discriminate He.
Defined.

Lemma git_only_forOf_stray (h : Host) (api : GitAPI) (n : Z)
    (targets : list SourceControlResourceState) (st : LoopState) :
  (forall t, In t targets -> getRepository api (resourceUri t) = None) ->
  forOf (GitOnly.loopBody h api n) targets st
  = (Continue st,
     map (fun t => ShowErrorMessage
                     (lit "Git repository not found: " ++ pathText h (fsPath (resourceUri t))))
         targets).
Proof.
  induction targets as [|t ts IH]; intros Hnone; [reflexivity|].
  cbn [forOf map]. unfold GitOnly.loopBody at 1, GitOnly.getRepositoryForUri.
  rewrite (Hnone t (or_introl eq_refl)).
  rewrite IH by (intros u Hu; apply Hnone; now right). reflexivity.
Qed.

(** X23. In the Git-only revision, when none of the selected files belongs to
    a repository, the run shows one error message per file, naming its path,
    in the order of the selection, and sends nothing. *)
Theorem git_only_files_without_repository (h : Host) (api : GitAPI)
    (resourceState : SourceControlResourceState)
    (resourceStates : option (list SourceControlResourceState)) :
  GitOnly.getGitAPI h = (Some api, []) ->
  (forall t, In t (targetsOf resourceState resourceStates) ->
     getRepository api (resourceUri t) = None) ->
  GitOnly.reviewDiff h resourceState resourceStates
  = map (fun t => ShowErrorMessage
                    (lit "Git repository not found: " ++ pathText h (fsPath (resourceUri t))))
        (targetsOf resourceState resourceStates).
Proof.
  intros Hapi Hnone. unfold GitOnly.reviewDiff. rewrite Hapi.
  rewrite (git_only_forOf_stray h api _ _ initialState Hnone).
  unfold afterLoop. cbn [initialState diffs List.length Z.of_nat Z.eqb].
  apply app_nil_r.
Qed.

Lemma git_only_files_without_repository_witness :
  let targets := [selected "a.txt"; selected "b.txt"] in
  GitOnly.reviewDiff strayHost (selected "a.txt") (Some targets)
  = map (fun t => ShowErrorMessage
                    (lit "Git repository not found: "
                     ++ pathText strayHost (fsPath (resourceUri t))))
        targets.
Proof.
  intros targets.
  refine (git_only_files_without_repository strayHost {| getRepository := fun _ => None |}
            (selected "a.txt") (Some targets) eq_refl _).
  intros t _. reflexivity.
Defined.

End OrchestratorMore.

Section GitOnlyMore.

Import Js.

(** Witnesses of the statements on the size budget of the Git-only revision. *)
Lemma git_only_oversized_first_diff_witness :
  let h := budgetHost [("big.txt", 50001%nat); ("b.txt", 12%nat)]%string
             (Some (lit "Send first 50KB")) in
  let targets := [selected "big.txt"; selected "b.txt"] in
  let label := asRelativePath h (resourceUri (selected "big.txt")) in
  let dialog := ShowWarningMessage (limitMessage label) limitItems in
  let truncated := {| fileName := label;
                      diffText := slice0 (diffOfLength 50001) DIFF_SIZE_LIMIT |} in
  exists prompt,
    GitOnly.buildPrompt h [truncated] (0 + (2 - 1)) = Ret prompt
    /\ GitOnly.reviewDiff h (selected "big.txt") (Some targets)
       = [] ++ [dialog; ExecuteCommand (lit "workbench.action.chat.open") prompt]
    /\ length (diffText truncated) = 50000.
Proof.
  intros h targets label dialog truncated.
  pose (repo := sampleRepo [] (fun _ => Throw)
                  (diffsBySize [("big.txt", 50001%nat); ("b.txt", 12%nat)]%string)).
  assert (Hres : GitOnly.getDiffText h repo (resourceUri (selected "big.txt"))
                 = Ret (Some (diffOfLength 50001))).
  { apply (budget_present [("big.txt", 50001%nat); ("b.txt", 12%nat)]%string
             (Some (lit "Send first 50KB")) "big.txt" 50001); [reflexivity | discriminate]. }
  assert (Hlen : length (diffOfLength 50001) > DIFF_SIZE_LIMIT)
    by (rewrite length_diffOfLength; reflexivity).
  refine (proj1 (git_only_oversized_first_diff h {| getRepository := fun _ => Some repo |}
                   eq_refl (selected "big.txt") (Some targets) [] [selected "b.txt"]
                   (selected "big.txt") initialState [] repo (diffOfLength 50001)
                   eq_refl eq_refl eq_refl Hres eq_refl Hlen _) eq_refl).
  discriminate.
Defined.

Lemma git_only_overflowing_later_diff_witness :
  let h := budgetHost [("a.txt", 12%nat); ("b.txt", 50000%nat)]%string None in
  exists prompt,
    GitOnly.buildPrompt h [entryOfLength "a.txt" 12] (0 + (2 - 1)) = Ret prompt
    /\ GitOnly.reviewDiff h (selected "a.txt") (Some [selected "a.txt"; selected "b.txt"])
       = [] ++ [ExecuteCommand (lit "workbench.action.chat.open") prompt].
Proof.
  intros h.
  pose (repo := sampleRepo [] (fun _ => Throw)
                  (diffsBySize [("a.txt", 12%nat); ("b.txt", 50000%nat)]%string)).
  assert (Hres : GitOnly.getDiffText h repo (resourceUri (selected "b.txt"))
                 = Ret (Some (diffOfLength 50000))).
  { apply (budget_present [("a.txt", 12%nat); ("b.txt", 50000%nat)]%string None
             "b.txt" 50000); [reflexivity | discriminate]. }
  assert (Hover : 12 + length (diffOfLength 50000) > DIFF_SIZE_LIMIT)
    by (rewrite length_diffOfLength; reflexivity).
  refine (git_only_overflowing_later_diff h {| getRepository := fun _ => Some repo |}
            eq_refl (selected "a.txt") (Some [selected "a.txt"; selected "b.txt"])
            [selected "a.txt"] [] (selected "b.txt")
            {| diffs := [entryOfLength "a.txt" 12]; totalSize := 12; skippedCount := 0 |}
            [] repo (diffOfLength 50000)
            eq_refl eq_refl eq_refl Hres _ Hover _); discriminate.
Defined.

Lemma git_only_sent_diffs_bounded_witness :
  let h := budgetHost [("a.txt", 12%nat)]%string None in
  let prompt := match GitOnly.buildPrompt h [entryOfLength "a.txt" 12] 0 with
                | Ret prompt => prompt
                | Throw => []
                end in
  exists api st,
    GitOnly.getGitAPI h = (Some api, [])
    /\ finalState (forOf (GitOnly.loopBody h api 1) [selected "a.txt"] initialState) = Some st
    /\ GitOnly.buildPrompt h (diffs st) (skippedCount st) = Ret prompt
    /\ Forall (fun e => length (diffText e) <= 50000) (diffs st)
    /\ sizeOf (diffs st) <= 50000.
Proof.
  intros h prompt.
  apply (git_only_sent_diffs_bounded h (selected "a.txt") None
           (lit "workbench.action.chat.open") prompt).
  vm_compute. left. reflexivity.
Defined.

End GitOnlyMore.

Section StopCount.

Import Js.
Import ReviewDiff.

Lemma accepted_and_failures_bounded (h : Host) (gitAPI : option GitAPI)
    (targets : list SourceControlResourceState) :
  0 <= failuresOf h gitAPI targets
  /\ Z.of_nat (List.length (acceptedOf h gitAPI targets)) + failuresOf h gitAPI targets
     <= Z.of_nat (List.length targets).
Proof.
  induction targets as [|t ts [IH0 IH]]; [simpl; lia|].
  cbn [acceptedOf failuresOf].
  destruct (getFileDiffText h (resourceUri t) gitAPI) as [[[|x d]|]|];
    cbn [List.length]; lia.
Qed.

(** X21. The skipped count at a size stop, from the resolver's answers alone,
    with a language that is a key of the template table.  When the files
    before some file have diffs that fit together, at least one of them has a
    diff, and the diff of that file takes the total over 50,000 characters,
    the run ends by handing to the chat panel the prompt built from the diffs
    accepted so far; that prompt ends with the skip notice of the language's
    template for the count: the number of selected files minus the number of
    accepted diffs plus the number of files that failed before the stop.  The
    count is at least twice the number of those failures plus one plus the
    number of files after the stop. *)
Theorem size_stop_count (h : Host)
    (resourceState : SourceControlResourceState)
    (resourceStates : option (list SourceControlResourceState))
    (pre rest : list SourceControlResourceState) (target : SourceControlResourceState)
    (d : str) (t : PromptTemplate) :
  let targets := targetsOf resourceState resourceStates in
  let n := Z.of_nat (List.length targets) in
  let accepted := acceptedOf h (getGitAPI h) pre in
  let failures := failuresOf h (getGitAPI h) pre in
  let count := failures + (n - Z.of_nat (List.length accepted)) in
  targets = pre ++ target :: rest ->
  accepted <> [] ->
  sizeOf accepted <= DIFF_SIZE_LIMIT ->
  getFileDiffText h (resourceUri target) (getGitAPI h) = Ret (Some d) ->
  sizeOf accepted + length d > DIFF_SIZE_LIMIT ->
  own PromptTemplates.PROMPT_TEMPLATES (PromptTemplates.resolveLanguage h) = Some t ->
  count >= 2 * failures + 1 + Z.of_nat (List.length rest)
  /\ exists text,
       buildPrompt h accepted count = Ret (text ++ [LF; LF] ++ skipNotice t count)
       /\ reviewDiff h resourceState resourceStates
          = noticesOf h (getGitAPI h) pre
            ++ [ExecuteCommand (lit "workbench.action.chat.open")
                  (text ++ [LF; LF] ++ skipNotice t count)].
Proof.
  intros targets n accepted failures count Htargets Hne Hfit Hres Hover Hlang.
  assert (Hcount : count >= 2 * failures + 1 + Z.of_nat (List.length rest)).
  { destruct (accepted_and_failures_bounded h (getGitAPI h) pre) as [H0 Hsum].
    fold accepted failures in H0, Hsum.
    subst count n. rewrite Htargets, length_app. cbn [List.length]. lia. }
  split; [exact Hcount|].
  destruct (buildPrompt_footer h t accepted count Hlang) as [text Hprompt].
  assert (Hfooter : footerOf t count = [LF; LF] ++ skipNotice t count).
  { unfold footerOf. destruct (Z.gtb_spec count 0) as [_ | Hzero]; [reflexivity|].
    destruct (accepted_and_failures_bounded h (getGitAPI h) pre) as [H0 _].
    fold failures in H0. lia. }
  rewrite Hfooter in Hprompt.
  exists text. split; [exact Hprompt|].
  pose proof (forOf_within_budget h (getGitAPI h) n pre initialState Hfit) as Hpre.
  cbn [initialState diffs totalSize skippedCount app Z.add] in Hpre.
  fold accepted failures in Hpre.
  assert (Hd : d <> []).
  { intros ->. unfold length in Hover. simpl in Hover. lia. }
  pose proof (forOf_over_later h n _ pre rest target _ _ d Hpre
                (loopBody_reaches _ _ _ _ _ _ Hres Hd) Hne Hover) as Hloop.
  cbn [diffs totalSize skippedCount] in Hloop.
  unfold reviewDiff. fold targets. fold n. rewrite Htargets, Hloop.
  unfold afterLoop. cbn [diffs skippedCount]. fold count. rewrite Hprompt.
  destruct accepted as [|e l]; [congruence | reflexivity].
Qed.

Lemma size_stop_count_witness :
  let h := failingHost ["f.txt"]%string [("a.txt", 12%nat); ("b.txt", 50000%nat)]%string
             None in
  let pre := [selected "f.txt"; selected "a.txt"] in
  let targets := pre ++ [selected "b.txt"] in
  let count := failuresOf h (getGitAPI h) pre
               + (Z.of_nat (List.length (targetsOf (selected "f.txt") (Some targets)))
                  - Z.of_nat (List.length (acceptedOf h (getGitAPI h) pre))) in
  count = 3
  /\ exists t,
       own PromptTemplates.PROMPT_TEMPLATES (lit "en") = Some t
       /\ count >= 2 * failuresOf h (getGitAPI h) pre + 1 + Z.of_nat (List.length (@nil SourceControlResourceState))
       /\ exists text,
            buildPrompt h (acceptedOf h (getGitAPI h) pre) count
            = Ret (text ++ [LF; LF] ++ skipNotice t count)
            /\ reviewDiff h (selected "f.txt") (Some targets)
               = noticesOf h (getGitAPI h) pre
                 ++ [ExecuteCommand (lit "workbench.action.chat.open")
                       (text ++ [LF; LF] ++ skipNotice t count)].
Proof.
  intros h pre targets count.
  split; [reflexivity|].
  assert (Hres : getFileDiffText h (resourceUri (selected "b.txt")) (getGitAPI h)
                 = Ret (Some (diffOfLength 50000))).
  { apply (sized_diff_resolves h (fun _ => Throw)
             (diffsOrFailure ["f.txt"]%string [("a.txt", 12%nat); ("b.txt", 50000%nat)]%string)
             (fileAt "b.txt") 50000); [reflexivity | discriminate]. }
  assert (Hover : sizeOf (acceptedOf h (getGitAPI h) pre) + length (diffOfLength 50000)
                  > DIFF_SIZE_LIMIT).
  { rewrite length_diffOfLength. reflexivity. }
  assert (Hfit : sizeOf (acceptedOf h (getGitAPI h) pre) <= DIFF_SIZE_LIMIT)
    by (vm_compute; discriminate).
  eexists. split; [reflexivity|].
  refine (size_stop_count h (selected "f.txt") (Some targets) pre [] (selected "b.txt")
            (diffOfLength 50000) _ eq_refl _ Hfit Hres Hover eq_refl).
  discriminate.
Defined.

End StopCount.
